(** * practo-scraper: the crawl-parse-persist pipeline

    A shallow embedding of the pipeline's fetch layer ([utils/http.py]),
    normalizers and relation extractors ([parser/doctor.py],
    [parser/establishment.py]), persistence operations
    ([db/insert_db.py] with the queries of [config.py]) and the page
    loop of the orchestrator ([main.py]), with the properties of the
    specification stated and settled against them. *)

From Stdlib Require Import ZArith QArith Qreduction Ascii String List Bool Lia.
From Stdlib Require Import Numbers.DecimalString.
From stdpp Require Import base option list strings gmap.

Local Set Warnings "-register-all".
Local Open Scope string_scope.
Local Open Scope list_scope.
Local Open Scope Z_scope.

(** ** Python values and exceptions *)

(** A binary64 value: not-a-number, an infinity, or the rational it
    denotes (the sign of zero is not kept). *)
Inductive pyfloat : Type :=
| FNan
| FInf (neg : bool)
| FFin (q : Q).

(** The values a decoded JSON payload is made of, which are also the
    values the parsers build.  A dict is an association list in
    insertion order, since [tuple(value.values())] depends on it. *)
Inductive PyVal : Type :=
| PNone
| PBool (b : bool)
| PInt (z : Z)
| PFloat (f : pyfloat)
| PStr (s : string)
| PList (l : list PyVal)
| PDict (d : list (string * PyVal)).

(** [RequestError] of [utils/http.py], with the fields [make_request]
    sets. *)
Record RequestErrorInfo : Type := mkRequestError {
  message : string;
  status_code : option Z;
  url : option string
}.

Inductive exn : Type :=
| ValueError
| TypeError
| AttributeError
| IndexError
| KeyError
| OverflowError
| ProgrammingError
| DataError
| RequestError (info : RequestErrorInfo)
| DatabaseError (original_error : exn).

(** A computation that returns or raises. *)
Inductive res (A : Type) : Type :=
| Ok (a : A)
| Raise (e : exn).
Arguments Ok {A} a.
Arguments Raise {A} e.

#[global] Instance res_ret : MRet res := @Ok.
#[global] Instance res_bind : MBind res := fun A B k m =>
  match m with
  | Ok a => k a
  | Raise e => Raise e
  end.

(** ** String builtins *)

Definition is_digit (c : ascii) : bool :=
  let n := nat_of_ascii c in (48 <=? n)%nat && (n <=? 57)%nat.

Definition digit_val (c : ascii) : Z := Z.of_nat (nat_of_ascii c) - 48.

Fixpoint all_chars (p : ascii -> bool) (s : string) : bool :=
  match s with
  | EmptyString => true
  | String c s' => p c && all_chars p s'
  end.

(** [str.isdigit()] on ASCII text: non-empty and digits only. *)
Definition isdigit (s : string) : bool :=
  match s with
  | EmptyString => false
  | _ => all_chars is_digit s
  end.

Fixpoint digits_acc (acc : Z) (s : string) : Z :=
  match s with
  | EmptyString => acc
  | String c s' => digits_acc (10 * acc + digit_val c) s'
  end.

(** [int(s)] for an all-digit [s]. *)
Definition int_of_digits (s : string) : Z := digits_acc 0 s.

(** [str(n)] for an integer. *)
Definition Z_to_string (n : Z) : string :=
  NilZero.string_of_int (Z.to_int n).

(** The characters [str.strip()] removes, within ASCII. *)
Definition is_space (c : ascii) : bool :=
  let n := nat_of_ascii c in
  ((9 <=? n)%nat && (n <=? 13)%nat) || ((28 <=? n)%nat && (n <=? 32)%nat).

Fixpoint lstrip (s : string) : string :=
  match s with
  | String c s' => if is_space c then lstrip s' else s
  | EmptyString => EmptyString
  end.

Fixpoint rstrip (s : string) : string :=
  match s with
  | EmptyString => EmptyString
  | String c s' =>
      match rstrip s' with
      | EmptyString => if is_space c then EmptyString else String c EmptyString
      | r => String c r
      end
  end.

Definition strip (s : string) : string := rstrip (lstrip s).

(** [s.split(sep)] for a one-character separator: every occurrence
    cuts, so that adjacent separators give empty tokens. *)
Fixpoint split (sep : ascii) (s : string) : list string :=
  match s with
  | EmptyString => [EmptyString]
  | String c s' =>
      if Ascii.eqb c sep then EmptyString :: split sep s'
      else match split sep s' with
           | tok :: toks => String c tok :: toks
           | [] => [String c EmptyString]
           end
  end.

(** [sep.join(parts)]. *)
Fixpoint join (sep : string) (parts : list string) : string :=
  match parts with
  | [] => EmptyString
  | [p] => p
  | p :: rest => p +:+ sep +:+ join sep rest
  end.

(** ** [float()]

    [b64_of_Q] rounds a rational to the nearest binary64 value, ties to
    even, with gradual underflow and overflow to an infinity, which is
    how the interpreter's [float] of a decimal literal is specified. *)

Definition round_half_even (a b : Z) : Z :=
  let fl := a / b in
  match 2 * (a mod b) ?= b with
  | Lt => fl
  | Gt => fl + 1
  | Eq => if Z.even fl then fl else fl + 1
  end.

Definition b64_round_pos (n d : Z) : pyfloat :=
  let k0 := Z.log2 n - Z.log2 d in
  let above := if 0 <=? k0 then d * 2 ^ k0 <=? n else d <=? n * 2 ^ (- k0) in
  let k := if above then k0 else k0 - 1 in
  let e := Z.max (k - 52) (-1074) in
  if 0 <=? e then
    let v := round_half_even n (d * 2 ^ e) * 2 ^ e in
    if 2 ^ 1024 <=? v then FInf false else FFin (v # 1)
  else
    FFin (Qred (round_half_even (n * 2 ^ (- e)) d # Z.to_pos (2 ^ (- e)))).

Definition float_neg (f : pyfloat) : pyfloat :=
  match f with
  | FNan => FNan
  | FInf neg => FInf (negb neg)
  | FFin q => FFin (Qopp q)
  end.

Definition b64_of_Q (q : Q) : pyfloat :=
  match Qnum q with
  | Z0 => FFin 0
  | Zpos n => b64_round_pos (Zpos n) (Zpos (Qden q))
  | Zneg n => float_neg (b64_round_pos (Zpos n) (Zpos (Qden q)))
  end.

(** Underscores of a numeric literal: each one stands between two
    digits; they are dropped. *)
Fixpoint drop_underscores (prev : ascii) (s : string) : option string :=
  match s with
  | EmptyString => if Ascii.eqb prev "_" then None else Some EmptyString
  | String c s' =>
      if Ascii.eqb c "_" then
        if is_digit prev then drop_underscores c s' else None
      else if Ascii.eqb prev "_" && negb (is_digit c) then None
      else String c <$> drop_underscores c s'
  end.

(** The text before the first character satisfying [p], and the text
    after it when there is one. *)
Fixpoint break_at (p : ascii -> bool) (s : string) : string * option string :=
  match s with
  | EmptyString => (EmptyString, None)
  | String c s' =>
      if p c then (EmptyString, Some s')
      else let '(a, b) := break_at p s' in (String c a, b)
  end.

Definition to_lower (c : ascii) : ascii :=
  let n := nat_of_ascii c in
  if (65 <=? n)%nat && (n <=? 90)%nat then ascii_of_nat (n + 32) else c.

Fixpoint lower (s : string) : string :=
  match s with
  | EmptyString => EmptyString
  | String c s' => String (to_lower c) (lower s')
  end.

Definition split_sign (s : string) : bool * string :=
  match s with
  | String "-" s' => (true, s')
  | String "+" s' => (false, s')
  | _ => (false, s)
  end.

(** An optional sign and at least one digit: the exponent of a float
    literal, and an integer literal. *)
Definition parse_exponent (s : string) : option Z :=
  let '(neg, ds) := split_sign s in
  if isdigit ds then Some (if neg then - int_of_digits ds else int_of_digits ds)
  else None.

(** The unsigned decimal part of a literal, as numerator digits and a
    power of ten. *)
Definition parse_decimal (s : string) : option Q :=
  let '(mant, ex) := break_at (fun c => Ascii.eqb (to_lower c) "e") s in
  let '(ip, fp) := break_at (fun c => Ascii.eqb c ".") mant in
  let fr := default EmptyString fp in
  if all_chars is_digit ip && all_chars is_digit fr
     && negb (String.eqb (ip +:+ fr) EmptyString) then
    match (match ex with None => Some 0 | Some t => parse_exponent t end) with
    | Some e =>
        let n := int_of_digits (ip +:+ fr) in
        let p := e - Z.of_nat (String.length fr) in
        Some (if 0 <=? p then (n * 10 ^ p) # 1 else n # Z.to_pos (10 ^ (- p)))
    | None => None
    end
  else None.

(** [float(s)] for a string: [None] where the interpreter raises
    [ValueError]. *)
Definition float_of_string (s : string) : option pyfloat :=
  match drop_underscores "000" (strip s) with
  | None => None
  | Some t =>
      let '(neg, body) := split_sign t in
      let sgn := fun f => if neg then float_neg f else f in
      let lw := lower body in
      if String.eqb lw "inf" || String.eqb lw "infinity" then Some (sgn (FInf false))
      else if String.eqb lw "nan" then Some FNan
      else (fun q => sgn (b64_of_Q q)) <$> parse_decimal body
  end.

(** [float(value)] for any value. *)
Definition py_float (value : PyVal) : res PyVal :=
  match value with
  | PStr s =>
      match float_of_string s with
      | Some f => Ok (PFloat f)
      | None => Raise ValueError
      end
  | PInt z =>
      match b64_of_Q (z # 1) with
      | FInf _ => Raise OverflowError
      | f => Ok (PFloat f)
      end
  | PBool b => Ok (PFloat (FFin (if b then 1 else 0)))
  | PFloat f => Ok (PFloat f)
  | PNone | PList _ | PDict _ => Raise TypeError
  end.

(** ** [clean_numeric] ([parser/doctor.py], [parser/establishment.py]) *)

(** [value in ("", None)]. *)
Definition in_blank (value : PyVal) : bool :=
  match value with
  | PNone => true
  | PStr EmptyString => true
  | _ => false
  end.

Definition isinstance_str (value : PyVal) : bool :=
  match value with
  | PStr _ => true
  | _ => false
  end.

Definition str_isdigit (value : PyVal) : bool :=
  match value with
  | PStr s => isdigit s
  | _ => false
  end.

(** [int(s)] for a string, in base ten: [None] where the interpreter
    raises [ValueError]. *)
Definition int_of_string (s : string) : option Z :=
  match drop_underscores "000" (strip s) with
  | Some t => parse_exponent t
  | None => None
  end.

(** [int(value)] for any value; a float is truncated towards zero. *)
Definition py_int (value : PyVal) : res PyVal :=
  match value with
  | PStr s =>
      match int_of_string s with
      | Some z => Ok (PInt z)
      | None => Raise ValueError
      end
  | PInt z => Ok (PInt z)
  | PBool b => Ok (PInt (if b then 1 else 0))
  | PFloat (FFin q) => Ok (PInt (Z.quot (Qnum q) (Zpos (Qden q))))
  | PFloat (FInf _) => Raise OverflowError
  | PFloat FNan => Raise ValueError
  | PNone | PList _ | PDict _ => Raise TypeError
  end.

Definition clean_numeric (value : PyVal) : res PyVal :=
  if in_blank value then Ok PNone
  else
    match (if isinstance_str value && str_isdigit value
           then py_int value else py_float value) with
    | Raise ValueError => Ok PNone
    | r => r
    end.

(** ** Columns and queries ([config.py])

    A query is kept as its structure: the table, the column list that
    the [%s] placeholders follow, and what the [ON CONFLICT] clause
    does. *)

Inductive Table : Type :=
| practo_doctors
| practo_establishments.

Inductive Query : Type :=
| InsertOnConflictUpdate (table : Table) (columns set_columns : list string)
| InsertOnConflictNothing (table : Table) (columns : list string)
| InsertRelation
| SelectExists
| UpdateByUuid (table : Table) (columns : list string).

Definition DOCTOR_COLUMNS : list string :=
  ["practo_uuid"; "slug"; "practo_rank"; "profile_photo"; "profile_url";
   "first_name"; "last_name"; "qualifications"; "specialization";
   "specialties"; "experience_years"; "summary"; "services";
   "services_count"; "recommendation_percent"; "patients_count";
   "reviews_count"].

Definition ESTABLISHMENT_COLUMNS : list string :=
  ["practo_uuid"; "name"; "slug"; "practice_type"; "profile_url";
   "image_url"; "street_address"; "postal_code"; "locality"; "city";
   "state"; "latitude"; "longitude"; "min_price"; "max_price"; "phone";
   "phone_extension"; "rating"; "reviews_count"; "practice_timings"].

(** The columns for which the clause has [col = EXCLUDED.col]. *)
Definition generate_do_update_clause (columns : list string) : list string :=
  List.filter
    (fun col =>
       negb (existsb (String.eqb col)
               ["practo_uuid"; "state"; "establishment_count"; "doctor_count"]))
    columns.

Definition DOCTOR_DO_UPDATE_CLAUSE : list string :=
  generate_do_update_clause DOCTOR_COLUMNS.

Definition ESTABLISHMENT_DO_UPDATE_CLAUSE : list string :=
  generate_do_update_clause ESTABLISHMENT_COLUMNS.

Definition DOCTOR_INSERT_QUERY : Query :=
  InsertOnConflictUpdate practo_doctors DOCTOR_COLUMNS DOCTOR_DO_UPDATE_CLAUSE.

Definition ESTABLISHMENT_INSERT_QUERY : Query :=
  InsertOnConflictUpdate practo_establishments ESTABLISHMENT_COLUMNS
    ESTABLISHMENT_DO_UPDATE_CLAUSE.

Definition DOCTOR_INSERT_QUERY_SMALL : Query :=
  InsertOnConflictNothing practo_doctors
    ["practo_uuid"; "first_name"; "last_name"; "profile_photo"; "profile_url";
     "slug"; "experience_years"].

Definition ESTABLISHMENT_INSERT_QUERY_SMALL : Query :=
  InsertOnConflictNothing practo_establishments
    ["practo_uuid"; "name"; "slug"; "profile_url"; "city"; "state"; "locality";
     "latitude"; "longitude"; "street_address"].

Definition RELATIONS_INSERT_QUERY : Query := InsertRelation.

Definition CHECK_EXISTENCE_QUERY : Query := SelectExists.

(** ** Dict, list and string operations of the parsers *)

Fixpoint assoc (key : string) (d : list (string * PyVal)) : option PyVal :=
  match d with
  | [] => None
  | (k, v) :: d' => if String.eqb key k then Some v else assoc key d'
  end.

(** [obj.get(key, dflt)]: only a dict has the method. *)
Definition get (obj : PyVal) (key : string) (dflt : PyVal) : res PyVal :=
  match obj with
  | PDict d => Ok (default dflt (assoc key d))
  | _ => Raise AttributeError
  end.

(** [obj.values()] and [obj.items()]. *)
Definition values (obj : PyVal) : res (list PyVal) :=
  match obj with
  | PDict d => Ok (map snd d)
  | _ => Raise AttributeError
  end.

Definition items (obj : PyVal) : res (list (string * PyVal)) :=
  match obj with
  | PDict d => Ok d
  | _ => Raise AttributeError
  end.

Fixpoint chars (s : string) : list PyVal :=
  match s with
  | EmptyString => []
  | String c s' => PStr (String c EmptyString) :: chars s'
  end.

(** The elements a [for] loop over [obj] visits. *)
Definition iterate (obj : PyVal) : res (list PyVal) :=
  match obj with
  | PList l => Ok l
  | PDict d => Ok (map (fun kv => PStr (fst kv)) d)
  | PStr s => Ok (chars s)
  | _ => Raise TypeError
  end.

(** [obj[0]].  The keys of a decoded JSON object are strings, so the
    integer key is never found in a dict. *)
Definition subscript0 (obj : PyVal) : res PyVal :=
  match obj with
  | PList (x :: _) => Ok x
  | PList [] => Raise IndexError
  | PStr (String c _) => Ok (PStr (String c EmptyString))
  | PStr EmptyString => Raise IndexError
  | PDict _ => Raise KeyError
  | _ => Raise TypeError
  end.

(** [obj.split(" ")]: a string method. *)
Definition split_spaces (obj : PyVal) : res (list string) :=
  match obj with
  | PStr s => Ok (split " " s)
  | _ => Raise AttributeError
  end.

(** [name += [""] * (3 - len(name))]. *)
Definition pad3 (name : list string) : list string :=
  name ++ repeat EmptyString (3 - length name)%nat.

(** ["https://www.practo.com" + obj]. *)
Definition site_prefix (obj : PyVal) : res PyVal :=
  match obj with
  | PStr s => Ok (PStr ("https://www.practo.com" +:+ s))
  | _ => Raise TypeError
  end.

(** ** The parsers ([parser/doctor.py], [parser/establishment.py]) *)

Section Parsers.

(** [str()] of a float or a container, [json.dumps] and the text of
    the first [h3] element carrying a given [data-qa-id] (what
    [soup.find(...).get_text(strip=True)] returns, when the element
    exists) belong to the runtime and its libraries. *)
Variable repr : PyVal -> string.
Variable json_dumps : PyVal -> string.
Variable h3_text : string -> string -> option string.

Definition str (obj : PyVal) : string :=
  match obj with
  | PStr s => s
  | PInt z => Z_to_string z
  | PNone => "None"
  | PBool true => "True"
  | PBool false => "False"
  | _ => repr obj
  end.

(** [value.get("fees", [{}])[0].get(key, None)]. *)
Definition first_fee (value : PyVal) (key : string) : res PyVal :=
  fees ← get value "fees" (PList [PDict []]);
  fee ← subscript0 fees;
  get fee key PNone.

(** [obj.get(k1, {}).get(k2, {}).get(k3, dflt)]. *)
Definition get3 (obj : PyVal) (k1 k2 k3 : string) (dflt : PyVal) : res PyVal :=
  a ← get obj k1 (PDict []);
  b ← get a k2 (PDict []);
  get b k3 dflt.

(** [obj.get(k1, {}).get(k2, dflt)]. *)
Definition get2 (obj : PyVal) (k1 k2 : string) (dflt : PyVal) : res PyVal :=
  a ← get obj k1 (PDict []);
  get a k2 dflt.

(** The record one timing window of a doctor's relation produces;
    the entries are evaluated in the order of the dict display. *)
Definition doctor_relation_item (doctor_id value establishment timing : PyVal)
  : res PyVal :=
  fabric ← get establishment "fabric_id" (PStr "");
  amount ← first_fee value "amount";
  type ← first_fee value "type";
  begin_time ← get timing "begin_time" (PStr "");
  end_time ← get timing "end_time" (PStr "");
  available_days ← get timing "available_days" (PList []);
  fabric' ← get establishment "fabric_id" (PStr "");
  name ← get establishment "name" (PStr "");
  slug ← get establishment "slug" (PStr "");
  profile_url ← get establishment "profile_url" (PStr "");
  city ← get3 establishment "address" "city" "city_name" (PStr "");
  state ← get3 establishment "address" "city" "state_name" (PStr "");
  locality ← get3 establishment "address" "locality" "name" (PStr "");
  latitude ← get2 establishment "address" "latitude" PNone;
  longitude ← get2 establishment "address" "longitude" PNone;
  address ← get2 establishment "address" "address_line1" (PStr "");
  Ok (PDict
        [("relation_info",
          PDict [("doctor_id", PStr (str doctor_id));
                 ("establishment_id", PStr (str fabric));
                 ("fees", PList [amount; type]);
                 ("begin_time", begin_time);
                 ("end_time", end_time);
                 ("available_days", available_days)]);
         ("establishment_info",
          PDict [("establishment_id", PStr (str fabric'));
                 ("name", name);
                 ("slug", slug);
                 ("profile_url", profile_url);
                 ("city", city);
                 ("state", state);
                 ("locality", locality);
                 ("latitude", latitude);
                 ("longitude", longitude);
                 ("address", address)])]).

(** The inner loop: [data[index] = {...}; index += 1] for each
    timing.  [data] is the dict built so far, keyed by the running
    index. *)
Fixpoint timing_loop (item : PyVal -> res PyVal) (timings : list PyVal)
    (data : list (Z * PyVal)) (index : Z) : res (list (Z * PyVal) * Z) :=
  match timings with
  | [] => Ok (data, index)
  | timing :: rest =>
      it ← item timing;
      timing_loop item rest (data ++ [(index, it)]) (index + 1)
  end.

Definition doctor_relation (doctor_id value : PyVal)
    (data : list (Z * PyVal)) (index : Z) : res (list (Z * PyVal) * Z) :=
  timings ← get value "timings" (PList []);
  establishment ← get value "establishment" (PDict []);
  ts ← iterate timings;
  timing_loop (doctor_relation_item doctor_id value establishment) ts data index.

(** The outer loop over the relation list. *)
Fixpoint relation_loop
    (body : PyVal -> list (Z * PyVal) -> Z -> res (list (Z * PyVal) * Z))
    (relations : list PyVal) (data : list (Z * PyVal)) (index : Z)
  : res (list (Z * PyVal) * Z) :=
  match relations with
  | [] => Ok (data, index)
  | value :: rest =>
      '(data', index') ← body value data index;
      relation_loop body rest data' index'
  end.

Definition parse_doctor_establishment_relation
    (doctor_id response : PyVal) (html_content : string)
  : res (list (Z * PyVal) * PyVal * PyVal * PyVal) :=
  relations ← get3 response "data" "providerRelations" "relations" (PList []);
  count ← get3 response "data" "providerRelations" "establishment_count" PNone;
  rs ← iterate relations;
  '(data, _) ← relation_loop (doctor_relation doctor_id) rs [] 0;
  Ok (data, count, PInt 0, PInt 0).

(** The record one timing window of an establishment's relation
    produces; [name] is the padded token list of the provider's full
    name. *)
Definition establishment_relation_item
    (establishment_id value provider : PyVal) (name : list string) (timing : PyVal)
  : res PyVal :=
  fabric ← get provider "fabric_id" (PStr "");
  amount ← first_fee value "amount";
  type ← first_fee value "type";
  begin_time ← get timing "begin_time" (PStr "");
  end_time ← get timing "end_time" (PStr "");
  available_days ← get timing "available_days" (PList []);
  fabric' ← get provider "fabric_id" (PStr "");
  profile_photo ← get provider "enhanced_image_url" (PStr "");
  profile_url ← get provider "profile_url" (PStr "");
  slug ← get provider "slug" (PStr "");
  experience_years ← get provider "years_of_experience" PNone;
  Ok (PDict
        [("relation_info",
          PDict [("doctor_id", PStr (str fabric));
                 ("establishment_id", PStr (str establishment_id));
                 ("fees", PList [amount; type]);
                 ("begin_time", begin_time);
                 ("end_time", end_time);
                 ("available_days", available_days)]);
         ("doctor_info",
          PDict [("doctor_id", PStr (str fabric'));
                 ("first_name", PStr (join " " (take 2 name)));
                 ("last_name", PStr (join " " (drop 2 name)));
                 ("profile_photo", profile_photo);
                 ("profile_url", profile_url);
                 ("slug", slug);
                 ("experience_years", experience_years)])]).

Definition establishment_relation (establishment_id relation : PyVal)
    (data : list (Z * PyVal)) (index : Z) : res (list (Z * PyVal) * Z) :=
  value ← get relation "relation" (PDict []);
  timings ← get value "timings" (PList []);
  provider ← get value "provider" (PDict []);
  name ← (full ← get provider "full_name" (PStr ""); split_spaces full);
  ts ← iterate timings;
  timing_loop
    (establishment_relation_item establishment_id value provider (pad3 name))
    ts data index.

(** [tag.get_text(strip=True).split("-")[-1] if tag else None]. *)
Definition count_suffix (tag_text : option string) : PyVal :=
  match tag_text with
  | Some t => PStr (List.last (split "-" t) EmptyString)
  | None => PNone
  end.

Definition parse_establishment_doctor_relation
    (establishment_id response : PyVal) (html_content : string)
  : res (list (Z * PyVal) * PyVal * PyVal * PyVal) :=
  doctor_count ←
    get3 response "data" "getEstablishmentRelations" "total_results_count" PNone;
  let bed_count := count_suffix (h3_text html_content "bed_count") in
  let amb_count := count_suffix (h3_text html_content "ambulance_count") in
  relations ← get3 response "data" "getEstablishmentRelations" "results" (PList []);
  rs ← iterate relations;
  '(data, _) ← relation_loop (establishment_relation establishment_id) rs [] 0;
  Ok (data, doctor_count, bed_count, amb_count).

(** [[str(q) for q in obj]]: the list is built and dropped, but
    building it needs [obj] to be iterable. *)
Definition str_each (obj : PyVal) : res (list string) :=
  qs ← iterate obj; Ok (map str qs).

Fixpoint sub_specialties (ss : list PyVal) : res (list string) :=
  match ss with
  | [] => Ok []
  | s :: rest =>
      v ← get s "sub_specialty" (PStr "");
      vs ← sub_specialties rest;
      Ok (str v :: vs)
  end.

(** The record of one listed doctor. *)
Definition doctor_record (id : string) (details : PyVal) : res PyVal :=
  _ ← (q ← get details "qualifications" (PList []); str_each q);
  _ ← (s ← get details "specialties" (PList []); ss ← iterate s; sub_specialties ss);
  name ← (n ← get details "doctor_name" (PStr ""); split_spaces n);
  let name := pad3 name in
  slug ← get details "translated_new_slug" (PStr "");
  practo_rank ← (v ← get details "rank" PNone; clean_numeric v);
  profile_photo ← get details "image_url" (PStr "");
  profile_url ← (v ← get details "profile_url" (PStr ""); site_prefix v);
  qualifications ← get details "qualifications" (PDict []);
  specialization ← get details "specialization" (PStr "");
  specialties ← get details "specialties" (PDict []);
  experience_years ← (v ← get details "experience_years" PNone; clean_numeric v);
  summary ← get details "summary" (PStr "");
  services ← get details "non_popular_services" (PList []);
  services_count ← (v ← get details "services_count" PNone; clean_numeric v);
  recommendation_percent ←
    (v ← get details "recommendation_percent" PNone; clean_numeric v);
  patients_count ← (v ← get details "patients_count" PNone; clean_numeric v);
  reviews_count ← (v ← get details "reviews_count" PNone; clean_numeric v);
  Ok (PDict
        [("practo_id", PStr id);
         ("slug", slug);
         ("practo_rank", practo_rank);
         ("profile_photo", profile_photo);
         ("profile_url", profile_url);
         ("first_name", PStr (strip (join " " (take 2 name))));
         ("last_name", PStr (strip (join " " (drop 2 name))));
         ("qualifications", PStr (json_dumps qualifications));
         ("specialization", specialization);
         ("specialties", PStr (json_dumps specialties));
         ("experience_years", experience_years);
         ("summary", summary);
         ("services", services);
         ("services_count", services_count);
         ("recommendation_percent", recommendation_percent);
         ("patients_count", patients_count);
         ("reviews_count", reviews_count)]).

(** The loop of [parse_doctors_data] over [doctors.items()], building
    [doctors_data] and [doctors_profile]. *)
Fixpoint doctors_loop (entities : list (string * PyVal))
    (doctors_data : list (string * PyVal))
    (doctors_profile : list (string * PyVal * PyVal))
  : res (list (string * PyVal) * list (string * PyVal * PyVal)) :=
  match entities with
  | [] => Ok (doctors_data, doctors_profile)
  | (id, details) :: rest =>
      record ← doctor_record id details;
      slug ← get record "slug" PNone;
      profile_url ← get record "profile_url" PNone;
      doctors_loop rest (doctors_data ++ [(id, record)])
        (doctors_profile ++ [(id, slug, profile_url)])
  end.

Definition parse_doctors_data (response : PyVal)
  : res (list (string * PyVal) * list (string * PyVal * PyVal) * Query) :=
  doctors ← get2 response "doctors" "entities" (PDict []);
  entities ← items doctors;
  '(doctors_data, doctors_profile) ← doctors_loop entities [] [];
  Ok (doctors_data, doctors_profile, DOCTOR_INSERT_QUERY).

End Parsers.

(** ** Persistence ([db/insert_db.py])

    The records the operations write at level INFO and above. *)

Inductive LogRecord : Type :=
| INFO_inserting_main (records : nat)
| WARNING_inserting_item (item_id : string) (item_error : exn)
| INFO_main_complete (success_count failure_count : nat)
| INFO_inserting_relation (key : string) (practo_id : PyVal)
| WARNING_relation_item (item_id : Z) (item_error : exn)
| INFO_relation_complete (key : string) (practo_id : PyVal)
| ERROR_inserting_relation (error : exn).

(** [key in obj], for an [obj] that is a dict. *)
Definition has_key (key : string) (obj : PyVal) : bool :=
  match obj with
  | PDict d => bool_decide (is_Some (assoc key d))
  | _ => false
  end.

Section Persister.

(** The store is reached through a cursor: [run query params] is
    what [cur.execute(query, params)] does to the rows of the open
    transaction, together with its outcome, an exception or the row
    [cur.fetchone()] would then return.  [connect_db()] and
    [conn.commit()] are taken to succeed; the open transaction starts
    from the committed rows, and the commit makes the rows of the
    transaction the committed ones. *)
Context {Db : Type}.
Variable run : Query -> list PyVal -> Db -> Db * res (option (bool * bool)).

(** A step inside the open transaction. *)
Definition txn (A : Type) : Type := Db -> Db * res A.

#[local] Instance txn_ret : MRet txn := fun A a cur => (cur, Ok a).
#[local] Instance txn_bind : MBind txn := fun A B k m cur =>
  match m cur with
  | (cur', Ok a) => k a cur'
  | (cur', Raise e) => (cur', Raise e)
  end.

Definition lift {A : Type} (r : res A) : txn A := fun cur => (cur, r).

Definition execute (query : Query) (params : list PyVal)
  : txn (option (bool * bool)) := run query params.

(** [a, b = cur.fetchone()]. *)
Definition fetchone (row : option (bool * bool)) : txn (bool * bool) :=
  match row with
  | Some r => mret r
  | None => lift (Raise TypeError)
  end.

(** *** [insert_main_data] *)

(** The body of the [try] for one record. *)
Definition main_item (query : Query) (value : PyVal) : txn unit :=
  params ← lift (values value);
  _ ← execute query params;
  mret ().

Fixpoint main_loop (query : Query) (data : list (string * PyVal))
    (cur : Db) (success_count failure_count : nat) (log : list LogRecord)
  : Db * nat * nat * list LogRecord :=
  match data with
  | [] => (cur, success_count, failure_count, log)
  | (item_id, value) :: rest =>
      match main_item query value cur with
      | (cur', Ok _) =>
          main_loop query rest cur' (S success_count) failure_count log
      | (cur', Raise item_error) =>
          main_loop query rest cur' success_count (S failure_count)
            (log ++ [WARNING_inserting_item item_id item_error])
      end
  end.

(** The committed rows and the log after [insert_main_data(data,
    query)] on the committed rows [db]. *)
Definition insert_main_data (data : list (string * PyVal)) (query : Query)
    (db : Db) : Db * list LogRecord :=
  let '(cur, success_count, failure_count, log) :=
    main_loop query data db 0 0 [INFO_inserting_main (length data)] in
  (cur, log ++ [INFO_main_complete success_count failure_count]).

(** *** [insert_relation_data] *)

Definition mapping (key : string) : res Query :=
  if String.eqb key "hospital" || String.eqb key "clinic" then
    Ok (UpdateByUuid practo_establishments
          ["doctor_count"; "number_of_beds"; "number_of_ambulances"])
  else if String.eqb key "doctor" then
    Ok (UpdateByUuid practo_doctors ["establishment_count"])
  else Raise KeyError.

(** The update of the count fields. *)
Definition update_counts (key : string) (count bed_count amb_count practo_id : PyVal)
  : txn unit :=
  query ← lift (mapping key);
  _ ← (if String.eqb key "doctor" then execute query [count; practo_id]
       else execute query [count; bed_count; amb_count; practo_id]);
  mret ().

(** The body of the [try] for one relation item. *)
Definition relation_item (value : PyVal) : txn unit :=
  relations_data ← lift (get value "relation_info" (PDict []));
  doctor_uuid ← lift (get relations_data "doctor_id" (PStr ""));
  establishment_uuid ← lift (get relations_data "establishment_id" (PStr ""));
  row ← execute CHECK_EXISTENCE_QUERY [doctor_uuid; establishment_uuid];
  '(doctor_exists, establishment_exists) ← fetchone row;
  _ ← (if negb doctor_exists && has_key "doctor_info" value then
         doctor_data ← lift (get value "doctor_info" PNone);
         params ← lift (values doctor_data);
         _ ← execute DOCTOR_INSERT_QUERY_SMALL params;
         mret ()
       else if negb establishment_exists && has_key "establishment_info" value then
         establishment_data ← lift (get value "establishment_info" PNone);
         params ← lift (values establishment_data);
         _ ← execute ESTABLISHMENT_INSERT_QUERY_SMALL params;
         mret ()
       else mret ());
  params ← lift (values relations_data);
  _ ← execute RELATIONS_INSERT_QUERY params;
  mret ().

Fixpoint relation_items (relation : list (Z * PyVal)) (cur : Db)
    (log : list LogRecord) : Db * list LogRecord :=
  match relation with
  | [] => (cur, log)
  | (item_id, value) :: rest =>
      match relation_item value cur with
      | (cur', Ok _) => relation_items rest cur' log
      | (cur', Raise item_error) =>
          relation_items rest cur'
            (log ++ [WARNING_relation_item item_id item_error])
      end
  end.

(** The committed rows, the exception raised if any, and the log
    after [insert_relation_data(...)] on the committed rows [db].  An
    exception outside the loop rolls the transaction back. *)
Definition insert_relation_data (relation : list (Z * PyVal))
    (count bed_count amb_count practo_id : PyVal) (key : string) (db : Db)
  : Db * res unit * list LogRecord :=
  let log := [INFO_inserting_relation key practo_id] in
  match update_counts key count bed_count amb_count practo_id db with
  | (_, Raise error) =>
      (db, Raise (DatabaseError error), log ++ [ERROR_inserting_relation error])
  | (cur, Ok _) =>
      let '(cur', log') := relation_items relation cur log in
      (cur', Ok (), log' ++ [INFO_relation_complete key practo_id])
  end.

End Persister.

(** ** The relational store

    Modelled from the spec: the schema ([mapping.sql]) and the store
    itself are not part of the sources.  Two entity tables are keyed by
    the text of [practo_uuid], the edge table refers to their rows by
    [id], and the statements do what the SQL text of [config.py] and
    [insert_relation_data] says.  A row maps column names to values; a
    column that was never written is absent. *)

Abbreviation Row := (gmap string PyVal).

Record Db : Type := mkDb {
  doctors : list Row;
  establishments : list Row;
  doctor_establishment : list Row
}.

Definition rows (table : Table) (db : Db) : list Row :=
  match table with
  | practo_doctors => doctors db
  | practo_establishments => establishments db
  end.

Definition set_rows (table : Table) (rs : list Row) (db : Db) : Db :=
  match table with
  | practo_doctors =>
      mkDb rs (establishments db) (doctor_establishment db)
  | practo_establishments =>
      mkDb (doctors db) rs (doctor_establishment db)
  end.

Definition uuid_is (u : string) (row : Row) : bool :=
  match row !! "practo_uuid" with
  | Some (PStr v) => String.eqb v u
  | _ => false
  end.

(** The values the driver can pass as parameters: a dict has no SQL
    form, also inside a list. *)
Fixpoint adaptable (v : PyVal) : bool :=
  match v with
  | PDict _ => false
  | PList l => forallb adaptable l
  | _ => true
  end.

(** The parameters bound to the placeholders, one per column.  A
    failure here is raised by the driver before anything is sent. *)
Definition bind_params (columns : list string) (params : list PyVal) : res Row :=
  if negb (forallb adaptable params) then Raise ProgrammingError
  else
    match Nat.compare (length params) (length columns) with
    | Lt => Raise IndexError
    | Gt => Raise TypeError
    | Eq => Ok (list_to_map (zip columns params))
    end.

(** [SET col = EXCLUDED.col] for each column of the clause. *)
Definition set_excluded (set_columns : list string) (excluded row : Row) : Row :=
  foldr (fun col r => <[col := default PNone (excluded !! col)]> r) row set_columns.

(** A new row gets the next [id]. *)
Definition insert_row (new : Row) (t : list Row) : list Row :=
  t ++ [<["id" := PInt (Z.of_nat (length t) + 1)]> new].

(** [INSERT ... ON CONFLICT (practo_uuid) DO UPDATE SET ...]. *)
Definition upsert_rows (set_columns : list string) (u : string) (new : Row)
    (t : list Row) : list Row :=
  if existsb (uuid_is u) t then
    map (fun row => if uuid_is u row then set_excluded set_columns new row else row) t
  else insert_row new t.

(** [INSERT ... ON CONFLICT (practo_uuid) DO NOTHING]. *)
Definition insert_if_absent (u : string) (new : Row) (t : list Row) : list Row :=
  if existsb (uuid_is u) t then t else insert_row new t.

(** [(SELECT id FROM table WHERE practo_uuid = %s)]. *)
Definition select_id (v : PyVal) (t : list Row) : PyVal :=
  match v with
  | PStr u =>
      match find (uuid_is u) t with
      | Some row => default PNone (row !! "id")
      | None => PNone
      end
  | _ => PNone
  end.

(** [EXISTS (SELECT 1 FROM table WHERE practo_uuid = %s)]. *)
Definition select_exists (v : PyVal) (t : list Row) : bool :=
  match v with
  | PStr u => existsb (uuid_is u) t
  | _ => false
  end.

(** [UPDATE table SET columns = ... WHERE practo_uuid = %s]. *)
Definition update_rows (columns : list string) (vals : Row) (v : PyVal)
    (t : list Row) : list Row :=
  match v with
  | PStr u =>
      map (fun row => if uuid_is u row then set_excluded columns vals row else row) t
  | _ => t
  end.

Definition pg_run (query : Query) (params : list PyVal) (db : Db)
  : Db * res (option (bool * bool)) :=
  match query with
  | InsertOnConflictUpdate table columns set_columns =>
      match bind_params columns params with
      | Ok new =>
          match new !! "practo_uuid" with
          | Some (PStr u) =>
              (set_rows table (upsert_rows set_columns u new (rows table db)) db,
               Ok None)
          | _ => (db, Raise DataError)
          end
      | Raise e => (db, Raise e)
      end
  | InsertOnConflictNothing table columns =>
      match bind_params columns params with
      | Ok new =>
          match new !! "practo_uuid" with
          | Some (PStr u) =>
              (set_rows table (insert_if_absent u new (rows table db)) db, Ok None)
          | _ => (db, Raise DataError)
          end
      | Raise e => (db, Raise e)
      end
  | InsertRelation =>
      match bind_params
              ["doctor_id"; "establishment_id"; "fees"; "begin_time"; "end_time";
               "available_days"] params with
      | Ok new =>
          let d := select_id (default PNone (new !! "doctor_id")) (doctors db) in
          let e :=
            select_id (default PNone (new !! "establishment_id")) (establishments db) in
          (mkDb (doctors db) (establishments db)
             (doctor_establishment db
              ++ [<["doctor_id" := d]> (<["establishment_id" := e]> new)]),
           Ok None)
      | Raise e => (db, Raise e)
      end
  | SelectExists =>
      match bind_params ["doctor"; "establishment"] params with
      | Ok new =>
          (db,
           Ok (Some (select_exists (default PNone (new !! "doctor")) (doctors db),
                     select_exists (default PNone (new !! "establishment"))
                       (establishments db))))
      | Raise e => (db, Raise e)
      end
  | UpdateByUuid table columns =>
      match bind_params (columns ++ ["practo_uuid"]) params with
      | Ok new =>
          (set_rows table
             (update_rows columns new (default PNone (new !! "practo_uuid"))
                (rows table db)) db,
           Ok None)
      | Raise e => (db, Raise e)
      end
  end.

(** ** The fetch layer ([utils/http.py]) *)

(** The body of a response, as [response.json()] sees it. *)
Inductive Decoded : Type :=
| Json (value : PyVal)
| NotJson (error : string).

(** What one call of [requests.request] does: raise, or return a
    response with its status code, decoded body and raw content. *)
Inductive Attempt : Type :=
| RaisesConnectionError
| RaisesTimeout
| RaisesRequestException
| Responds (status : Z) (body : Decoded) (content : string).

(** What [make_request] returns: the decoded payload, or the raw
    content when [return_json] is false. *)
Inductive Payload : Type :=
| Decoded_json (value : PyVal)
| Raw_content (content : string).

(** What [make_request] does to the outside, in order. *)
Inductive Effect : Type :=
| Requested (url : string)
| Slept (seconds : Z).

(** [range(lo, hi)]. *)
Definition range (lo hi : Z) : list Z :=
  map (fun i => lo + Z.of_nat i) (seq 0 (Z.to_nat (hi - lo))).

Section Fetcher.

(** The network and the clock: a request has an outcome and leaves
    the world in a new state, and so does a sleep. *)
Context {World : Type}.
Variable request : string -> World -> Attempt * World.
Variable sleep : Z -> World -> World.

(** The end of an iteration that failed without raising: sleep unless
    it was the last attempt. *)
Definition back_off (max_retries retry_delay attempt : Z) (w : World)
    (done : list Effect) : World * list Effect :=
  if attempt <? max_retries - 1 then
    let sleep_time := retry_delay * 2 ^ attempt in
    (sleep sleep_time w, done ++ [Slept sleep_time])
  else (w, done).

(** The [for attempt in range(max_retries)] loop and the [raise]
    after it. *)
Fixpoint attempts_loop (url : string) (max_retries retry_delay : Z)
    (return_json : bool) (attempts : list Z) (w : World) (done : list Effect)
  : res Payload * World * list Effect :=
  match attempts with
  | [] =>
      (Raise (RequestError
                (mkRequestError
                   ("Request failed after " +:+ Z_to_string max_retries
                    +:+ " attempts")
                   None (Some url))),
       w, done)
  | attempt :: rest =>
      let '(outcome, w1) := request url w in
      let done1 := done ++ [Requested url] in
      let again :=
        let '(w2, done2) := back_off max_retries retry_delay attempt w1 done1 in
        attempts_loop url max_retries retry_delay return_json rest w2 done2 in
      match outcome with
      | RaisesConnectionError | RaisesTimeout | RaisesRequestException => again
      | Responds status body content =>
          if (400 <=? status) && (status <? 600) then
            (* raise_for_status() raised HTTPError *)
            if (400 <=? status) && (status <? 500) && negb (status =? 429) then
              (Raise (RequestError
                        (mkRequestError ("HTTP error: " +:+ Z_to_string status)
                           (Some status) (Some url))),
               w1, done1)
            else again
          else if return_json then
            match body with
            | Json value => (Ok (Decoded_json value), w1, done1)
            | NotJson error =>
                if attempt =? max_retries - 1 then
                  (Raise (RequestError
                            (mkRequestError ("Invalid JSON response: " +:+ error)
                               None (Some url))),
                   w1, done1)
                else again
            end
          else (Ok (Raw_content content), w1, done1)
      end
  end.

Definition make_request (url : string) (max_retries retry_delay : Z)
    (return_json : bool) (w : World) : res Payload * World * list Effect :=
  attempts_loop url max_retries retry_delay return_json (range 0 max_retries) w [].

(** The number of requests among the effects. *)
Definition requests_made (done : list Effect) : nat :=
  length (List.filter (fun e => match e with Requested _ => true | _ => false end) done).

End Fetcher.

Definition status_of (a : Attempt) : option Z :=
  match a with
  | Responds status _ _ => Some status
  | _ => None
  end.

(** ** The orchestrator ([main.py]) *)

(** [old in s]. *)
Fixpoint occurs (old s : string) : bool :=
  String.prefix old s
  || match s with
     | EmptyString => false
     | String _ s' => occurs old s'
     end.

(** [s.replace(old, new)] for a non-empty [old]: the occurrences are
    taken from the left and do not overlap; [skip] counts the
    characters of the occurrence just replaced that are still to be
    passed over. *)
Fixpoint replace_from (old new : string) (skip : nat) (s : string) : string :=
  match s with
  | EmptyString => EmptyString
  | String c s' =>
      match skip with
      | S k => replace_from old new k s'
      | O =>
          if String.prefix old s then
            new +:+ replace_from old new (String.length old - 1) s'
          else String c (replace_from old new 0 s')
      end
  end.

Definition replace (old new s : string) : string := replace_from old new 0 s.

(** What the traversal of one seed URL does, as far as the page loop
    is concerned. *)
Inductive Step : Type :=
| WARNING_no_results (link : string)
| Paused (seconds : Z)
| PageRequested (page : Z) (page_url : string)
| ERROR_page_fetch (page : Z) (error : exn)
| ERROR_seed_fetch (link : string) (error : exn)
| ERROR_result_count (error : exn).

(** [int(obj)] as a number. *)
Definition int_of (obj : PyVal) : res Z :=
  n ← py_int obj;
  match n with
  | PInt z => Ok z
  | _ => Raise TypeError
  end.

(** The result count and the result type of the first response of a
    seed URL: where they are read depends on the URL. *)
Definition result_count (link : string) (response : PyVal) : res (Z * PyVal) :=
  if occurs "DOCTOR_SEARCH" link then
    found ← get2 response "listing_data" "doctors_found" (PInt 0);
    count ← int_of found;
    Ok (count, PStr "doctor")
  else
    total ← get2 response "form" "total_results" (PInt 0);
    count ← int_of total;
    result_type ← get2 response "form" "results_type" (PStr "unknown");
    Ok (count, result_type).

(** The payload as the caller holds it. *)
Definition payload_value (payload : Payload) : PyVal :=
  match payload with
  | Decoded_json value => value
  | Raw_content content => PStr content
  end.

Section Orchestrator.

Context {World : Type}.
Variable request : string -> World -> Attempt * World.
Variable sleep : Z -> World -> World.

(** The rest of the loop body once the page is fetched: the entity
    type, the entities, the profiles and their relations.  Every
    exception in it is caught inside the loop body, so it comes back
    with a world and the increments of the two counters. *)
Variable page_body : Z -> Payload -> World -> World * Z * Z.

Definition page_url_of (link : string) (page : Z) : string :=
  replace "page=1" ("page=" +:+ Z_to_string page) link.

(** [for page in range(1, total_pages + 1)]. *)
Fixpoint page_loop (link : string) (pages : list Z) (w : World)
    (success_count error_count : Z) (steps : list Step)
  : World * Z * Z * list Step :=
  match pages with
  | [] => (w, success_count, error_count, steps)
  | page :: rest =>
      let page_url := page_url_of link page in
      let '(w1, steps1) :=
        if (1 <? page) && (page mod 5 =? 0)
        then (sleep 3 w, steps ++ [Paused 3])
        else (w, steps) in
      match make_request request sleep page_url 3 2 true w1 with
      | (Raise e, w2, _) =>
          page_loop link rest w2 success_count (error_count + 1)
            (steps1 ++ [PageRequested page page_url; ERROR_page_fetch page e])
      | (Ok page_response, w2, _) =>
          let '(w3, ds, de) := page_body page page_response w2 in
          page_loop link rest w3 (success_count + ds) (error_count + de)
            (steps1 ++ [PageRequested page page_url])
      end
  end.

(** The traversal of a seed URL from its result count on. *)
Definition traverse (link : string) (count : Z) (w : World)
  : World * Z * Z * list Step :=
  if count =? 0 then (w, 0, 0, [WARNING_no_results link])
  else
    let total_pages := count / 10 + 1 in
    page_loop link (range 1 (total_pages + 1)) w 0 0 [].

(** The body of the loop over the seed URLs: the first fetch, the
    result count, and the traversal. *)
Definition process_link (link : string) (w : World) : World * Z * Z * list Step :=
  match make_request request sleep link 3 2 true w with
  | (Raise e, w1, _) => (w1, 0, 0, [ERROR_seed_fetch link e])
  | (Ok response, w1, _) =>
      match result_count link (payload_value response) with
      | Raise e => (w1, 0, 0, [ERROR_result_count e])
      | Ok (count, _) => traverse link count w1
      end
  end.

(** The pages requested among the steps, in order. *)
Definition pages_requested (steps : list Step) : list (Z * string) :=
  omap (fun s => match s with
                 | PageRequested page page_url => Some (page, page_url)
                 | _ => None
                 end) steps.

End Orchestrator.

(** ** The expected shape of a profile payload

    The predicates below describe the payloads the relation extractors
    go through without raising; they are the premises of the
    statements about the extractors, not part of the program. *)

Definition is_dict (obj : PyVal) : bool :=
  match obj with
  | PDict _ => true
  | _ => false
  end.

Definition is_str (obj : PyVal) : bool :=
  match obj with
  | PStr _ => true
  | _ => false
  end.

(** The value [obj.get(key, dflt)] returns when [obj] is a dict. *)
Definition field (obj : PyVal) (key : string) (dflt : PyVal) : PyVal :=
  match obj with
  | PDict d => default dflt (assoc key d)
  | _ => dflt
  end.

(** The timing windows of a relation. *)
Definition timings_of (value : PyVal) : list PyVal :=
  match field value "timings" (PList []) with
  | PList ts => ts
  | _ => []
  end.

(** The fee record the extractors read: the first of the list, or the
    empty record of the default when the key is absent. *)
Definition fee_of (value : PyVal) : PyVal :=
  match field value "fees" (PList [PDict []]) with
  | PList (fee :: _) => fee
  | _ => PNone
  end.

(** The fee list is absent, or it starts with a fee record. *)
Definition fee_ok (value : PyVal) : bool :=
  match field value "fees" (PList [PDict []]) with
  | PList (fee :: _) => is_dict fee
  | _ => false
  end.

(** The fee list is present and empty. *)
Definition has_empty_fees (value : PyVal) : bool :=
  match value with
  | PDict d => match assoc "fees" d with
               | Some (PList []) => true
               | _ => false
               end
  | _ => false
  end.

(** The timings are a list of records. *)
Definition timings_ok (value : PyVal) : bool :=
  match field value "timings" (PList []) with
  | PList ts => forallb is_dict ts
  | _ => false
  end.

Definition has_timing (value : PyVal) : bool :=
  match timings_of value with
  | [] => false
  | _ => true
  end.

(** The establishment of a doctor's relation, with the address records
    the extractor goes through. *)
Definition establishment_ok (value : PyVal) : bool :=
  let establishment := field value "establishment" (PDict []) in
  let address := field establishment "address" (PDict []) in
  is_dict establishment && is_dict address
  && is_dict (field address "city" (PDict []))
  && is_dict (field address "locality" (PDict [])).

(** A relation of a doctor's profile that the extractor accepts: with
    no timing window nothing but the timing list is read. *)
Definition doctor_relation_ok (value : PyVal) : bool :=
  is_dict value && timings_ok value
  && (negb (has_timing value)
      || (is_dict (field value "establishment" (PDict []))
          && fee_ok value && establishment_ok value)).

(** The relation record inside a result of an establishment's
    profile. *)
Definition relation_of (relation : PyVal) : PyVal :=
  field relation "relation" (PDict []).

Definition provider_ok (value : PyVal) : bool :=
  let provider := field value "provider" (PDict []) in
  is_dict provider && is_str (field provider "full_name" (PStr "")).

(** A result of an establishment's profile that the extractor
    accepts. *)
Definition establishment_relation_ok (relation : PyVal) : bool :=
  is_dict relation && is_dict (relation_of relation)
  && timings_ok (relation_of relation) && provider_ok (relation_of relation)
  && (negb (has_timing (relation_of relation)) || fee_ok (relation_of relation)).

(** The (relation, timing window) pairs of a relation list, in
    order. *)
Definition relation_timings (relations : list PyVal) : list (PyVal * PyVal) :=
  flat_map (fun value => map (fun timing => (value, timing)) (timings_of value))
    relations.

(** A field of the [relation_info] of an emitted item. *)
Definition relation_info (item : PyVal) (key : string) : option PyVal :=
  match item with
  | PDict d =>
      match assoc "relation_info" d with
      | Some (PDict r) => assoc key r
      | _ => None
      end
  | _ => None
  end.

(** The item carries the fee pair of its relation and the begin time,
    end time and weekdays of its own timing window. *)
Definition carries (item value timing : PyVal) : Prop :=
  relation_info item "fees"
    = Some (PList [field (fee_of value) "amount" PNone;
                   field (fee_of value) "type" PNone])
  /\ relation_info item "begin_time" = Some (field timing "begin_time" (PStr ""))
  /\ relation_info item "end_time" = Some (field timing "end_time" (PStr ""))
  /\ relation_info item "available_days"
     = Some (field timing "available_days" (PList [])).

(** The counterpart's [fabric_id] is the empty string or absent. *)
Definition blank_id (counterpart : PyVal) : Prop :=
  field counterpart "fabric_id" (PStr "") = PStr "".

(** The items numbered from [index] on, as the loops key them. *)
Fixpoint number_from (index : Z) (items : list PyVal) : list (Z * PyVal) :=
  match items with
  | [] => []
  | item :: rest => (index, item) :: number_from (index + 1) rest
  end.

(** A doctor's profile with the given relation list. *)
Definition doctor_profile (relations : list PyVal) : PyVal :=
  PDict [("data",
          PDict [("providerRelations",
                  PDict [("establishment_count", PInt (Z.of_nat (length relations)));
                         ("relations", PList relations)])])].

(** An establishment's profile with the given result list. *)
Definition establishment_profile (results : list PyVal) : PyVal :=
  PDict [("data",
          PDict [("getEstablishmentRelations",
                  PDict [("total_results_count", PInt (Z.of_nat (length results)));
                         ("results", PList results)])])].

(** What an item emitted for a (relation, timing window) pair of a
    doctor's profile holds. *)
Definition doctor_edge (repr : PyVal -> string) (doctor_id item : PyVal)
    (pair : PyVal * PyVal) : Prop :=
  carries item (fst pair) (snd pair)
  /\ relation_info item "doctor_id" = Some (PStr (str repr doctor_id))
  /\ relation_info item "establishment_id"
     = Some (PStr (str repr (field (field (fst pair) "establishment" (PDict []))
                               "fabric_id" (PStr "")))).

(** The same for an establishment's profile. *)
Definition establishment_edge (repr : PyVal -> string)
    (establishment_id item : PyVal) (pair : PyVal * PyVal) : Prop :=
  carries item (fst pair) (snd pair)
  /\ relation_info item "establishment_id"
     = Some (PStr (str repr establishment_id))
  /\ relation_info item "doctor_id"
     = Some (PStr (str repr (field (field (fst pair) "provider" (PDict []))
                               "fabric_id" (PStr "")))).

(** ** Payloads and observations used in the statements *)

(** Stand-ins for the runtime's [repr] and [json.dumps] and for a page
    without the marked [h3] elements, for examples whose values never
    reach them. *)
Definition no_repr : PyVal -> string := fun _ => "".
Definition no_h3 : string -> string -> option string := fun _ _ => None.

(** A listing page with one doctor of the given display name. *)
Definition listing_of_name (doctor_name : string) : PyVal :=
  PDict [("doctors",
          PDict [("entities",
                  PDict [("1001", PDict [("doctor_name", PStr doctor_name)])])])].

(** An establishment profile with one provider of the given full name,
    seen in one timing window. *)
Definition profile_of_name (full_name : string) : PyVal :=
  PDict [("data",
          PDict [("getEstablishmentRelations",
                  PDict [("results",
                          PList [PDict [("relation",
                                         PDict [("provider",
                                                 PDict [("full_name", PStr full_name)]);
                                                ("timings", PList [PDict []])])]])])])].

(** The two name fields of the first record of a batch, under the key
    [info] when the record nests them. *)
Definition name_fields (record : option PyVal) : option (PyVal * PyVal) :=
  r ← record;
  f ← match r with PDict d => assoc "first_name" d | _ => None end;
  l ← match r with PDict d => assoc "last_name" d | _ => None end;
  Some (f, l).

Definition doctor_names (doctor_name : string) : option (PyVal * PyVal) :=
  match parse_doctors_data no_repr no_repr (listing_of_name doctor_name) with
  | Ok (doctors_data, _, _) => name_fields (snd <$> head doctors_data)
  | Raise _ => None
  end.

Definition provider_names (full_name : string) : option (PyVal * PyVal) :=
  match parse_establishment_doctor_relation no_repr no_h3 (PStr "e1")
          (profile_of_name full_name) "" with
  | Ok (data, _, _, _) =>
      name_fields
        (item ← snd <$> head data;
         match item with PDict d => assoc "doctor_info" d | _ => None end)
  | Raise _ => None
  end.

(** A server that answers 500 at one location and 404 at every
    other. *)
Definition failing_server (u : string) (w : nat) : Attempt * nat :=
  (if String.eqb u "https://www.practo.com/down"
   then Responds 500 (NotJson "") ""
   else Responds 404 (NotJson "") "",
   S w).

Definition no_sleep (seconds : Z) (w : nat) : nat := w.

(** Three timing windows. *)
Definition morning : PyVal :=
  PDict [("begin_time", PStr "09:00"); ("end_time", PStr "12:00");
         ("available_days", PList [PStr "Mon"; PStr "Wed"])].
Definition evening : PyVal :=
  PDict [("begin_time", PStr "17:00"); ("end_time", PStr "20:00");
         ("available_days", PList [PStr "Mon"; PStr "Tue"; PStr "Fri"])].
Definition weekend : PyVal :=
  PDict [("begin_time", PStr "10:00"); ("end_time", PStr "13:00");
         ("available_days", PList [PStr "Sat"; PStr "Sun"])].

Definition consultation_fee : PyVal :=
  PDict [("amount", PInt 500); ("type", PStr "consultation")].

(** A relation of a doctor's profile with one fee entry and three
    timing windows. *)
Definition relation_three_timings : PyVal :=
  PDict [("fees", PList [consultation_fee]);
         ("timings", PList [morning; evening; weekend]);
         ("establishment",
          PDict [("fabric_id", PStr "est-42"); ("name", PStr "City Clinic")])].

(** A relation with no fee key and no counterpart identity. *)
Definition relation_blank_id : PyVal :=
  PDict [("timings", PList [morning; evening]);
         ("establishment", PDict [("name", PStr "Unnamed")])].

(** A relation with a fee list that is present and empty, and no
    counterpart identity. *)
Definition relation_empty_fees : PyVal :=
  PDict [("fees", PList []);
         ("timings", PList [morning]);
         ("establishment", PDict [("fabric_id", PStr "")])].

(** A relation whose counterpart identity is a JSON null. *)
Definition relation_null_id : PyVal :=
  PDict [("timings", PList [morning]);
         ("establishment", PDict [("fabric_id", PNone)])].

(** The same relations as results of an establishment's profile. *)
Definition result_three_timings : PyVal :=
  PDict [("relation",
          PDict [("fees", PList [consultation_fee]);
                 ("timings", PList [morning; evening; weekend]);
                 ("provider",
                  PDict [("fabric_id", PStr "doc-7");
                         ("full_name", PStr "Dr. Asha Rao")])])].

Definition result_blank_id : PyVal :=
  PDict [("relation",
          PDict [("timings", PList [morning; evening]);
                 ("provider", PDict [("full_name", PStr "Unnamed")])])].

Definition result_empty_fees : PyVal :=
  PDict [("relation",
          PDict [("fees", PList []);
                 ("timings", PList [morning]);
                 ("provider", PDict [("fabric_id", PStr "")])])].

(** The table and the column list of an entity insert query. *)
Definition query_table (query : Query) : Table :=
  match query with
  | InsertOnConflictUpdate table _ _ | InsertOnConflictNothing table _
  | UpdateByUuid table _ => table
  | _ => practo_doctors
  end.

Definition query_columns (query : Query) : list string :=
  match query with
  | InsertOnConflictUpdate _ columns _ | InsertOnConflictNothing _ columns
  | UpdateByUuid _ columns => columns
  | _ => []
  end.

(** The columns [generate_do_update_clause] leaves out of the [SET]
    list. *)
Definition kept_columns : list string :=
  ["practo_uuid"; "state"; "establishment_count"; "doctor_count"].

(** The rows of a table that carry a given UUID. *)
Definition rows_with (u : string) (table : Table) (db : Db) : list Row :=
  List.filter (uuid_is u) (rows table db).

(** The committed rows after [insert_main_data] of a one-record batch
    on the store. *)
Definition upsert_entity (query : Query) (item_id : string) (record : PyVal)
    (db : Db) : Db :=
  fst (insert_main_data pg_run [(item_id, record)] query db).

(** An establishment record as [parse_establishment_data] lays it out,
    with the given name and state. *)
Definition establishment_record (u name state : string) : PyVal :=
  PDict [("practo_id", PStr u); ("name", PStr name); ("slug", PStr "city-clinic");
         ("practice_type", PStr "Clinic"); ("profile_url", PStr "");
         ("image_url", PStr ""); ("street_address", PStr ", ");
         ("postal_code", PNone); ("locality", PStr ""); ("city", PStr "");
         ("state", PStr state); ("latitude", PNone); ("longitude", PNone);
         ("min_price", PNone); ("max_price", PNone); ("phone", PStr "");
         ("phone_extension", PNone); ("rating", PNone); ("reviews_count", PNone);
         ("practice_timings", PStr "")].


(** A store with one establishment, whose doctor count the relation
    pass has set, and no doctor. *)
Definition stored_establishment : Row :=
  {[ "id" := PInt 1; "practo_uuid" := PStr "est-42"; "name" := PStr "Old name";
     "state" := PStr "Karnataka"; "doctor_count" := PInt 7 ]}.

Definition store_one_establishment : Db := mkDb [] [stored_establishment] [].

Definition empty_store : Db := mkDb [] [] [].



(** A server whose listing reports no result under [/none] and 25
    results elsewhere. *)
Definition listing_server (u : string) (w : nat) : Attempt * nat :=
  (Responds 200
     (Json (PDict [("form",
                    PDict [("total_results",
                            PStr (if occurs "/none" u then "0" else "25"));
                           ("results_type", PStr "clinic")])]))
     "",
   S w).

Definition no_page_body (page : Z) (response : Payload) (w : nat) : nat * Z * Z :=
  (w, 0, 0).

(** ** Further observations *)

(** The effects of [n] attempts that start at attempt number [attempt]:
    a request each, and between two requests the back-off sleep of the
    earlier one. *)
Fixpoint schedule (url : string) (retry_delay attempt : Z) (n : nat) : list Effect :=
  match n with
  | O => []
  | S O => [Requested url]
  | S n' =>
      Requested url :: Slept (retry_delay * 2 ^ attempt)
        :: schedule url retry_delay (attempt + 1) n'
  end.

(** The outcomes after which [make_request] goes on to the next
    attempt whatever the attempt number: an exception of [requests], a
    server error or a 429. *)
Definition retryable (a : Attempt) : bool :=
  match a with
  | RaisesConnectionError | RaisesTimeout | RaisesRequestException => true
  | Responds status _ _ =>
      ((500 <=? status) && (status <? 600)) || (status =? 429)
  end.

(** The answers that are no HTTP error and whose body does not
    decode. *)
Definition undecodable (a : Attempt) : bool :=
  match a with
  | Responds status (NotJson _) _ => negb ((400 <=? status) && (status <? 600))
  | _ => false
  end.

(** A server that answers every request with a page of HTML. *)
Definition html_server (u : string) (w : nat) : Attempt * nat :=
  (Responds 200 (NotJson "Expecting value") "<html></html>", S w).

(** ** The listing of establishments ([parser/establishment.py]) *)

Section EstablishmentListing.

Variable repr : PyVal -> string.

(** The record of one listed establishment; the entries are evaluated
    in the order of the dict display. *)
Definition establishment_listing_record (id : string) (details : PyVal) : res PyVal :=
  name ← get details "name" (PStr "");
  slug ← get details "slug" (PStr "");
  practice_type ← get details "practice_type" (PStr "");
  profile_url ← (v ← get details "profile_url" (PStr ""); site_prefix v);
  image_url ← get details "image_url" (PStr "");
  address_line1 ← get details "address_line1" (PStr "");
  address_line2 ← get details "address_line2" (PStr "");
  postal_code ← get details "zipcode" PNone;
  locality ← get details "locality" (PStr "");
  city ← get details "city" (PStr "");
  state ← get details "state" (PStr "");
  latitude ← (v ← get details "latitude" PNone; clean_numeric v);
  longitude ← (v ← get details "longitude" PNone; clean_numeric v);
  min_price ← (v ← get details "min_price" PNone; clean_numeric v);
  max_price ← (v ← get details "max_price" PNone; clean_numeric v);
  phone ← get2 details "vn_phone_number" "number" (PStr "");
  phone_extension ← get2 details "vn_phone_number" "extension" PNone;
  rating ← (v ← get details "rating" PNone; clean_numeric v);
  reviews_count ← (v ← get details "reviews_count" PNone; clean_numeric v);
  practice_timings ← get details "practice_timings" (PStr "");
  Ok (PDict
        [("practo_id", PStr id);
         ("name", name);
         ("slug", slug);
         ("practice_type", practice_type);
         ("profile_url", profile_url);
         ("image_url", image_url);
         ("street_address",
          PStr (strip (str repr address_line1) +:+ ", " +:+ str repr address_line2));
         ("postal_code", postal_code);
         ("locality", locality);
         ("city", city);
         ("state", state);
         ("latitude", latitude);
         ("longitude", longitude);
         ("min_price", min_price);
         ("max_price", max_price);
         ("phone", phone);
         ("phone_extension", phone_extension);
         ("rating", rating);
         ("reviews_count", reviews_count);
         ("practice_timings", practice_timings)]).

(** The loop of [parse_establishment_data] over
    [establishments.items()]. *)
Fixpoint establishments_loop (entities : list (string * PyVal))
    (establishments_data : list (string * PyVal))
    (establishments_profile : list (string * PyVal * PyVal))
  : res (list (string * PyVal) * list (string * PyVal * PyVal)) :=
  match entities with
  | [] => Ok (establishments_data, establishments_profile)
  | (id, details) :: rest =>
      record ← establishment_listing_record id details;
      slug ← get record "slug" PNone;
      profile_url ← get record "profile_url" PNone;
      establishments_loop rest (establishments_data ++ [(id, record)])
        (establishments_profile ++ [(id, slug, profile_url)])
  end.

Definition parse_establishment_data (response : PyVal)
  : res (list (string * PyVal) * list (string * PyVal * PyVal) * Query) :=
  establishments ← get2 response "establishments" "entities" (PDict []);
  entities ← items establishments;
  '(establishments_data, establishments_profile) ← establishments_loop entities [] [];
  Ok (establishments_data, establishments_profile, ESTABLISHMENT_INSERT_QUERY).

End EstablishmentListing.

(** ** The page of a listing ([main.py]) *)

(** [bool(obj)]. *)
Definition truthy (obj : PyVal) : bool :=
  match obj with
  | PNone => false
  | PBool b => b
  | PInt z => negb (z =? 0)
  | PFloat (FFin q) => negb (Qnum q =? 0)
  | PFloat _ => true
  | PStr s => negb (String.eqb s "")
  | PList l => match l with [] => false | _ => true end
  | PDict d => match d with [] => false | _ => true end
  end.

(** [mapping[result_type]] for the dicts keyed by the three entity
    types: the key that was found.  A list or a dict cannot be
    hashed. *)
Definition entity_type (result_type : PyVal) : res string :=
  match result_type with
  | PStr k =>
      if String.eqb k "hospital" || String.eqb k "clinic" || String.eqb k "doctor"
      then Ok k else Raise KeyError
  | PList _ | PDict _ => Raise TypeError
  | _ => Raise KeyError
  end.

(** [config.ESTABLISHMENT_PROFILE_URL.format(slug=slug)] and
    [config.DOCTOR_PROFILE_URL.format(slug=slug)]. *)
Definition ESTABLISHMENT_PROFILE_URL (slug : string) : string :=
  "https://www.practo.com/marketplace-api/dweb/profile/establishment/provider-relation-paginated?establishmentSlug="
  +:+ slug +:+ "&platform=desktop_web".

Definition DOCTOR_PROFILE_URL (slug : string) : string :=
  "https://www.practo.com/marketplace-api/dweb/profile/provider/relation?profile_slug="
  +:+ slug +:+ "&profile_type=doctor&platform=desktop_web&slug=" +:+ slug.

(** The content [make_request] returns with [return_json=False]. *)
Definition payload_content (payload : Payload) : string :=
  match payload with
  | Raw_content content => content
  | Decoded_json _ => EmptyString
  end.

Section Pipeline.

Context {World Db : Type}.
Variable request : string -> World -> Attempt * World.
Variable sleep : Z -> World -> World.
Variable run : Query -> list PyVal -> Db -> Db * res (option (bool * bool)).
Variable repr : PyVal -> string.
Variable json_dumps : PyVal -> string.
Variable h3_text : string -> string -> option string.

(** [parse_and_store_main]: the committed rows and the profile list,
    or the exception that leaves the function. *)
Definition parse_and_store_main (response result_type : PyVal) (db : Db)
  : Db * res (list (string * PyVal * PyVal)) :=
  match (k ← entity_type result_type;
         if String.eqb k "doctor" then parse_doctors_data repr json_dumps response
         else parse_establishment_data repr response) with
  | Ok (data, profile, query) =>
      match data with
      | [] => (db, Ok [])
      | _ => (fst (insert_main_data run data query db), Ok profile)
      end
  | Raise KeyError | Raise TypeError => (db, Raise ValueError)
  | Raise e => (db, Raise e)
  end.

(** [parse_and_store_relation]: the committed rows and the boolean
    returned. *)
Definition parse_and_store_relation (practo_id json_response : PyVal)
    (html_content : string) (result_type : PyVal) (db : Db) : Db * bool :=
  match entity_type result_type with
  | Raise _ => (db, false)
  | Ok k =>
      match (if String.eqb k "doctor"
             then parse_doctor_establishment_relation repr practo_id
                    json_response html_content
             else parse_establishment_doctor_relation repr h3_text practo_id
                    json_response html_content) with
      | Raise _ => (db, false)
      | Ok (data, doctor_count, bed_count, amb_count) =>
          match insert_relation_data run data doctor_count bed_count amb_count
                  practo_id k db with
          | (db', Ok _, _) => (db', true)
          | (db', Raise _, _) => (db', false)
          end
      end
  end.

(** [for practo_id, slug, url in profile]: every exception of the
    body is caught and counted.  A URL that is not a string is turned
    into one by the HTTP library. *)
Fixpoint profile_loop (result_type : PyVal) (profile : list (string * PyVal * PyVal))
    (w : World) (db : Db) (success_count error_count : Z) : World * Db * Z * Z :=
  match profile with
  | [] => (w, db, success_count, error_count)
  | (practo_id, slug, url) :: rest =>
      match entity_type result_type with
      | Raise _ => profile_loop result_type rest w db success_count (error_count + 1)
      | Ok k =>
          let profile_url :=
            if String.eqb k "doctor" then DOCTOR_PROFILE_URL (str repr slug)
            else ESTABLISHMENT_PROFILE_URL (str repr slug) in
          match make_request request sleep profile_url 3 2 true w with
          | (Raise _, w1, _) =>
              profile_loop result_type rest w1 db success_count (error_count + 1)
          | (Ok profile_response, w1, _) =>
              match make_request request sleep (str repr url) 3 2 false w1 with
              | (Raise _, w2, _) =>
                  profile_loop result_type rest w2 db success_count (error_count + 1)
              | (Ok html_content, w2, _) =>
                  let '(db', stored) :=
                    parse_and_store_relation (PStr practo_id)
                      (payload_value profile_response) (payload_content html_content)
                      result_type db in
                  if stored
                  then profile_loop result_type rest w2 db' (success_count + 1)
                         error_count
                  else profile_loop result_type rest w2 db' success_count
                         (error_count + 1)
              end
          end
      end
  end.

(** The rest of the body of the page loop once the page is fetched,
    with the increments of the two counters. *)
Definition page_body_of (page : Z) (page_response : Payload) (s : World * Db)
  : World * Db * Z * Z :=
  let '(w, db) := s in
  match get2 (payload_value page_response) "form" "results_type" PNone with
  | Raise _ => (w, db, 0, 1)
  | Ok result_type =>
      if negb (truthy result_type) then (w, db, 0, 0)
      else
        match parse_and_store_main (payload_value page_response) result_type db with
        | (db1, Raise _) => (w, db1, 0, 1)
        | (db1, Ok profile) => profile_loop result_type profile w db1 0 0
        end
  end.

(** The network and the clock beside a store that they leave alone. *)
Definition request_beside (u : string) (s : World * Db) : Attempt * (World * Db) :=
  let '(outcome, w) := request u (fst s) in (outcome, (w, snd s)).

Definition sleep_beside (seconds : Z) (s : World * Db) : World * Db :=
  (sleep seconds (fst s), snd s).

(** The body of the loop of [main] over the seed URLs, and the loop. *)
Definition main_link (link : string) (s : World * Db)
  : World * Db * Z * Z * list Step :=
  process_link request_beside sleep_beside page_body_of link s.

Fixpoint main_links (urls : list string) (s : World * Db) : World * Db :=
  match urls with
  | [] => s
  | link :: rest => main_links rest (fst (fst (fst (main_link link s))))
  end.

End Pipeline.

(** ** Initialisation ([db/init_db.py]) *)

Section Initialisation.

(** The database as [init_db] sees it: the names of the tables of the
    [public] schema, and what executing [mapping.sql] and committing
    does, when it does not raise. *)
Context {Store : Type}.
Variable public_tables : Store -> list string.
Variable mapping_sql : Store -> res Store.

(** [SELECT COUNT( * ) ... AND table_name IN (...)]. *)
Definition table_count (s : Store) : Z :=
  Z.of_nat
    (length
       (List.filter
          (fun table_name =>
             existsb (String.eqb table_name)
               ["doctors"; "establishments"; "doctor_establishment"])
          (public_tables s))).

(** The committed store and the exception raised, if any. *)
Definition init_db (s : Store) : Store * res unit :=
  if table_count s <? 3 then
    match mapping_sql s with
    | Ok s' => (s', Ok ())
    | Raise e => (s, Raise e)
    end
  else (s, Ok ()).

End Initialisation.

(** ** Observations on the steps of a traversal *)

(** The pauses among the steps, in order. *)
Definition pauses (steps : list Step) : list Z :=
  omap (fun s => match s with
                 | Paused seconds => Some seconds
                 | _ => None
                 end) steps.

(** A server that is down for every URL. *)
Definition down_server (u : string) (w : nat) : Attempt * nat :=
  (Responds 503 (NotJson "") "", S w).

(** ** Observations on the listing parsers *)

(** A record laid out for the placeholders of an entity insert query:
    a dict whose keys follow the column list, with [practo_id] where
    the columns have [practo_uuid], and whose identifier is the text
    [id]. *)
Definition laid_out (columns : list string) (id : string) (record : PyVal) : Prop :=
  exists d,
    record = PDict d
    /\ map fst d = "practo_id" :: tail columns
    /\ assoc "practo_id" d = Some (PStr id).

(** The profile entry of a record: its key, its slug and its profile
    URL, the latter a string on the site. *)
Definition profile_entry (item : string * PyVal) (entry : string * PyVal * PyVal)
  : Prop :=
  let '(id, slug, profile_url) := entry in
  id = fst item
  /\ slug = field (snd item) "slug" PNone
  /\ profile_url = field (snd item) "profile_url" PNone
  /\ exists path, profile_url = PStr ("https://www.practo.com" +:+ path).

(** A listing page with two clinics. *)
Definition listing_two_clinics : PyVal :=
  PDict [("form", PDict [("results_type", PStr "clinic")]);
         ("establishments",
          PDict [("entities",
                  PDict [("2001",
                          PDict [("name", PStr "City Clinic");
                                 ("slug", PStr "city-clinic");
                                 ("profile_url", PStr "/delhi/clinic/city-clinic");
                                 ("address_line1", PStr " 12 Ring Road ");
                                 ("latitude", PStr "28.61");
                                 ("reviews_count", PStr "14")]);
                         ("2002", PDict [("name", PStr "Lake Clinic")])])])].

(** A listing page with two doctors. *)
Definition listing_two_doctors : PyVal :=
  PDict [("doctors",
          PDict [("entities",
                  PDict [("1001",
                          PDict [("doctor_name", PStr "Dr. Asha Rao");
                                 ("translated_new_slug", PStr "dr-asha-rao");
                                 ("profile_url", PStr "/delhi/doctor/dr-asha-rao");
                                 ("experience_years", PStr "12")]);
                         ("1002", PDict [("doctor_name", PStr "Ravi")])])])].

(** The value of a computation that returns. *)
Definition returned {A : Type} (r : res A) (dflt : A) : A :=
  match r with
  | Ok a => a
  | Raise _ => dflt
  end.

(** ** Observations on the relation extractors *)

(** An item of a doctor's profile laid out for the statements of the
    relation pass: the relation record has its six values in the order
    of the placeholders of [RELATIONS_INSERT_QUERY], the
    establishment's record has one value for each column of
    [ESTABLISHMENT_INSERT_QUERY_SMALL], the identifiers are strings,
    and the establishment has the same identifier in both records. *)
Definition doctor_item_laid_out (repr : PyVal -> string) (doctor_id item : PyVal)
  : Prop :=
  exists r e u,
    item = PDict [("relation_info", PDict r); ("establishment_info", PDict e)]
    /\ map fst r = ["doctor_id"; "establishment_id"; "fees"; "begin_time";
                    "end_time"; "available_days"]
    /\ map fst e = ["establishment_id"; "name"; "slug"; "profile_url"; "city";
                    "state"; "locality"; "latitude"; "longitude"; "address"]
    /\ length e = length (query_columns ESTABLISHMENT_INSERT_QUERY_SMALL)
    /\ assoc "doctor_id" r = Some (PStr (str repr doctor_id))
    /\ assoc "establishment_id" r = Some (PStr u)
    /\ assoc "establishment_id" e = Some (PStr u).

(** The same for an item of an establishment's profile, with the
    doctor's record and [DOCTOR_INSERT_QUERY_SMALL]. *)
Definition establishment_item_laid_out (repr : PyVal -> string)
    (establishment_id item : PyVal) : Prop :=
  exists r d u,
    item = PDict [("relation_info", PDict r); ("doctor_info", PDict d)]
    /\ map fst r = ["doctor_id"; "establishment_id"; "fees"; "begin_time";
                    "end_time"; "available_days"]
    /\ map fst d = "doctor_id" :: tail (query_columns DOCTOR_INSERT_QUERY_SMALL)
    /\ assoc "establishment_id" r = Some (PStr (str repr establishment_id))
    /\ assoc "doctor_id" r = Some (PStr u)
    /\ assoc "doctor_id" d = Some (PStr u).

(** [n] spaces. *)
Fixpoint spaces (n : nat) : string :=
  match n with
  | O => EmptyString
  | S n' => String " " (spaces n')
  end.

(** ** Observations on the store *)

(** The UUID column of a table, row by row. *)
Definition uuids (t : list Row) : list (option PyVal) :=
  map (fun row => row !! "practo_uuid") t.

(** The rows of [db] are still there in [db'], in their places, and
    anything new comes after them. *)
Definition grows (db db' : Db) : Prop :=
  doctors db `prefix_of` doctors db'
  /\ establishments db `prefix_of` establishments db'
  /\ doctor_establishment db `prefix_of` doctor_establishment db'.

(** The other entity table. *)
Definition other_table (table : Table) : Table :=
  match table with
  | practo_doctors => practo_establishments
  | practo_establishments => practo_doctors
  end.

(** A store with one doctor and one establishment. *)
Definition store_doctor_and_establishment : Db :=
  mkDb [{[ "id" := PInt 1; "practo_uuid" := PStr "doc-7" ]}]
       [stored_establishment] [].

(** A computation in the open transaction that only appends rows. *)
Definition appends {A : Type} (m : Db -> Db * res A) : Prop :=
  forall cur, grows cur (fst (m cur)).

(** What an entity pass on [table] may do to the store: the other
    entity table and the edges stay as they are, and the UUID column
    of [table] keeps its entries, in their places. *)
Definition entity_frame (table : Table) (db db' : Db) : Prop :=
  rows (other_table table) db' = rows (other_table table) db
  /\ doctor_establishment db' = doctor_establishment db
  /\ uuids (rows table db) `prefix_of` uuids (rows table db').

(** A page filed under an entity type that the pipeline does not
    know. *)
Definition page_of_labs : PyVal :=
  PDict [("form", PDict [("results_type", PStr "lab")]);
         ("establishments",
          PDict [("entities", PDict [("3001", PDict [("name", PStr "City Lab")])])])].

(** A database after a first run, seen by its table names, and a
    script that creates one table. *)
Definition tables_of_the_pipeline : list string :=
  ["practo_doctors"; "practo_establishments"; "practo_doctor_establishment"].

Definition script_of_one_table (s : list string) : res (list string) :=
  Ok (s ++ ["schema_version"]).

(** ** Observations on trimmed text *)

Definition starts_with_space (s : string) : bool :=
  match s with
  | String c _ => is_space c
  | EmptyString => false
  end.

Fixpoint ends_with_space (s : string) : bool :=
  match s with
  | EmptyString => false
  | String c EmptyString => is_space c
  | String _ s' => ends_with_space s'
  end.

(** No whitespace at either end. *)
Definition trimmed (s : string) : Prop :=
  starts_with_space s = false /\ ends_with_space s = false.

(** [[url.strip() for url in file.readlines() if url.strip()]] of
    [main]. *)
Definition urls_of_lines (lines : list string) : list string :=
  map strip (List.filter (fun url => negb (String.eqb (strip url) "")) lines).

(** * Properties *)

(** ** Numeric coercion *)

Lemma in_blank_spec (value : PyVal) :
  in_blank value = true <-> value = PNone \/ value = PStr "".
Proof.
  split.
  - destruct value as [| | | |s| |]; try discriminate; auto.
    destruct s; [auto | discriminate].
  - intros [-> | ->]; reflexivity.
Qed.

Lemma isdigit_nonempty (s : string) : isdigit s = true -> s <> "".
Proof. destruct s; [discriminate | congruence]. Qed.






Lemma py_float_container (value : PyVal) :
  (exists l, value = PList l) \/ (exists d, value = PDict d) ->
  py_float value = Raise TypeError.
Proof. intros [[l ->] | [d ->]]; reflexivity. Qed.



(** ** Name split *)

(** The normalizer of the listing strips the two joined parts. *)
Lemma doctor_names_split (doctor_name : string) :
  doctor_names doctor_name =
    let name := pad3 (split " " doctor_name) in
    Some (PStr (strip (join " " (take 2 name))),
          PStr (strip (join " " (drop 2 name)))).
Proof. reflexivity. Qed.

(** The relation extractor joins them as they are. *)
Lemma provider_names_split (full_name : string) :
  provider_names full_name =
    let name := pad3 (split " " full_name) in
    Some (PStr (join " " (take 2 name)), PStr (join " " (drop 2 name))).
Proof. reflexivity. Qed.

(** C7.  In [parse_doctors_data] the split behaves as claimed: ["A B C
    D"] gives first ["A B"] and last ["C D"], and ["A"] gives first
    ["A"] and last [""].  In [parse_establishment_doctor_relation] the
    same split lacks the [strip()] of its sibling, and ["A"] gives the
    first name ["A "], with the padding token's separator left in. *)
Theorem name_split_examples :
  doctor_names "A B C D" = Some (PStr "A B", PStr "C D")
  /\ doctor_names "A" = Some (PStr "A", PStr "")
  /\ provider_names "A B C D" = Some (PStr "A B", PStr "C D")
  /\ provider_names "A" = Some (PStr "A ", PStr "").
Proof. repeat split; reflexivity. Qed.

(** ** Fetch retry *)

Lemma range_cons (lo hi : Z) : lo < hi -> range lo hi = lo :: range (lo + 1) hi.
Proof.
  intros H. unfold range.
  replace (Z.to_nat (hi - lo)) with (S (Z.to_nat (hi - (lo + 1)))) by lia.
  cbn [seq map]. f_equal; [lia |].
  rewrite <- seq_shift, map_map.
  apply map_ext. intros i. lia.
Qed.

Lemma range_nil (lo hi : Z) : hi <= lo -> range lo hi = [].
Proof.
  intros H. unfold range. replace (Z.to_nat (hi - lo)) with 0%nat by lia. reflexivity.
Qed.

Lemma range_length (lo hi : Z) : length (range lo hi) = Z.to_nat (hi - lo).
Proof. unfold range. rewrite length_map, length_seq. reflexivity. Qed.

Section FetcherProperties.

Context {World : Type}.
Variable request : string -> World -> Attempt * World.
Variable sleep : Z -> World -> World.

(** A server error or a 429 sends the loop to its next iteration,
    after the back-off. *)
Lemma attempts_loop_retryable url max_retries retry_delay return_json
    attempt rest w done status :
  status_of (fst (request url w)) = Some status ->
  500 <= status < 600 \/ status = 429 ->
  attempts_loop request sleep url max_retries retry_delay return_json
    (attempt :: rest) w done =
  let '(w2, done2) :=
    back_off sleep max_retries retry_delay attempt (snd (request url w))
      (done ++ [Requested url]) in
  attempts_loop request sleep url max_retries retry_delay return_json rest w2 done2.
Proof.
  intros Hst Hr. cbn [attempts_loop].
  destruct (request url w) as [outcome w1]. cbn [fst snd] in *.
  destruct outcome as [| | |st body content]; try discriminate.
  cbn in Hst. injection Hst as ->.
  replace ((400 <=? status) && (status <? 600)) with true
    by (symmetry; apply andb_true_iff; split; [apply Z.leb_le | apply Z.ltb_lt]; lia).
  replace ((400 <=? status) && (status <? 500) && negb (status =? 429)) with false.
  { reflexivity. }
  symmetry. destruct Hr as [Hr | ->]; [| reflexivity].
  apply andb_false_iff. left. apply andb_false_iff. right. apply Z.ltb_ge. lia.
Qed.

(** A client error other than 429 raises at once. *)
Lemma attempts_loop_client_error url max_retries retry_delay return_json
    attempt rest w done status :
  status_of (fst (request url w)) = Some status ->
  400 <= status < 500 -> status <> 429 ->
  attempts_loop request sleep url max_retries retry_delay return_json
    (attempt :: rest) w done =
  (Raise (RequestError
            (mkRequestError ("HTTP error: " +:+ Z_to_string status)
               (Some status) (Some url))),
   snd (request url w), done ++ [Requested url]).
Proof.
  intros Hst Hr Hne. cbn [attempts_loop].
  destruct (request url w) as [outcome w1]. cbn [fst snd] in *.
  destruct outcome as [| | |st body content]; try discriminate.
  cbn in Hst. injection Hst as ->.
  replace ((400 <=? status) && (status <? 600)) with true
    by (symmetry; apply andb_true_iff; split; [apply Z.leb_le | apply Z.ltb_lt]; lia).
  replace ((400 <=? status) && (status <? 500) && negb (status =? 429)) with true.
  { reflexivity. }
  symmetry. rewrite !andb_true_iff, negb_true_iff.
  repeat split; [apply Z.leb_le | apply Z.ltb_lt | apply Z.eqb_neq]; lia.
Qed.

(** C2, amended.  With [max_retries=3], a URL that answers HTTP 500
    to every attempt is requested exactly three times, with the two
    back-off sleeps in between, and then [RequestError] is raised with
    the URL and with no status code ([status_code] stays [None]); a
    URL whose first answer is a 4xx other than 429 (404, say) is
    requested exactly once, whatever [max_retries >= 1] is, and
    [RequestError] is raised at once with the URL and that status
    code. *)
Theorem fetch_retry (url_a url_b : string) (max_retries retry_delay status : Z)
    (return_json : bool) (w : World) :
  (forall w', status_of (fst (request url_a w')) = Some 500) ->
  status_of (fst (request url_b w)) = Some status ->
  400 <= status < 500 -> status <> 429 -> 1 <= max_retries ->
  (exists w' done,
      make_request request sleep url_a 3 retry_delay return_json w =
        (Raise (RequestError
                  (mkRequestError "Request failed after 3 attempts"
                     None (Some url_a))),
         w', done)
      /\ done = [Requested url_a; Slept (retry_delay * 1);
                 Requested url_a; Slept (retry_delay * 2);
                 Requested url_a]
      /\ requests_made done = 3%nat)
  /\ make_request request sleep url_b max_retries retry_delay return_json w =
       (Raise (RequestError
                 (mkRequestError ("HTTP error: " +:+ Z_to_string status)
                    (Some status) (Some url_b))),
        snd (request url_b w), [Requested url_b])
  /\ requests_made [Requested url_b] = 1%nat.
Proof.
  intros H500 Hst Hr Hne Hm. split; [| split; [| reflexivity]].
  - unfold make_request.
    change (range 0 3) with [0; 1; 2].
    do 3 (rewrite (attempts_loop_retryable _ _ _ _ _ _ _ _ 500) by (auto; lia);
          unfold back_off;
          match goal with
          | |- context [?a <? ?b] =>
              let v := eval vm_compute in (a <? b) in change (a <? b) with v
          end;
          cbv beta iota).
    cbn [attempts_loop app].
    eexists _, _. split; [reflexivity |]. split; reflexivity.
  - unfold make_request. rewrite range_cons by lia.
    rewrite (attempts_loop_client_error _ _ _ _ _ _ _ _ status) by assumption.
    reflexivity.
Qed.

End FetcherProperties.

(** C2, as stated, fails on the status code: after three answers of
    HTTP 500 the last status code is available, yet the error raised
    when the retries are exhausted carries none. *)
Lemma exhausted_error_has_no_status :
  exists info w done,
    make_request failing_server no_sleep "https://www.practo.com/down" 3 2 true 0%nat
      = (Raise (RequestError info), w, done)
    /\ status_of (fst (failing_server "https://www.practo.com/down" 2%nat)) = Some 500
    /\ status_code info = None
    /\ status_code info <> Some 500.
Proof.
  eexists _, _, _. split; [reflexivity |].
  split; [reflexivity |]. split; [reflexivity | discriminate].
Qed.

(** The statement at a server that answers 500 at one location and
    404 at another. *)
Lemma fetch_retry_witness :
  (exists w' done,
      make_request failing_server no_sleep "https://www.practo.com/down" 3 2 true 0%nat =
        (Raise (RequestError
                  (mkRequestError "Request failed after 3 attempts"
                     None (Some "https://www.practo.com/down"))),
         w', done)
      /\ done = [Requested "https://www.practo.com/down"; Slept (2 * 1);
                 Requested "https://www.practo.com/down"; Slept (2 * 2);
                 Requested "https://www.practo.com/down"]
      /\ requests_made done = 3%nat)
  /\ make_request failing_server no_sleep "https://www.practo.com/gone" 3 2 true 0%nat =
       (Raise (RequestError
                 (mkRequestError ("HTTP error: " +:+ Z_to_string 404)
                    (Some 404) (Some "https://www.practo.com/gone"))),
        snd (failing_server "https://www.practo.com/gone" 0%nat),
        [Requested "https://www.practo.com/gone"])
  /\ requests_made [Requested "https://www.practo.com/gone"] = 1%nat.
Proof.
  apply (fetch_retry failing_server no_sleep
           "https://www.practo.com/down" "https://www.practo.com/gone"
           3 2 404 true 0%nat).
  - intros w'. reflexivity.
  - reflexivity.
  - lia.
  - lia.
  - lia.
Defined.

(** ** Page loop *)

Section OrchestratorProperties.

Context {World : Type}.
Variable request : string -> World -> Attempt * World.
Variable sleep : Z -> World -> World.
Variable page_body : Z -> Payload -> World -> World * Z * Z.

(** Every page of the range is requested once, in order, whatever the
    fetches and the page bodies do. *)
Lemma page_loop_requests link pages w success_count error_count steps :
  pages_requested
    (snd (page_loop request sleep page_body link pages w
            success_count error_count steps)) =
  pages_requested steps ++ map (fun page => (page, page_url_of link page)) pages.
Proof.
  revert w success_count error_count steps.
  induction pages as [|page rest IH]; intros w sc ec steps.
  - cbn. rewrite app_nil_r. reflexivity.
  - cbn [page_loop map].
    destruct ((1 <? page) && (page mod 5 =? 0));
      destruct (make_request request sleep (page_url_of link page) 3 2 true _)
        as [[[page_response | e] w2] done];
      try destruct (page_body page page_response w2) as [[w3 ds] de];
      rewrite IH; unfold pages_requested; rewrite !omap_app; cbn;
      rewrite ?app_nil_r, <- ?app_assoc; reflexivity.
Qed.

Lemma traverse_requests link count w :
  pages_requested (snd (traverse request sleep page_body link count w)) =
  if count =? 0 then []
  else map (fun page => (page, page_url_of link page)) (range 1 (count / 10 + 1 + 1)).
Proof.
  unfold traverse. destruct (count =? 0); [reflexivity |].
  rewrite page_loop_requests. reflexivity.
Qed.

Lemma process_link_traverse link w response w1 done count result_type :
  make_request request sleep link 3 2 true w = (Ok (Decoded_json response), w1, done) ->
  result_count link response = Ok (count, result_type) ->
  process_link request sleep page_body link w
  = traverse request sleep page_body link count w1.
Proof.
  intros Hf Hc. unfold process_link. rewrite Hf. cbn [payload_value].
  rewrite Hc. reflexivity.
Qed.

(** C3.  A seed URL whose result count is zero is left with a
    warning, no page requested and no error counted; a seed URL whose
    count is above zero has the pages [1] to [count // 10 + 1]
    requested, one request each and in order, so that 9, 10 and 25
    results give 1, 2 and 3 pages. *)
Theorem page_count (link0 link : string) (count : Z) (w w0 w1 : World)
    (response0 response result_type0 result_type : PyVal)
    (done0 done1 : list Effect) :
  make_request request sleep link0 3 2 true w
    = (Ok (Decoded_json response0), w0, done0) ->
  result_count link0 response0 = Ok (0, result_type0) ->
  make_request request sleep link 3 2 true w
    = (Ok (Decoded_json response), w1, done1) ->
  result_count link response = Ok (count, result_type) ->
  0 < count ->
  process_link request sleep page_body link0 w
    = (w0, 0, 0, [WARNING_no_results link0])
  /\ pages_requested (snd (process_link request sleep page_body link0 w)) = []
  /\ map fst (pages_requested (snd (process_link request sleep page_body link w)))
     = range 1 (count / 10 + 1 + 1)
  /\ length (pages_requested (snd (process_link request sleep page_body link w)))
     = Z.to_nat (count / 10 + 1)
  /\ map fst (pages_requested (snd (traverse request sleep page_body link 9 w))) = [1]
  /\ map fst (pages_requested (snd (traverse request sleep page_body link 10 w)))
     = [1; 2]
  /\ map fst (pages_requested (snd (traverse request sleep page_body link 25 w)))
     = [1; 2; 3].
Proof.
  intros Hf0 Hc0 Hf Hc Hpos.
  assert (Hne : (count =? 0) = false) by (apply Z.eqb_neq; lia).
  rewrite (process_link_traverse _ _ _ _ _ _ _ Hf0 Hc0).
  rewrite (process_link_traverse _ _ _ _ _ _ _ Hf Hc).
  split; [reflexivity |]. split; [reflexivity |].
  rewrite !traverse_requests, Hne. cbn [Z.eqb].
  rewrite !map_map, !length_map, range_length. cbn [fst].
  rewrite !map_id.
  repeat split; try reflexivity. lia.
Qed.

End OrchestratorProperties.

(** The page rewrite.  No occurrence of the text can start inside a
    piece that is free of it and end in the occurrence that follows the
    piece, because no proper suffix of ["page=1"] is a prefix of it. *)

Lemma occurs_tail (old : string) (c : ascii) (s : string) :
  occurs old (String c s) = false -> occurs old s = false.
Proof. cbn [occurs]. intros H. apply orb_false_iff in H. tauto. Qed.

Lemma occurs_prefix (old s : string) :
  occurs old s = false -> String.prefix old s = false.
Proof. destruct s; cbn [occurs]; intros H; apply orb_false_iff in H; tauto. Qed.

Lemma prefix_cons_true (a b : ascii) (old s : string) :
  String.prefix (String a old) (String b s) = true ->
  a = b /\ String.prefix old s = true.
Proof. cbn [String.prefix]. destruct (ascii_dec a b); [auto | discriminate]. Qed.

Lemma prefix_cons_false (a b : ascii) (old s : string) :
  String.prefix (String a old) (String b s) = false ->
  a = b -> String.prefix old s = false.
Proof. cbn [String.prefix]. destruct (ascii_dec a b); [auto | congruence]. Qed.

(** One more character of the piece is matched against the text: the
    piece ends, and the next character is the [p] of the occurrence, or
    the piece goes on with the expected character. *)
Ltac match_next H Hfree s :=
  destruct s as [|? s];
  cbn [String.append] in H;
  apply prefix_cons_true in H;
  destruct H as [? H];
  [ discriminate
  | subst; apply prefix_cons_false in Hfree; [| reflexivity] ].

Lemma page1_not_prefix (s rest : string) :
  s <> "" -> occurs "page=1" s = false ->
  String.prefix "page=1" (s +:+ "page=1" +:+ rest) = false.
Proof.
  intros Hne Hfree. apply occurs_prefix in Hfree.
  apply not_true_is_false. intros H.
  destruct s as [|c1 s]; [congruence |].
  cbn [String.append] in H.
  apply prefix_cons_true in H. destruct H as [? H]. subst.
  apply prefix_cons_false in Hfree; [| reflexivity].
  match_next H Hfree s.
  match_next H Hfree s.
  match_next H Hfree s.
  match_next H Hfree s.
  match_next H Hfree s.
  destruct s; discriminate Hfree.
Qed.

Lemma prefix_append (old rest : string) :
  String.prefix old (old +:+ rest) = true.
Proof.
  induction old as [|a old IH]; [destruct rest; reflexivity |].
  change (String a old +:+ rest) with (String a (old +:+ rest)).
  cbn [String.prefix].
  destruct (ascii_dec a a); [exact IH | congruence].
Qed.

Lemma replace_free (new s : string) :
  occurs "page=1" s = false -> replace "page=1" new s = s.
Proof.
  unfold replace. induction s as [|c s IH]; intros Hfree; [reflexivity |].
  cbn [replace_from]. rewrite (occurs_prefix _ _ Hfree).
  rewrite IH by (eapply occurs_tail; eassumption). reflexivity.
Qed.

Lemma replace_piece (new s rest : string) :
  occurs "page=1" s = false ->
  replace "page=1" new (s +:+ "page=1" +:+ rest)
  = s +:+ new +:+ replace "page=1" new rest.
Proof.
  unfold replace. induction s as [|c s IH]; intros Hfree.
  - change ("" +:+ "page=1" +:+ rest) with (String "p" ("age=1" +:+ rest)).
    cbn [replace_from].
    change (String "p" ("age=1" +:+ rest)) with ("page=1" +:+ rest).
    rewrite prefix_append. reflexivity.
  - change (String c s +:+ "page=1" +:+ rest)
      with (String c (s +:+ "page=1" +:+ rest)).
    cbn [replace_from].
    change (String c (s +:+ "page=1" +:+ rest))
      with (String c s +:+ "page=1" +:+ rest).
    rewrite page1_not_prefix by (congruence || assumption).
    rewrite IH by (eapply occurs_tail; eassumption). reflexivity.
Qed.

Lemma replace_join (new : string) (pieces : list string) :
  Forall (fun s => occurs "page=1" s = false) pieces ->
  replace "page=1" new (join "page=1" pieces) = join new pieces.
Proof.
  induction 1 as [|s rest Hs Hrest IH]; [reflexivity |].
  destruct rest as [|s2 rest].
  - cbn [join]. apply replace_free, Hs.
  - change (join "page=1" (s :: s2 :: rest))
      with (s +:+ "page=1" +:+ join "page=1" (s2 :: rest)).
    rewrite replace_piece by assumption. rewrite IH. reflexivity.
Qed.

Section PageRewrite.

Context {World : Type}.
Variable request : string -> World -> Attempt * World.
Variable sleep : Z -> World -> World.
Variable page_body : Z -> Payload -> World -> World * Z * Z.

(** C10.  The page URL is the seed URL with the text ["page=1"]
    replaced by ["page=N"]: for a seed URL without that text every
    iteration of the page loop requests the seed URL itself, and for
    a seed URL cut into pieces by its occurrences of the text (the
    pieces being free of it) every occurrence is rewritten, wherever
    it stands. *)
Theorem page_rewrite (link : string) (pieces : list string) (count : Z) (w : World) :
  occurs "page=1" link = false ->
  Forall (fun s => occurs "page=1" s = false) pieces ->
  (forall page, page_url_of link page = link)
  /\ Forall (fun p => snd p = link)
       (pages_requested (snd (traverse request sleep page_body link count w)))
  /\ length (pages_requested (snd (traverse request sleep page_body link count w)))
     = (if count =? 0 then 0%nat else Z.to_nat (count / 10 + 1))
  /\ (forall page,
         page_url_of (join "page=1" pieces) page
         = join ("page=" +:+ Z_to_string page) pieces)
  /\ pages_requested
       (snd (traverse request sleep page_body (join "page=1" pieces) count w))
     = (if count =? 0 then []
        else map (fun page => (page, join ("page=" +:+ Z_to_string page) pieces))
               (range 1 (count / 10 + 1 + 1))).
Proof.
  intros Hlink Hpieces.
  assert (Hsame : forall page, page_url_of link page = link)
    by (intros page; apply replace_free, Hlink).
  assert (Hall : forall page,
             page_url_of (join "page=1" pieces) page
             = join ("page=" +:+ Z_to_string page) pieces)
    by (intros page; apply replace_join, Hpieces).
  repeat split; try assumption.
  - rewrite traverse_requests. destruct (count =? 0); [constructor |].
    apply Forall_forall. intros [page u] Hin.
    apply list_elem_of_In, in_map_iff in Hin. destruct Hin as [p [Heq _]].
    injection Heq as _ <-. apply Hsame.
  - rewrite traverse_requests. destruct (count =? 0); [reflexivity |].
    rewrite length_map, range_length. f_equal. lia.
  - rewrite traverse_requests. destruct (count =? 0); [reflexivity |].
    apply map_ext. intros page. rewrite Hall. reflexivity.
Qed.

End PageRewrite.

(** The statement at a server reporting no result for one listing and
    25 results for another. *)
Lemma page_count_witness :
  process_link listing_server no_sleep no_page_body
    "https://www.practo.com/none?page=1" 0%nat
  = (1%nat, 0, 0, [WARNING_no_results "https://www.practo.com/none?page=1"])
  /\ map fst
       (pages_requested
          (snd (process_link listing_server no_sleep no_page_body
                  "https://www.practo.com/clinics?page=1" 0%nat)))
     = range 1 (25 / 10 + 1 + 1).
Proof.
  pose proof (page_count listing_server no_sleep no_page_body
                "https://www.practo.com/none?page=1"
                "https://www.practo.com/clinics?page=1" 25 0%nat 1%nat 1%nat
                (PDict [("form", PDict [("total_results", PStr "0");
                                        ("results_type", PStr "clinic")])])
                (PDict [("form", PDict [("total_results", PStr "25");
                                        ("results_type", PStr "clinic")])])
                (PStr "clinic") (PStr "clinic")
                [Requested "https://www.practo.com/none?page=1"]
                [Requested "https://www.practo.com/clinics?page=1"]) as H.
  split; apply H; (reflexivity || lia).
Defined.

(** The statement at a seed URL without the text and at one with three
    occurrences of it. *)
Lemma page_rewrite_witness :
  page_url_of "https://www.practo.com/search?placement=DOCTOR_SEARCH" 2
  = "https://www.practo.com/search?placement=DOCTOR_SEARCH"
  /\ page_url_of (join "page=1" ["https://www.practo.com/s?"; "&sub"; "&next"; "0"]) 2
     = "https://www.practo.com/s?page=2&subpage=2&nextpage=20".
Proof.
  pose proof (page_rewrite failing_server no_sleep (fun _ _ w => (w, 0, 0))
                "https://www.practo.com/search?placement=DOCTOR_SEARCH"
                ["https://www.practo.com/s?"; "&sub"; "&next"; "0"] 25 0%nat) as H.
  split.
  - apply H; [reflexivity | repeat constructor].
  - apply H; [reflexivity | repeat constructor].
Defined.

(** ** Relation extraction *)

Lemma get_field (obj : PyVal) (key : string) (dflt : PyVal) :
  is_dict obj = true -> get obj key dflt = Ok (field obj key dflt).
Proof. destruct obj; try discriminate. reflexivity. Qed.

Lemma get_ok_dict (obj : PyVal) (key : string) (dflt x : PyVal) :
  get obj key dflt = Ok x -> is_dict obj = true /\ x = field obj key dflt.
Proof. destruct obj; try discriminate. cbn. intros [= <-]. auto. Qed.

Lemma bind_ok {A B : Type} (a : A) (k : A -> res B) : (Ok a ≫= k) = k a.
Proof. reflexivity. Qed.

Lemma bind_raise {A B : Type} (e : exn) (k : A -> res B) :
  (Raise e ≫= k) = Raise e.
Proof. reflexivity. Qed.

Lemma number_from_app (index : Z) (a b : list PyVal) :
  number_from index (a ++ b)
  = number_from index a ++ number_from (index + Z.of_nat (length a)) b.
Proof.
  revert index. induction a as [|x a IH]; intros index; cbn [number_from app length].
  - rewrite Z.add_0_r. reflexivity.
  - rewrite IH. do 3 f_equal. lia.
Qed.

Lemma number_from_length (index : Z) (l : list PyVal) :
  length (number_from index l) = length l.
Proof. revert index. induction l; intros; cbn; auto. Qed.

Lemma number_from_snd (index : Z) (l : list PyVal) :
  map snd (number_from index l) = l.
Proof. revert index. induction l; intros; cbn; f_equal; auto. Qed.

Lemma number_from_fst (index : Z) (l : list PyVal) :
  map fst (number_from index l) = range index (index + Z.of_nat (length l)).
Proof.
  revert index. induction l as [|x l IH]; intros index; cbn [number_from map length fst].
  - rewrite range_nil by lia. reflexivity.
  - rewrite range_cons by lia. rewrite IH. do 2 f_equal. lia.
Qed.

Lemma number_from_Forall2 {B : Type} (P : PyVal -> B -> Prop) (index : Z)
    (items : list PyVal) (l : list B) :
  Forall2 P items l ->
  Forall2 (fun item b => P (snd item) b) (number_from index items) l.
Proof.
  intros H. revert index.
  induction H; intros index; cbn [number_from]; constructor; auto.
Qed.

Section Loops.

(** The inner loop appends one numbered item per timing when every
    timing yields one. *)
Lemma timing_loop_ok (item : PyVal -> res PyVal) (timings outs : list PyVal)
    (data : list (Z * PyVal)) (index : Z) :
  Forall2 (fun timing out => item timing = Ok out) timings outs ->
  timing_loop item timings data index
  = Ok (data ++ number_from index outs, index + Z.of_nat (length outs)).
Proof.
  intros H. revert data index.
  induction H as [|timing out timings outs Hit _ IH]; intros data index.
  - cbn. rewrite app_nil_r, Z.add_0_r. reflexivity.
  - cbn [timing_loop]. rewrite Hit, bind_ok, IH.
    cbn [number_from length]. rewrite <- app_assoc. cbn [app].
    do 2 f_equal. lia.
Qed.

(** It raises what the first failing timing raises. *)
Lemma timing_loop_raise (item : PyVal -> res PyVal) (timing : PyVal)
    (rest : list PyVal) (data : list (Z * PyVal)) (index : Z) (e : exn) :
  item timing = Raise e ->
  timing_loop item (timing :: rest) data index = Raise e.
Proof. intros H. cbn [timing_loop]. rewrite H. reflexivity. Qed.

Lemma relation_loop_app body (pre rest : list PyVal) data index :
  relation_loop body (pre ++ rest) data index
  = (relation_loop body pre data index
       ≫= fun '(data', index') => relation_loop body rest data' index').
Proof.
  revert data index. induction pre as [|value pre IH]; intros data index.
  - reflexivity.
  - cbn [app relation_loop].
    destruct (body value data index) as [[data' index'] | e]; [| reflexivity].
    rewrite !bind_ok. apply IH.
Qed.

(** The outer loop appends what each relation yields. *)
Lemma relation_loop_ok body (relations : list PyVal) (outss : list (list PyVal))
    (data : list (Z * PyVal)) (index : Z) :
  Forall2 (fun value outs =>
             forall data index,
               body value data index
               = Ok (data ++ number_from index outs,
                     index + Z.of_nat (length outs)))
    relations outss ->
  relation_loop body relations data index
  = Ok (data ++ number_from index (concat outss),
        index + Z.of_nat (length (concat outss))).
Proof.
  intros H. revert data index.
  induction H as [|value outs relations outss Hb _ IH]; intros data index.
  - cbn. rewrite app_nil_r, Z.add_0_r. reflexivity.
  - cbn [relation_loop]. rewrite Hb, bind_ok. cbn beta iota. rewrite IH.
    cbn [concat]. rewrite number_from_app, length_app, <- app_assoc.
    do 2 f_equal. lia.
Qed.

End Loops.

Section Items.
Variable repr : PyVal -> string.

Lemma fee_ok_inv (value : PyVal) :
  fee_ok value = true ->
  exists rest, field value "fees" (PList [PDict []]) = PList (fee_of value :: rest)
               /\ is_dict (fee_of value) = true.
Proof.
  unfold fee_ok, fee_of.
  destruct (field value "fees" (PList [PDict []])) as [| | | | |[|fee rest]|];
    try discriminate.
  intros H. eauto.
Qed.

Lemma first_fee_ok (value : PyVal) (key : string) :
  is_dict value = true -> fee_ok value = true ->
  first_fee value key = Ok (field (fee_of value) key PNone).
Proof.
  intros Hv Hf. destruct (fee_ok_inv value Hf) as [rest [Hfees Hfee]].
  unfold first_fee. rewrite get_field by assumption. rewrite bind_ok, Hfees.
  cbn [subscript0]. rewrite bind_ok. apply get_field, Hfee.
Qed.

Lemma doctor_item_ok (doctor_id value timing : PyVal) :
  is_dict value = true -> fee_ok value = true -> establishment_ok value = true ->
  is_dict timing = true ->
  exists item,
    doctor_relation_item repr doctor_id value
      (field value "establishment" (PDict [])) timing = Ok item
    /\ carries item value timing
    /\ relation_info item "doctor_id" = Some (PStr (str repr doctor_id))
    /\ relation_info item "establishment_id"
       = Some (PStr (str repr (field (field value "establishment" (PDict []))
                                 "fabric_id" (PStr "")))).
Proof.
  intros Hv Hf He Ht.
  unfold establishment_ok in He. cbv zeta in He.
  apply andb_true_iff in He as [He Hl].
  apply andb_true_iff in He as [He Hc].
  apply andb_true_iff in He as [He Ha].
  unfold doctor_relation_item, get3, get2.
  rewrite !(first_fee_ok value) by assumption.
  rewrite !(get_field (field value "establishment" (PDict []))) by assumption.
  rewrite !(get_field timing) by assumption.
  repeat ((rewrite get_field by assumption) || rewrite bind_ok).
  eexists. split; [reflexivity |].
  repeat split; reflexivity.
Qed.

Lemma establishment_item_ok (establishment_id value timing : PyVal)
    (name : list string) :
  is_dict value = true -> fee_ok value = true ->
  is_dict (field value "provider" (PDict [])) = true ->
  is_dict timing = true ->
  exists item,
    establishment_relation_item repr establishment_id value
      (field value "provider" (PDict [])) name timing = Ok item
    /\ carries item value timing
    /\ relation_info item "establishment_id"
       = Some (PStr (str repr establishment_id))
    /\ relation_info item "doctor_id"
       = Some (PStr (str repr (field (field value "provider" (PDict []))
                                 "fabric_id" (PStr "")))).
Proof.
  intros Hv Hf Hp Ht.
  unfold establishment_relation_item.
  rewrite !(first_fee_ok value) by assumption.
  repeat ((rewrite get_field by assumption) || rewrite bind_ok).
  eexists. split; [reflexivity |].
  repeat split; reflexivity.
Qed.

(** With an empty fee list the first item of a relation raises. *)
Lemma first_fee_empty (value : PyVal) (key : string) :
  has_empty_fees value = true -> first_fee value key = Raise IndexError.
Proof.
  destruct value as [| | | | | |d]; try discriminate. unfold has_empty_fees.
  destruct (assoc "fees" d) as [[| | | | |[|]|]|] eqn:Hd; try discriminate.
  intros _. unfold first_fee, get. rewrite Hd. reflexivity.
Qed.

(** An absent fee list gives the empty record of the default, and
    null fee fields. *)
Lemma first_fee_absent (d : list (string * PyVal)) (key : string) :
  assoc "fees" d = None -> first_fee (PDict d) key = Ok PNone.
Proof. intros Hd. unfold first_fee, get. rewrite Hd. reflexivity. Qed.

End Items.


Lemma get3_other_key (obj : PyVal) (k1 k2 k3 k3' : string) (dflt dflt' x : PyVal) :
  get3 obj k1 k2 k3 dflt = Ok x ->
  get3 obj k1 k2 k3' dflt'
  = Ok (field (field (field obj k1 (PDict [])) k2 (PDict [])) k3' dflt').
Proof.
  unfold get3. intros H.
  destruct (get obj k1 (PDict [])) as [a|] eqn:Ha; [| discriminate].
  apply get_ok_dict in Ha as [_ ->]. rewrite bind_ok in *.
  destruct (get (field obj k1 (PDict [])) k2 (PDict [])) as [b|] eqn:Hb;
    [| discriminate].
  apply get_ok_dict in Hb as [_ ->]. rewrite bind_ok in *.
  apply get_ok_dict in H as [Hd _]. apply get_field, Hd.
Qed.

Lemma relation_timings_length (relations : list PyVal) :
  length (relation_timings relations)
  = sum_list_with (fun value => length (timings_of value)) relations.
Proof.
  unfold relation_timings.
  induction relations as [|value rest IH]; [reflexivity |].
  cbn [flat_map sum_list_with]. rewrite length_app, length_map, IH. reflexivity.
Qed.

Lemma timings_ok_inv (value : PyVal) :
  timings_ok value = true ->
  field value "timings" (PList []) = PList (timings_of value)
  /\ Forall (fun timing => is_dict timing = true) (timings_of value).
Proof.
  unfold timings_ok, timings_of.
  destruct (field value "timings" (PList [])); try discriminate.
  intros H. split; [reflexivity |].
  apply Forall_forall. intros timing Hin.
  apply (proj1 (forallb_forall _ _) H), list_elem_of_In, Hin.
Qed.

Lemma items_exist {P : PyVal -> PyVal -> Prop} (item : PyVal -> res PyVal)
    (timings : list PyVal) :
  Forall (fun timing => exists out, item timing = Ok out /\ P out timing) timings ->
  exists outs,
    Forall2 (fun timing out => item timing = Ok out) timings outs
    /\ Forall2 P outs timings.
Proof.
  induction 1 as [|timing rest [out [Hit Hp]] _ [outs [H1 H2]]].
  - exists []. split; constructor.
  - exists (out :: outs). split; constructor; assumption.
Qed.

Section Extraction.

Variable repr : PyVal -> string.
Variable h3_text : string -> string -> option string.

(** A well-shaped relation of a doctor's profile yields one item per
    timing window. *)
Lemma doctor_relation_extracted (doctor_id value : PyVal) :
  doctor_relation_ok value = true ->
  exists outs,
    (forall data index,
        doctor_relation repr doctor_id value data index
        = Ok (data ++ number_from index outs, index + Z.of_nat (length outs)))
    /\ Forall2 (fun out timing => doctor_edge repr doctor_id out (value, timing))
         outs (timings_of value).
Proof.
  unfold doctor_relation_ok. intros H.
  apply andb_true_iff in H as [H Hrest].
  apply andb_true_iff in H as [Hv Ht].
  destruct (timings_ok_inv value Ht) as [Hts Hdicts].
  assert (Hitems :
    exists outs,
      Forall2 (fun timing out =>
                 doctor_relation_item repr doctor_id value
                   (field value "establishment" (PDict [])) timing = Ok out)
        (timings_of value) outs
      /\ Forall2 (fun out timing => doctor_edge repr doctor_id out (value, timing))
           outs (timings_of value)).
  { apply items_exist.
    unfold has_timing in Hrest.
    destruct (timings_of value) as [|t ts] eqn:Hnil; [constructor |].
    cbn in Hrest.
    apply andb_true_iff in Hrest as [Hrest He].
    apply andb_true_iff in Hrest as [_ Hf].
    eapply Forall_impl; [exact Hdicts |].
    intros timing Hd. cbn beta in Hd.
    destruct (doctor_item_ok repr doctor_id value timing Hv Hf He Hd)
      as [item [Hit Hedge]].
    exists item. split; [exact Hit | exact Hedge]. }
  destruct Hitems as [outs [Hloop Hedges]].
  exists outs. split; [| exact Hedges].
  intros data index. unfold doctor_relation.
  rewrite !get_field by assumption. rewrite !bind_ok, Hts.
  cbn [iterate]. rewrite bind_ok.
  apply timing_loop_ok, Hloop.
Qed.

(** The same for a well-shaped result of an establishment's
    profile. *)
Lemma establishment_relation_extracted (establishment_id relation : PyVal) :
  establishment_relation_ok relation = true ->
  exists outs,
    (forall data index,
        establishment_relation repr establishment_id relation data index
        = Ok (data ++ number_from index outs, index + Z.of_nat (length outs)))
    /\ Forall2 (fun out timing =>
                  establishment_edge repr establishment_id out
                    (relation_of relation, timing))
         outs (timings_of (relation_of relation)).
Proof.
  unfold establishment_relation_ok. intros H.
  apply andb_true_iff in H as [H Hrest].
  apply andb_true_iff in H as [H Hp].
  apply andb_true_iff in H as [H Ht].
  apply andb_true_iff in H as [Hr Hv].
  destruct (timings_ok_inv _ Ht) as [Hts Hdicts].
  unfold provider_ok in Hp. cbv zeta in Hp.
  apply andb_true_iff in Hp as [Hp Hname].
  destruct (field (field (relation_of relation) "provider" (PDict []))
              "full_name" (PStr "")) as [| | | |full| |] eqn:Hfull;
    try discriminate.
  assert (Hitems :
    exists outs,
      Forall2 (fun timing out =>
                 establishment_relation_item repr establishment_id
                   (relation_of relation)
                   (field (relation_of relation) "provider" (PDict []))
                   (pad3 (split " " full)) timing = Ok out)
        (timings_of (relation_of relation)) outs
      /\ Forall2 (fun out timing =>
                    establishment_edge repr establishment_id out
                      (relation_of relation, timing))
           outs (timings_of (relation_of relation))).
  { apply items_exist.
    unfold has_timing in Hrest.
    destruct (timings_of (relation_of relation)) as [|t ts] eqn:Hnil;
      [constructor |].
    cbn in Hrest.
    eapply Forall_impl; [exact Hdicts |].
    intros timing Hd. cbn beta in Hd.
    destruct (establishment_item_ok repr establishment_id (relation_of relation)
                timing (pad3 (split " " full)) Hv Hrest Hp Hd)
      as [item [Hit Hedge]].
    exists item. split; [exact Hit | exact Hedge]. }
  destruct Hitems as [outs [Hloop Hedges]].
  exists outs. split; [| exact Hedges].
  intros data index. unfold establishment_relation.
  rewrite (get_field relation) by assumption. rewrite bind_ok.
  fold (relation_of relation).
  rewrite !(get_field (relation_of relation)) by assumption.
  rewrite !bind_ok.
  rewrite (get_field (field (relation_of relation) "provider" (PDict [])))
    by assumption.
  rewrite bind_ok, Hfull. cbn [split_spaces]. rewrite bind_ok, Hts.
  cbn [iterate]. rewrite bind_ok.
  apply timing_loop_ok, Hloop.
Qed.

(** A list of relations that each yield their items yields them all,
    in order. *)
Lemma relations_exist {P : PyVal -> PyVal * PyVal -> Prop}
    (body : PyVal -> list (Z * PyVal) -> Z -> res (list (Z * PyVal) * Z))
    (shape : PyVal -> PyVal) (relations : list PyVal) :
  Forall (fun relation =>
            exists outs,
              (forall data index,
                  body relation data index
                  = Ok (data ++ number_from index outs,
                        index + Z.of_nat (length outs)))
              /\ Forall2 (fun out timing => P out (shape relation, timing))
                   outs (timings_of (shape relation)))
    relations ->
  exists items,
    relation_loop body relations [] 0 = Ok (number_from 0 items, Z.of_nat (length items))
    /\ Forall2 P items (relation_timings (map shape relations)).
Proof.
  intros H.
  assert (Houts :
    exists outss,
      Forall2 (fun relation outs =>
                 forall data index,
                   body relation data index
                   = Ok (data ++ number_from index outs,
                         index + Z.of_nat (length outs)))
        relations outss
      /\ Forall2 P (concat outss) (relation_timings (map shape relations))).
  { induction H as [|relation rest [outs [Hb Hp]] _ [outss [H1 H2]]].
    - exists []. split; constructor.
    - exists (outs :: outss). split; [constructor; assumption |].
      cbn [concat map relation_timings flat_map].
      apply Forall2_app; [| exact H2].
      apply Forall2_fmap_r. eapply Forall2_impl; [exact Hp |].
      intros out timing Hout. exact Hout. }
  destruct Houts as [outss [Hloop Hall]].
  exists (concat outss). split; [| exact Hall].
  rewrite (relation_loop_ok body relations outss [] 0 Hloop).
  reflexivity.
Qed.

End Extraction.

Section Profiles.

Variable repr : PyVal -> string.
Variable h3_text : string -> string -> option string.

Lemma doctor_profile_extracted (doctor_id response : PyVal) (html : string)
    (relations : list PyVal) :
  get3 response "data" "providerRelations" "relations" (PList [])
    = Ok (PList relations) ->
  Forall (fun value => doctor_relation_ok value = true) relations ->
  exists items,
    parse_doctor_establishment_relation repr doctor_id response html
    = Ok (number_from 0 items,
          field (field (field response "data" (PDict []))
                   "providerRelations" (PDict []))
            "establishment_count" PNone,
          PInt 0, PInt 0)
    /\ Forall2 (doctor_edge repr doctor_id) items (relation_timings relations).
Proof.
  intros Hrel Hok.
  destruct (relations_exist (P := doctor_edge repr doctor_id)
              (doctor_relation repr doctor_id) (fun value => value) relations)
    as [items [Hloop Hedges]].
  { eapply Forall_impl; [exact Hok |].
    intros value Hv. apply doctor_relation_extracted, Hv. }
  rewrite map_id in Hedges.
  exists items. split; [| exact Hedges].
  unfold parse_doctor_establishment_relation.
  rewrite Hrel.
  rewrite (get3_other_key _ _ _ _ "establishment_count" _ PNone _ Hrel), !bind_ok.
  cbn [iterate]. rewrite bind_ok, Hloop. reflexivity.
Qed.

Lemma establishment_profile_extracted (establishment_id response : PyVal)
    (html : string) (results : list PyVal) :
  get3 response "data" "getEstablishmentRelations" "results" (PList [])
    = Ok (PList results) ->
  Forall (fun relation => establishment_relation_ok relation = true) results ->
  exists items,
    parse_establishment_doctor_relation repr h3_text establishment_id response html
    = Ok (number_from 0 items,
          field (field (field response "data" (PDict []))
                   "getEstablishmentRelations" (PDict []))
            "total_results_count" PNone,
          count_suffix (h3_text html "bed_count"),
          count_suffix (h3_text html "ambulance_count"))
    /\ Forall2 (establishment_edge repr establishment_id) items
         (relation_timings (map relation_of results)).
Proof.
  intros Hrel Hok.
  destruct (relations_exist (P := establishment_edge repr establishment_id)
              (establishment_relation repr establishment_id) relation_of results)
    as [items [Hloop Hedges]].
  { eapply Forall_impl; [exact Hok |].
    intros relation Hr. apply establishment_relation_extracted, Hr. }
  exists items. split; [| exact Hedges].
  unfold parse_establishment_doctor_relation.
  rewrite Hrel.
  rewrite (get3_other_key _ _ _ _ "total_results_count" _ PNone _ Hrel), !bind_ok.
  cbn [iterate]. rewrite bind_ok, Hloop. reflexivity.
Qed.

(** C6, amended.  For a profile payload of the expected shape in
    which no relation with a timing window has a present but empty
    fee list, each extractor returns exactly one item per (relation,
    timing window) pair, keyed 0, 1, 2, ... in the order of the
    pairs; the item carries the fee amount and type of its relation
    and the begin time, end time and weekdays of its own timing
    window, and the number of items is the sum of the relations'
    timing counts. *)
Theorem relation_expansion (doctor_id establishment_id response_d response_e : PyVal)
    (html : string) (relations results : list PyVal) :
  get3 response_d "data" "providerRelations" "relations" (PList [])
    = Ok (PList relations) ->
  Forall (fun value => doctor_relation_ok value = true) relations ->
  get3 response_e "data" "getEstablishmentRelations" "results" (PList [])
    = Ok (PList results) ->
  Forall (fun relation => establishment_relation_ok relation = true) results ->
  (exists data count,
      parse_doctor_establishment_relation repr doctor_id response_d html
      = Ok (data, count, PInt 0, PInt 0)
      /\ map fst data = range 0 (Z.of_nat (length data))
      /\ length data
         = sum_list_with (fun value => length (timings_of value)) relations
      /\ Forall2 (fun item pair => carries (snd item) (fst pair) (snd pair))
           data (relation_timings relations))
  /\ (exists data count bed_count amb_count,
         parse_establishment_doctor_relation repr h3_text establishment_id
           response_e html
         = Ok (data, count, bed_count, amb_count)
         /\ map fst data = range 0 (Z.of_nat (length data))
         /\ length data
            = sum_list_with (fun value => length (timings_of value))
                (map relation_of results)
         /\ Forall2 (fun item pair => carries (snd item) (fst pair) (snd pair))
              data (relation_timings (map relation_of results))).
Proof.
  intros Hd Hdok He Heok. split.
  - destruct (doctor_profile_extracted doctor_id response_d html relations Hd Hdok)
      as [items [Hparse Hedges]].
    eexists _, _. split; [exact Hparse |].
    rewrite number_from_length. split; [apply number_from_fst |].
    split.
    + rewrite <- relation_timings_length. eapply Forall2_length, Hedges.
    + apply (number_from_Forall2
               (fun out pair => carries out (fst pair) (snd pair))).
      eapply Forall2_impl; [exact Hedges |].
      intros item pair Hedge. apply Hedge.
  - destruct (establishment_profile_extracted establishment_id response_e html
                results He Heok) as [items [Hparse Hedges]].
    eexists _, _, _, _. split; [exact Hparse |].
    rewrite number_from_length. split; [apply number_from_fst |].
    split.
    + rewrite <- relation_timings_length. eapply Forall2_length, Hedges.
    + apply (number_from_Forall2
               (fun out pair => carries out (fst pair) (snd pair))).
      eapply Forall2_impl; [exact Hedges |].
      intros item pair Hedge. apply Hedge.
Qed.

(** C8, amended.  For a profile payload of the expected shape in
    which no relation with a timing window has a present but empty
    fee list, every (relation, timing window) pair has its item, and
    the item of a relation whose counterpart [fabric_id] is the empty
    string or absent has the empty string as counterpart id: the
    relation is not dropped. *)
Theorem blank_counterpart_kept
    (doctor_id establishment_id response_d response_e : PyVal)
    (html : string) (relations results : list PyVal) :
  get3 response_d "data" "providerRelations" "relations" (PList [])
    = Ok (PList relations) ->
  Forall (fun value => doctor_relation_ok value = true) relations ->
  get3 response_e "data" "getEstablishmentRelations" "results" (PList [])
    = Ok (PList results) ->
  Forall (fun relation => establishment_relation_ok relation = true) results ->
  (exists data count,
      parse_doctor_establishment_relation repr doctor_id response_d html
      = Ok (data, count, PInt 0, PInt 0)
      /\ Forall2
           (fun item pair =>
              blank_id (field (fst pair) "establishment" (PDict [])) ->
              relation_info (snd item) "establishment_id" = Some (PStr ""))
           data (relation_timings relations))
  /\ (exists data count bed_count amb_count,
         parse_establishment_doctor_relation repr h3_text establishment_id
           response_e html
         = Ok (data, count, bed_count, amb_count)
         /\ Forall2
              (fun item pair =>
                 blank_id (field (fst pair) "provider" (PDict [])) ->
                 relation_info (snd item) "doctor_id" = Some (PStr ""))
              data (relation_timings (map relation_of results))).
Proof.
  intros Hd Hdok He Heok. split.
  - destruct (doctor_profile_extracted doctor_id response_d html relations Hd Hdok)
      as [items [Hparse Hedges]].
    eexists _, _. split; [exact Hparse |].
    apply (number_from_Forall2
             (fun out pair =>
                blank_id (field (fst pair) "establishment" (PDict [])) ->
                relation_info out "establishment_id" = Some (PStr ""))).
    eapply Forall2_impl; [exact Hedges |].
    intros item pair [_ [_ Hid]] Hblank. rewrite Hid.
    unfold blank_id in Hblank. rewrite Hblank. reflexivity.
  - destruct (establishment_profile_extracted establishment_id response_e html
                results He Heok) as [items [Hparse Hedges]].
    eexists _, _, _, _. split; [exact Hparse |].
    apply (number_from_Forall2
             (fun out pair =>
                blank_id (field (fst pair) "provider" (PDict [])) ->
                relation_info out "doctor_id" = Some (PStr ""))).
    eapply Forall2_impl; [exact Hedges |].
    intros item pair [_ [_ Hid]] Hblank. rewrite Hid.
    unfold blank_id in Hblank. rewrite Hblank. reflexivity.
Qed.

Lemma has_empty_fees_dict (value : PyVal) :
  has_empty_fees value = true -> is_dict value = true.
Proof. destruct value; try discriminate. reflexivity. Qed.

Lemma has_timing_inv (value : PyVal) :
  has_timing value = true ->
  exists timing rest, field value "timings" (PList []) = PList (timing :: rest).
Proof.
  unfold has_timing, timings_of.
  destruct (field value "timings" (PList [])) as [| | | | |[|timing rest]|];
    try discriminate.
  eauto.
Qed.

Lemma doctor_relation_empty_fees (doctor_id value : PyVal)
    (data : list (Z * PyVal)) (index : Z) :
  has_empty_fees value = true -> has_timing value = true ->
  is_dict (field value "establishment" (PDict [])) = true ->
  doctor_relation repr doctor_id value data index = Raise IndexError.
Proof.
  intros Hf Ht He.
  pose proof (has_empty_fees_dict value Hf) as Hv.
  destruct (has_timing_inv value Ht) as [timing [rest Hts]].
  unfold doctor_relation.
  rewrite !get_field by assumption. rewrite !bind_ok, Hts.
  cbn [iterate]. rewrite bind_ok.
  apply timing_loop_raise. unfold doctor_relation_item.
  rewrite !(get_field (field value "establishment" (PDict []))) by assumption.
  rewrite bind_ok.
  rewrite !first_fee_empty by assumption. reflexivity.
Qed.

Lemma establishment_relation_empty_fees (establishment_id relation : PyVal)
    (data : list (Z * PyVal)) (index : Z) :
  has_empty_fees (relation_of relation) = true ->
  has_timing (relation_of relation) = true ->
  provider_ok (relation_of relation) = true ->
  establishment_relation repr establishment_id relation data index
  = Raise IndexError.
Proof.
  intros Hf Ht Hp.
  pose proof (has_empty_fees_dict _ Hf) as Hv.
  assert (Hr : is_dict relation = true).
  { destruct relation; try discriminate Hf. reflexivity. }
  destruct (has_timing_inv _ Ht) as [timing [rest Hts]].
  unfold provider_ok in Hp. cbv zeta in Hp.
  apply andb_true_iff in Hp as [Hp Hname].
  destruct (field (field (relation_of relation) "provider" (PDict []))
              "full_name" (PStr "")) as [| | | |full| |] eqn:Hfull;
    try discriminate.
  unfold establishment_relation.
  rewrite (get_field relation) by assumption. rewrite bind_ok.
  fold (relation_of relation).
  rewrite !(get_field (relation_of relation)) by assumption.
  rewrite !bind_ok.
  rewrite (get_field (field (relation_of relation) "provider" (PDict [])))
    by assumption.
  rewrite bind_ok, Hfull. cbn [split_spaces]. rewrite bind_ok, Hts.
  cbn [iterate]. rewrite bind_ok.
  apply timing_loop_raise. unfold establishment_relation_item.
  rewrite !(get_field (field (relation_of relation) "provider" (PDict [])))
    by assumption.
  rewrite bind_ok.
  rewrite !first_fee_empty by assumption. reflexivity.
Qed.

(** C9.  When a relation of an otherwise well-shaped profile has a
    fee list that is present and empty, and at least one timing
    window, each extractor raises [IndexError] at the first timing
    window of that relation, so that no item of the profile is
    returned, not even those of the relations before it; a relation
    without the [fees] key gets the default [[{}]] instead, and null
    fee fields. *)
Theorem empty_fee_list_raises
    (doctor_id establishment_id response_d response_e : PyVal) (html : string)
    (pre_d post_d pre_e post_e : list PyVal) (value relation : PyVal) :
  get3 response_d "data" "providerRelations" "relations" (PList [])
    = Ok (PList (pre_d ++ value :: post_d)) ->
  Forall (fun v => doctor_relation_ok v = true) pre_d ->
  has_empty_fees value = true -> has_timing value = true ->
  is_dict (field value "establishment" (PDict [])) = true ->
  get3 response_e "data" "getEstablishmentRelations" "results" (PList [])
    = Ok (PList (pre_e ++ relation :: post_e)) ->
  Forall (fun r => establishment_relation_ok r = true) pre_e ->
  has_empty_fees (relation_of relation) = true ->
  has_timing (relation_of relation) = true ->
  provider_ok (relation_of relation) = true ->
  parse_doctor_establishment_relation repr doctor_id response_d html
    = Raise IndexError
  /\ parse_establishment_doctor_relation repr h3_text establishment_id
       response_e html
     = Raise IndexError
  /\ (forall d key, assoc "fees" d = None -> first_fee (PDict d) key = Ok PNone).
Proof.
  intros Hd Hdok Hf Ht Hest He Heok Hf' Ht' Hp.
  split; [| split; [| apply first_fee_absent]].
  - destruct (relations_exist (P := doctor_edge repr doctor_id)
                (doctor_relation repr doctor_id) (fun v => v) pre_d)
      as [items [Hloop _]].
    { eapply Forall_impl; [exact Hdok |].
      intros v Hv. apply doctor_relation_extracted, Hv. }
    unfold parse_doctor_establishment_relation.
    rewrite Hd.
    rewrite (get3_other_key _ _ _ _ "establishment_count" _ PNone _ Hd), !bind_ok.
    cbn [iterate]. rewrite bind_ok, relation_loop_app, Hloop, bind_ok.
    cbn [relation_loop].
    rewrite doctor_relation_empty_fees by assumption. reflexivity.
  - destruct (relations_exist (P := establishment_edge repr establishment_id)
                (establishment_relation repr establishment_id) relation_of pre_e)
      as [items [Hloop _]].
    { eapply Forall_impl; [exact Heok |].
      intros r Hr. apply establishment_relation_extracted, Hr. }
    unfold parse_establishment_doctor_relation.
    rewrite He.
    rewrite (get3_other_key _ _ _ _ "total_results_count" _ PNone _ He), !bind_ok.
    cbn [iterate]. rewrite bind_ok, relation_loop_app, Hloop, bind_ok.
    cbn [relation_loop].
    rewrite establishment_relation_empty_fees by assumption. reflexivity.
Qed.

End Profiles.

(** C6, as stated, fails on a payload of valid shape: a relation with a
    timing window and an empty fee list makes the extractors raise, so
    the profile gets no item where the pairs counted four, or one. *)
Lemma empty_fee_list_not_expanded :
  length (relation_timings [relation_three_timings; relation_empty_fees]) = 4%nat
  /\ parse_doctor_establishment_relation no_repr (PStr "doc-7")
       (doctor_profile [relation_three_timings; relation_empty_fees]) ""
     = Raise IndexError
  /\ length (relation_timings (map relation_of [result_empty_fees])) = 1%nat
  /\ parse_establishment_doctor_relation no_repr no_h3 (PStr "est-42")
       (establishment_profile [result_empty_fees]) ""
     = Raise IndexError.
Proof. repeat split; reflexivity. Qed.

(** The statement at a profile whose first relation has one fee entry
    and three timing windows. *)
Lemma relation_expansion_witness :
  (exists data count,
      parse_doctor_establishment_relation no_repr (PStr "doc-7")
        (doctor_profile [relation_three_timings; relation_blank_id]) ""
      = Ok (data, count, PInt 0, PInt 0)
      /\ length data = 5%nat)
  /\ (exists data count bed_count amb_count,
         parse_establishment_doctor_relation no_repr no_h3 (PStr "est-42")
           (establishment_profile [result_three_timings]) ""
         = Ok (data, count, bed_count, amb_count)
         /\ length data = 3%nat).
Proof.
  destruct (relation_expansion no_repr no_h3 (PStr "doc-7") (PStr "est-42")
              (doctor_profile [relation_three_timings; relation_blank_id])
              (establishment_profile [result_three_timings]) ""
              [relation_three_timings; relation_blank_id] [result_three_timings])
    as [[data [count [Hp [_ [Hlen _]]]]] [data' [count' [bed [amb [Hp' [_ [Hlen' _]]]]]]]].
  - reflexivity.
  - repeat constructor.
  - reflexivity.
  - repeat constructor.
  - split.
    + exists data, count. split; [exact Hp | exact Hlen].
    + exists data', count', bed, amb. split; [exact Hp' | exact Hlen'].
Defined.

(** C8, as stated, fails on a relation whose counterpart id is blank
    when its fee list is present and empty: the extractors raise and
    the relation gets no item. *)
Lemma blank_id_with_empty_fees_not_kept :
  blank_id (field relation_empty_fees "establishment" (PDict []))
  /\ length (timings_of relation_empty_fees) = 1%nat
  /\ parse_doctor_establishment_relation no_repr (PStr "doc-7")
       (doctor_profile [relation_empty_fees]) ""
     = Raise IndexError
  /\ blank_id (field (relation_of result_empty_fees) "provider" (PDict []))
  /\ parse_establishment_doctor_relation no_repr no_h3 (PStr "est-42")
       (establishment_profile [result_empty_fees]) ""
     = Raise IndexError.
Proof. repeat split; reflexivity. Qed.

(** A counterpart id that is present and null is neither: [str(None)]
    makes it the text ["None"]. *)
Lemma null_counterpart_id :
  exists item,
    parse_doctor_establishment_relation no_repr (PStr "doc-7")
      (doctor_profile [relation_null_id]) EmptyString
    = Ok ([(0, item)], PInt 1, PInt 0, PInt 0)
    /\ relation_info item "establishment_id" = Some (PStr "None").
Proof. eexists. split; reflexivity. Qed.

(** The statement at a profile with a relation that has no
    [fabric_id]. *)
Lemma blank_counterpart_kept_witness :
  (exists data count,
      parse_doctor_establishment_relation no_repr (PStr "doc-7")
        (doctor_profile [relation_three_timings; relation_blank_id]) ""
      = Ok (data, count, PInt 0, PInt 0)
      /\ length data = 5%nat)
  /\ (exists data count bed_count amb_count,
         parse_establishment_doctor_relation no_repr no_h3 (PStr "est-42")
           (establishment_profile [result_blank_id; result_three_timings]) ""
         = Ok (data, count, bed_count, amb_count)
         /\ length data = 5%nat).
Proof.
  destruct (blank_counterpart_kept no_repr no_h3 (PStr "doc-7") (PStr "est-42")
              (doctor_profile [relation_three_timings; relation_blank_id])
              (establishment_profile [result_blank_id; result_three_timings]) ""
              [relation_three_timings; relation_blank_id]
              [result_blank_id; result_three_timings])
    as [[data [count [Hp Hall]]] [data' [count' [bed [amb [Hp' Hall']]]]]].
  - reflexivity.
  - repeat constructor.
  - reflexivity.
  - repeat constructor.
  - split.
    + exists data, count. split; [exact Hp |].
      apply Forall2_length in Hall. exact Hall.
    + exists data', count', bed, amb. split; [exact Hp' |].
      apply Forall2_length in Hall'. exact Hall'.
Defined.

(** The statement at profiles where a relation with an empty fee
    list follows a well-shaped one. *)
Lemma empty_fee_list_raises_witness :
  parse_doctor_establishment_relation no_repr (PStr "doc-7")
    (doctor_profile [relation_three_timings; relation_empty_fees; relation_blank_id])
    ""
  = Raise IndexError
  /\ parse_establishment_doctor_relation no_repr no_h3 (PStr "est-42")
       (establishment_profile [result_three_timings; result_empty_fees]) ""
     = Raise IndexError.
Proof.
  destruct (empty_fee_list_raises no_repr no_h3 (PStr "doc-7") (PStr "est-42")
              (doctor_profile
                 [relation_three_timings; relation_empty_fees; relation_blank_id])
              (establishment_profile [result_three_timings; result_empty_fees]) ""
              [relation_three_timings] [relation_blank_id]
              [result_three_timings] []
              relation_empty_fees result_empty_fees)
    as [Hd [He _]].
  - reflexivity.
  - repeat constructor.
  - reflexivity.
  - reflexivity.
  - reflexivity.
  - reflexivity.
  - repeat constructor.
  - reflexivity.
  - reflexivity.
  - reflexivity.
  - split; [exact Hd | exact He].
Defined.

(** ** Entity upsert *)

Lemma set_excluded_lookup (set_columns : list string) (excluded row : Row)
    (col : string) :
  set_excluded set_columns excluded row !! col
  = if bool_decide (col ∈ set_columns)
    then Some (default PNone (excluded !! col))
    else row !! col.
Proof.
  induction set_columns as [|c cs IH]; cbn [set_excluded foldr].
  - reflexivity.
  - fold (set_excluded cs excluded row).
    destruct (decide (c = col)) as [-> | Hne].
    + rewrite lookup_insert_eq.
      rewrite bool_decide_eq_true_2 by (left). reflexivity.
    + rewrite lookup_insert_ne by assumption. rewrite IH.
      destruct (bool_decide (col ∈ cs)) eqn:Hin.
      * apply bool_decide_eq_true_1 in Hin.
        rewrite bool_decide_eq_true_2 by (right; assumption). reflexivity.
      * apply bool_decide_eq_false_1 in Hin.
        rewrite bool_decide_eq_false_2; [reflexivity |].
        intros Hc. apply elem_of_cons in Hc as [-> | Hc]; [congruence | auto].
Qed.

Lemma uuid_is_set_excluded (u : string) (set_columns : list string)
    (excluded row : Row) :
  "practo_uuid" ∉ set_columns ->
  uuid_is u (set_excluded set_columns excluded row) = uuid_is u row.
Proof.
  intros Hnot. unfold uuid_is. rewrite set_excluded_lookup.
  rewrite bool_decide_eq_false_2 by assumption. reflexivity.
Qed.

Lemma generate_do_update_clause_spec (columns : list string) (col : string) :
  col ∈ generate_do_update_clause columns <-> col ∈ columns /\ col ∉ kept_columns.
Proof.
  unfold generate_do_update_clause.
  rewrite !list_elem_of_In, filter_In, negb_true_iff.
  split; intros [Hin Hk]; (split; [exact Hin |]).
  - intros Hc.
    assert (existsb (String.eqb col) kept_columns = true) as Ht.
    { apply existsb_exists. exists col. split; [exact Hc | apply String.eqb_refl]. }
    unfold kept_columns in Ht. congruence.
  - apply not_true_is_false. intros Ht. apply Hk.
    apply existsb_exists in Ht as [c [Hc Heq]].
    apply String.eqb_eq in Heq as ->. exact Hc.
Qed.

Lemma bind_params_ok (columns : list string) (params : list PyVal) :
  forallb adaptable params = true -> length params = length columns ->
  bind_params columns params = Ok (list_to_map (zip columns params)).
Proof.
  intros Ha Hl. unfold bind_params. rewrite Ha, Hl, Nat.compare_refl. reflexivity.
Qed.

Lemma bound_lookup (columns : list string) (params : list PyVal) (i : nat)
    (col : string) (v : PyVal) :
  NoDup columns -> length params = length columns ->
  columns !! i = Some col -> params !! i = Some v ->
  (list_to_map (zip columns params) : Row) !! col = Some v.
Proof.
  intros Hnd Hl Hc Hp.
  apply elem_of_list_to_map_1.
  - rewrite fst_zip by lia. exact Hnd.
  - apply list_elem_of_lookup. exists i.
    rewrite lookup_zip_with, Hc, Hp. reflexivity.
Qed.

Lemma bound_lookup_none (columns : list string) (params : list PyVal) (col : string) :
  length params = length columns -> col ∉ columns ->
  (list_to_map (zip columns params) : Row) !! col = None.
Proof.
  intros Hl Hc. apply not_elem_of_list_to_map_1.
  rewrite fst_zip by lia. exact Hc.
Qed.

(** The rows of an update keep their UUIDs, so the rows selected by a
    UUID before and after are the same rows. *)
Lemma filter_map_same (p : Row -> bool) (f : Row -> Row) (t : list Row) :
  (forall r, p (f r) = p r) ->
  List.filter p (map f t) = map f (List.filter p t).
Proof.
  intros Hp. induction t as [|r t IH]; [reflexivity |].
  cbn [map List.filter]. rewrite Hp. destruct (p r); cbn [map]; rewrite IH; reflexivity.
Qed.

Lemma existsb_filter (p : Row -> bool) (t : list Row) (r : Row) (rs : list Row) :
  List.filter p t = r :: rs -> existsb p t = true.
Proof.
  intros H. apply existsb_exists. exists r.
  apply filter_In. rewrite H. left. reflexivity.
Qed.

Lemma existsb_filter_nil (p : Row -> bool) (t : list Row) :
  List.filter p t = [] -> existsb p t = false.
Proof.
  intros H. apply not_true_is_false. intros He.
  apply existsb_exists in He as [r [Hin Hr]].
  assert (In r (List.filter p t)) as Hf by (apply filter_In; auto).
  rewrite H in Hf. exact Hf.
Qed.

Lemma upsert_rows_existing (set_columns : list string) (u : string)
    (new row : Row) (t : list Row) :
  "practo_uuid" ∉ set_columns ->
  List.filter (uuid_is u) t = [row] ->
  List.filter (uuid_is u) (upsert_rows set_columns u new t)
    = [set_excluded set_columns new row]
  /\ length (upsert_rows set_columns u new t) = length t
  /\ List.filter (fun r => negb (uuid_is u r)) (upsert_rows set_columns u new t)
     = List.filter (fun r => negb (uuid_is u r)) t.
Proof.
  intros Hnot Hrow. unfold upsert_rows.
  rewrite (existsb_filter _ _ _ _ Hrow).
  set (f := fun r : Row => if uuid_is u r then set_excluded set_columns new r else r).
  assert (Hf : forall r, uuid_is u (f r) = uuid_is u r).
  { intros r. unfold f. destruct (uuid_is u r) eqn:Hr; [| exact Hr].
    rewrite uuid_is_set_excluded by assumption. exact Hr. }
  repeat split.
  - rewrite filter_map_same by exact Hf. rewrite Hrow. cbn [map]. unfold f.
    assert (uuid_is u row = true) as ->; [| reflexivity].
    assert (In row (List.filter (uuid_is u) t)) as Hin by (rewrite Hrow; left; reflexivity).
    apply filter_In in Hin. tauto.
  - apply length_map.
  - rewrite (filter_map_same (fun r => negb (uuid_is u r)) f)
      by (intros r; rewrite Hf; reflexivity).
    rewrite <- (map_id (List.filter _ t)) at 2.
    apply map_ext_in. intros r Hin. apply filter_In in Hin as [_ Hr].
    unfold f. apply negb_true_iff in Hr. rewrite Hr. reflexivity.
Qed.

Lemma upsert_rows_fresh (set_columns : list string) (u : string)
    (new : Row) (t : list Row) :
  new !! "practo_uuid" = Some (PStr u) ->
  List.filter (uuid_is u) t = [] ->
  List.filter (uuid_is u) (upsert_rows set_columns u new t)
    = [<["id" := PInt (Z.of_nat (length t) + 1)]> new].
Proof.
  intros Hnew Hnil. unfold upsert_rows, insert_row.
  rewrite (existsb_filter_nil _ _ Hnil).
  rewrite List.filter_app, Hnil. cbn [List.filter app].
  unfold uuid_is at 1. rewrite lookup_insert_ne by discriminate.
  rewrite Hnew, String.eqb_refl. reflexivity.
Qed.

Lemma rows_set_rows (table : Table) (rs : list Row) (db : Db) :
  rows table (set_rows table rs db) = rs.
Proof. destruct table; reflexivity. Qed.

Lemma DOCTOR_COLUMNS_NoDup : NoDup DOCTOR_COLUMNS.
Proof. apply (bool_decide_eq_true_1 _). vm_compute. reflexivity. Qed.

Lemma ESTABLISHMENT_COLUMNS_NoDup : NoDup ESTABLISHMENT_COLUMNS.
Proof. apply (bool_decide_eq_true_1 _). vm_compute. reflexivity. Qed.

Lemma uuid_not_set (columns : list string) :
  "practo_uuid" ∉ generate_do_update_clause columns.
Proof.
  intros H. apply generate_do_update_clause_spec in H as [_ H].
  apply H. unfold kept_columns. left.
Qed.

(** What the upsert of one record does to the table of its query. *)
Lemma upsert_entity_rows (table : Table) (columns : list string)
    (item_id u : string) (record : PyVal) (params : list PyVal) (db : Db) :
  values record = Ok params ->
  forallb adaptable params = true ->
  length params = length columns ->
  NoDup columns -> columns !! 0%nat = Some "practo_uuid" ->
  params !! 0%nat = Some (PStr u) ->
  upsert_entity
    (InsertOnConflictUpdate table columns (generate_do_update_clause columns))
    item_id record db
  = set_rows table
      (upsert_rows (generate_do_update_clause columns) u
         (list_to_map (zip columns params)) (rows table db)) db.
Proof.
  intros Hv Ha Hl Hnd Hc Hp.
  unfold upsert_entity, insert_main_data.
  cbn [main_loop]. unfold main_item, lift, execute.
  unfold mbind, txn_bind. rewrite Hv.
  unfold pg_run. rewrite bind_params_ok by assumption.
  rewrite (bound_lookup columns params 0 "practo_uuid" (PStr u)) by assumption.
  reflexivity.
Qed.

Lemma rows_with_uuid (u : string) (table : Table) (db : Db) (row : Row)
    (rest : list Row) :
  rows_with u table db = row :: rest -> row !! "practo_uuid" = Some (PStr u).
Proof.
  intros H.
  assert (In row (rows_with u table db)) as Hin by (rewrite H; left; reflexivity).
  apply filter_In in Hin as [_ Hu]. unfold uuid_is in Hu.
  destruct (row !! "practo_uuid") as [[| | | |s| |]|]; try discriminate.
  apply String.eqb_eq in Hu as ->. reflexivity.
Qed.

(** The upsert of a record whose UUID has a row, for any column list
    that starts with the key. *)
Lemma upsert_entity_existing (table : Table) (columns : list string)
    (item_id u : string) (record : PyVal) (params : list PyVal) (db : Db)
    (row : Row) :
  NoDup columns -> columns !! 0%nat = Some "practo_uuid" ->
  values record = Ok params ->
  length params = length columns ->
  forallb adaptable params = true ->
  params !! 0%nat = Some (PStr u) ->
  rows_with u table db = [row] ->
  let query :=
    InsertOnConflictUpdate table columns (generate_do_update_clause columns) in
  exists row',
    rows_with u table (upsert_entity query item_id record db) = [row']
    /\ length (rows table (upsert_entity query item_id record db))
       = length (rows table db)
    /\ (forall i col v,
           columns !! i = Some col -> col ∉ kept_columns ->
           params !! i = Some v -> row' !! col = Some v)
    /\ (forall col, col ∈ kept_columns \/ col ∉ columns -> row' !! col = row !! col)
    /\ row' !! "practo_uuid" = Some (PStr u).
Proof.
  intros Hnd Hc Hv Hl Ha Hp Hrow query. unfold query.
  rewrite (upsert_entity_rows table columns item_id u record params db)
    by assumption.
  unfold rows_with in *. rewrite rows_set_rows.
  destruct (upsert_rows_existing (generate_do_update_clause columns) u
              (list_to_map (zip columns params)) row (rows table db)
              (uuid_not_set columns) Hrow) as [Hone [Hlen _]].
  exists (set_excluded (generate_do_update_clause columns)
            (list_to_map (zip columns params)) row).
  assert (Hkept : forall col, col ∈ kept_columns \/ col ∉ columns ->
            set_excluded (generate_do_update_clause columns)
              (list_to_map (zip columns params)) row !! col = row !! col).
  { intros col Hcol. rewrite set_excluded_lookup.
    rewrite bool_decide_eq_false_2; [reflexivity |].
    rewrite generate_do_update_clause_spec. tauto. }
  split; [exact Hone |]. split; [exact Hlen |]. split; [| split].
  - intros i col v Hi Hk Hpi. rewrite set_excluded_lookup.
    rewrite bool_decide_eq_true_2.
    + rewrite (bound_lookup columns params i col v) by assumption. reflexivity.
    + apply generate_do_update_clause_spec. split; [| exact Hk].
      apply list_elem_of_lookup. exists i. exact Hi.
  - exact Hkept.
  - rewrite Hkept by (left; unfold kept_columns; left).
    eapply (rows_with_uuid u table db). exact Hrow.
Qed.

(** The first upsert of a record whose UUID has no row adds the row. *)
Lemma upsert_entity_fresh (table : Table) (columns : list string)
    (item_id u : string) (record : PyVal) (params : list PyVal) (db : Db) :
  NoDup columns -> columns !! 0%nat = Some "practo_uuid" ->
  values record = Ok params ->
  length params = length columns ->
  forallb adaptable params = true ->
  params !! 0%nat = Some (PStr u) ->
  rows_with u table db = [] ->
  exists row,
    rows_with u table
      (upsert_entity
         (InsertOnConflictUpdate table columns (generate_do_update_clause columns))
         item_id record db)
    = [row].
Proof.
  intros Hnd Hc Hv Hl Ha Hp Hnil.
  rewrite (upsert_entity_rows table columns item_id u record params db)
    by assumption.
  unfold rows_with in *. rewrite rows_set_rows.
  eexists. apply upsert_rows_fresh; [| exact Hnil].
  apply (bound_lookup columns params 0 "practo_uuid" (PStr u)); assumption.
Qed.

(** C1, as stated, fails on the [state] column of an establishment: it
    is a column of the insert, neither the key nor an aggregate count,
    yet the re-ingested record's value does not replace the stored
    one. *)
Lemma establishment_state_not_updated :
  map (fun row : Row => (row !! "practo_uuid", row !! "name", row !! "state"))
    (rows practo_establishments
       (upsert_entity ESTABLISHMENT_INSERT_QUERY "est-42"
          (establishment_record "est-42" "New name" "Kerala")
          store_one_establishment))
  = [(Some (PStr "est-42"), Some (PStr "New name"), Some (PStr "Karnataka"))]
  /\ In "state" ESTABLISHMENT_COLUMNS
  /\ ~ In "state" ["practo_uuid"; "establishment_count"; "doctor_count"]
  /\ get (establishment_record "est-42" "New name" "Kerala") "state" PNone
     = Ok (PStr "Kerala").
Proof.
  split; [vm_compute; reflexivity |].
  split; [cbn; tauto |].
  split; [| reflexivity].
  cbn. intros [H | [H | [H | []]]]; discriminate H.
Qed.

Lemma rows_with_singleton (u : string) (table : Table) (db : Db) (row : Row) :
  uuid_is u row = true -> rows table db = [row] -> rows_with u table db = [row].
Proof.
  intros Hu Hrows. unfold rows_with. rewrite Hrows.
  cbn [List.filter]. rewrite Hu. reflexivity.
Qed.

(** C1, amended.  When [insert_main_data] upserts a record with
    [DOCTOR_INSERT_QUERY] or [ESTABLISHMENT_INSERT_QUERY] and the table
    has a row with the record's UUID, that row stays the only row with
    the UUID and the table keeps its size; every column of the insert
    other than [practo_uuid], [state], [establishment_count] and
    [doctor_count] takes the record's value, while those four columns
    and every column outside the insert keep the values they had.  So
    an entity upserted twice, starting from a table without its UUID,
    has exactly one row, with the second record's values in all the
    columns that are updated. *)
Theorem entity_upsert_reingest (query : Query) (item_id u : string)
    (record first_record : PyVal) (params first_params : list PyVal)
    (db db0 : Db) (row : Row) :
  query = DOCTOR_INSERT_QUERY \/ query = ESTABLISHMENT_INSERT_QUERY ->
  values record = Ok params ->
  length params = length (query_columns query) ->
  forallb adaptable params = true ->
  params !! 0%nat = Some (PStr u) ->
  rows_with u (query_table query) db = [row] ->
  values first_record = Ok first_params ->
  length first_params = length (query_columns query) ->
  forallb adaptable first_params = true ->
  first_params !! 0%nat = Some (PStr u) ->
  rows_with u (query_table query) db0 = [] ->
  (exists row',
      rows_with u (query_table query) (upsert_entity query item_id record db) = [row']
      /\ length (rows (query_table query) (upsert_entity query item_id record db))
         = length (rows (query_table query) db)
      /\ (forall i col v,
             query_columns query !! i = Some col -> col ∉ kept_columns ->
             params !! i = Some v -> row' !! col = Some v)
      /\ (forall col,
             col ∈ kept_columns \/ col ∉ query_columns query ->
             row' !! col = row !! col)
      /\ row' !! "practo_uuid" = Some (PStr u))
  /\ (exists row1 row2,
         rows_with u (query_table query)
           (upsert_entity query item_id first_record db0) = [row1]
         /\ rows_with u (query_table query)
              (upsert_entity query item_id record
                 (upsert_entity query item_id first_record db0)) = [row2]
         /\ (forall i col v,
                query_columns query !! i = Some col -> col ∉ kept_columns ->
                params !! i = Some v -> row2 !! col = Some v)
         /\ (forall col,
                col ∈ kept_columns \/ col ∉ query_columns query ->
                row2 !! col = row1 !! col)).
Proof.
  intros Hq Hv Hl Ha Hp Hrow Hv0 Hl0 Ha0 Hp0 Hnil.
  assert (Hshape :
    exists table columns,
      query = InsertOnConflictUpdate table columns (generate_do_update_clause columns)
      /\ NoDup columns /\ columns !! 0%nat = Some "practo_uuid").
  { destruct Hq as [-> | ->].
    - exists practo_doctors, DOCTOR_COLUMNS.
      split; [reflexivity |]. split; [apply DOCTOR_COLUMNS_NoDup | reflexivity].
    - exists practo_establishments, ESTABLISHMENT_COLUMNS.
      split; [reflexivity |]. split; [apply ESTABLISHMENT_COLUMNS_NoDup | reflexivity]. }
  destruct Hshape as [table [columns [-> [Hnd Hc]]]].
  cbn [query_table query_columns] in *.
  split.
  - apply (upsert_entity_existing table columns item_id u record params db row);
      assumption.
  - destruct (upsert_entity_fresh table columns item_id u first_record first_params
                db0 Hnd Hc Hv0 Hl0 Ha0 Hp0 Hnil) as [row1 Hrow1].
    destruct (upsert_entity_existing table columns item_id u record params _ row1
                Hnd Hc Hv Hl Ha Hp Hrow1) as [row2 [H2 [_ [Hnew [Hkept _]]]]].
    exists row1, row2. auto.
Qed.

(** The statement at an establishment whose doctor count the relation
    pass has set. *)
Lemma entity_upsert_reingest_witness :
  exists row',
    rows_with "est-42" practo_establishments
      (upsert_entity ESTABLISHMENT_INSERT_QUERY "est-42"
         (establishment_record "est-42" "New name" "Kerala") store_one_establishment)
    = [row']
    /\ row' !! "name" = Some (PStr "New name")
    /\ row' !! "doctor_count" = stored_establishment !! "doctor_count".
Proof.
  destruct (entity_upsert_reingest ESTABLISHMENT_INSERT_QUERY "est-42" "est-42"
              (establishment_record "est-42" "New name" "Kerala")
              (establishment_record "est-42" "First name" "Goa")
              (map snd
                 [("practo_id", PStr "est-42"); ("name", PStr "New name");
                  ("slug", PStr "city-clinic"); ("practice_type", PStr "Clinic");
                  ("profile_url", PStr ""); ("image_url", PStr "");
                  ("street_address", PStr ", "); ("postal_code", PNone);
                  ("locality", PStr ""); ("city", PStr ""); ("state", PStr "Kerala");
                  ("latitude", PNone); ("longitude", PNone); ("min_price", PNone);
                  ("max_price", PNone); ("phone", PStr "");
                  ("phone_extension", PNone); ("rating", PNone);
                  ("reviews_count", PNone); ("practice_timings", PStr "")])
              (map snd
                 [("practo_id", PStr "est-42"); ("name", PStr "First name");
                  ("slug", PStr "city-clinic"); ("practice_type", PStr "Clinic");
                  ("profile_url", PStr ""); ("image_url", PStr "");
                  ("street_address", PStr ", "); ("postal_code", PNone);
                  ("locality", PStr ""); ("city", PStr ""); ("state", PStr "Goa");
                  ("latitude", PNone); ("longitude", PNone); ("min_price", PNone);
                  ("max_price", PNone); ("phone", PStr "");
                  ("phone_extension", PNone); ("rating", PNone);
                  ("reviews_count", PNone); ("practice_timings", PStr "")])
              store_one_establishment empty_store stored_establishment)
    as [[row' [Hone [_ [Hnew [Hkept _]]]]] _].
  - right. reflexivity.
  - reflexivity.
  - reflexivity.
  - reflexivity.
  - reflexivity.
  - apply rows_with_singleton; [vm_compute; reflexivity | reflexivity].
  - reflexivity.
  - reflexivity.
  - reflexivity.
  - reflexivity.
  - reflexivity.
  - exists row'. split; [exact Hone |]. split.
    + apply (Hnew 1%nat "name"); [reflexivity | | reflexivity].
      rewrite list_elem_of_In. cbn. intros [H | [H | [H | [H | []]]]]; discriminate H.
    + apply Hkept. left. unfold kept_columns. do 3 right. left.
Defined.

(** ** Failure isolation in the persistence operations *)

Section PersisterProperties.

Context {Db : Type}.
Variable run : Query -> list PyVal -> Db -> Db * res (option (bool * bool)).












End PersisterProperties.


(** * Further properties *)

(** ** The fetch layer *)

Lemma schedule_step (url : string) (retry_delay attempt : Z) (n : nat) :
  schedule url retry_delay attempt (S (S n))
  = Requested url :: Slept (retry_delay * 2 ^ attempt)
      :: schedule url retry_delay (attempt + 1) (S n).
Proof. reflexivity. Qed.

Lemma requests_made_app (a b : list Effect) :
  requests_made (a ++ b) = (requests_made a + requests_made b)%nat.
Proof. unfold requests_made. rewrite List.filter_app, length_app. reflexivity. Qed.

Lemma requests_made_schedule (url : string) (retry_delay attempt : Z) (n : nat) :
  requests_made (schedule url retry_delay attempt n) = n.
Proof.
  revert attempt. induction n as [|n IH]; intros attempt; [reflexivity |].
  destruct n as [|n]; [reflexivity |].
  rewrite schedule_step.
  change (requests_made (Requested url :: Slept (retry_delay * 2 ^ attempt)
                           :: schedule url retry_delay (attempt + 1) (S n)))
    with (S (requests_made (schedule url retry_delay (attempt + 1) (S n)))).
  rewrite IH. reflexivity.
Qed.

Section FetcherInvariants.

Context {World : Type}.
Variable request : string -> World -> Attempt * World.
Variable sleep : Z -> World -> World.

(** Whatever the server does, the loop over the attempts [a .. m-1]
    adds the effects of some [k] attempts, at least one when there is an
    attempt to make and at most as many as there are. *)
Lemma attempts_loop_schedule url max_retries retry_delay return_json (n : nat) :
  forall (a : Z) (w : World) (done : list Effect),
    n = Z.to_nat (max_retries - a) ->
    exists k : nat,
      snd (attempts_loop request sleep url max_retries retry_delay return_json
             (range a max_retries) w done)
      = done ++ schedule url retry_delay a k
      /\ (k <= n)%nat /\ (n <> 0%nat -> k <> 0%nat).
Proof.
  induction n as [|n IH]; intros a w done Hn.
  - rewrite range_nil by lia. exists 0%nat. cbn. rewrite app_nil_r. auto.
  - rewrite range_cons by lia. cbn [attempts_loop].
    destruct (request url w) as [outcome w1].
    assert (Hagain :
      exists k : nat,
        snd (let '(w2, done2) :=
               back_off sleep max_retries retry_delay a w1 (done ++ [Requested url]) in
             attempts_loop request sleep url max_retries retry_delay return_json
               (range (a + 1) max_retries) w2 done2)
        = done ++ schedule url retry_delay a k
        /\ (k <= S n)%nat /\ (S n <> 0%nat -> k <> 0%nat)).
    { unfold back_off. destruct (a <? max_retries - 1) eqn:Hlast.
      - apply Z.ltb_lt in Hlast.
        destruct (IH (a + 1) (sleep (retry_delay * 2 ^ a) w1)
                    ((done ++ [Requested url]) ++ [Slept (retry_delay * 2 ^ a)]))
          as [k [Hk [Hle Hpos]]]; [lia |].
        destruct k as [|k]; [exfalso; apply Hpos; [lia | reflexivity] |].
        exists (S (S k)). rewrite Hk, schedule_step, <- !app_assoc.
        split; [reflexivity |]. split; [lia | discriminate].
      - apply Z.ltb_ge in Hlast.
        rewrite range_nil by lia. cbn [attempts_loop snd].
        exists 1%nat. split; [reflexivity |]. split; [lia | discriminate]. }
    assert (Hstop : forall r : res Payload,
      exists k : nat,
        snd (r, w1, done ++ [Requested url]) = done ++ schedule url retry_delay a k
        /\ (k <= S n)%nat /\ (S n <> 0%nat -> k <> 0%nat)).
    { intros r. exists 1%nat. split; [reflexivity |]. split; [lia | discriminate]. }
    destruct outcome as [| | |status body content]; try exact Hagain.
    destruct ((400 <=? status) && (status <? 600)).
    + destruct ((400 <=? status) && (status <? 500) && negb (status =? 429));
        [apply Hstop | exact Hagain].
    + destruct return_json; [| apply Hstop].
      destruct body as [value | error]; [apply Hstop |].
      destruct (a =? max_retries - 1); [apply Hstop | exact Hagain].
Qed.

(** X1.  Whatever the server answers and whatever [max_retries] is,
    the effects of [make_request] are those of some number [k] of
    attempts, each a request to the URL, with the sleeps
    [retry_delay * 2^0, retry_delay * 2^1, ...] between them and none
    after the last; [k] is at most [max_retries], and at least one when
    [max_retries] is. *)
Theorem make_request_effects (url : string) (max_retries retry_delay : Z)
    (return_json : bool) (w : World) :
  exists k : nat,
    snd (make_request request sleep url max_retries retry_delay return_json w)
    = schedule url retry_delay 0 k
    /\ requests_made
         (snd (make_request request sleep url max_retries retry_delay return_json w))
       = k
    /\ (k <= Z.to_nat max_retries)%nat
    /\ (1 <= max_retries -> (1 <= k)%nat).
Proof.
  destruct (attempts_loop_schedule url max_retries retry_delay return_json
              (Z.to_nat (max_retries - 0)) 0 w [] eq_refl) as [k [Hk [Hle Hpos]]].
  exists k. unfold make_request. rewrite Hk. cbn [app].
  split; [reflexivity |]. split; [apply requests_made_schedule |].
  split; [lia |]. intros Hm.
  destruct k; [exfalso; apply Hpos; [lia | reflexivity] | lia].
Qed.



Lemma attempts_loop_exhausts url max_retries retry_delay return_json (n : nat) :
  (forall w, retryable (fst (request url w)) = true) ->
  forall (a : Z) (w : World) (done : list Effect),
    n = Z.to_nat (max_retries - a) ->
    exists w',
      attempts_loop request sleep url max_retries retry_delay return_json
        (range a max_retries) w done
      = (Raise (RequestError
                  (mkRequestError
                     ("Request failed after " +:+ Z_to_string max_retries
                      +:+ " attempts") None (Some url))),
         w', done ++ schedule url retry_delay a n).
Proof.
  intros Hretry. induction n as [|n IH]; intros a w done Hn.
  - rewrite range_nil by lia. exists w. cbn. rewrite app_nil_r. reflexivity.
  - rewrite range_cons by lia. cbn [attempts_loop].
    specialize (Hretry w). destruct (request url w) as [outcome w1].
    cbn [fst] in Hretry.
    assert (Hagain :
      exists w',
        (let '(w2, done2) :=
           back_off sleep max_retries retry_delay a w1 (done ++ [Requested url]) in
         attempts_loop request sleep url max_retries retry_delay return_json
           (range (a + 1) max_retries) w2 done2)
        = (Raise (RequestError
                    (mkRequestError
                       ("Request failed after " +:+ Z_to_string max_retries
                        +:+ " attempts") None (Some url))),
           w', done ++ schedule url retry_delay a (S n))).
    { unfold back_off. destruct (a <? max_retries - 1) eqn:Hlast.
      - apply Z.ltb_lt in Hlast.
        destruct (IH (a + 1) (sleep (retry_delay * 2 ^ a) w1)
                    ((done ++ [Requested url]) ++ [Slept (retry_delay * 2 ^ a)]))
          as [w' Hw']; [lia |].
        exists w'. rewrite Hw'.
        destruct n as [|n]; [lia |].
        rewrite schedule_step, <- !app_assoc. reflexivity.
      - apply Z.ltb_ge in Hlast. assert (n = 0%nat) as -> by lia.
        rewrite range_nil by lia. exists w1. reflexivity. }
    destruct outcome as [| | |status body content]; try exact Hagain.
    cbn [retryable] in Hretry.
    assert (Herr : (400 <=? status) && (status <? 600) = true).
    { apply orb_true_iff in Hretry as [H | H].
      - apply andb_true_iff in H as [H1 H2].
        apply Z.leb_le in H1. apply Z.ltb_lt in H2.
        apply andb_true_iff. split; [apply Z.leb_le | apply Z.ltb_lt]; lia.
      - apply Z.eqb_eq in H as ->. reflexivity. }
    assert (Hclient :
      (400 <=? status) && (status <? 500) && negb (status =? 429) = false).
    { apply orb_true_iff in Hretry as [H | H].
      - apply andb_true_iff in H as [H1 _]. apply Z.leb_le in H1.
        apply andb_false_iff. left. apply andb_false_iff. right.
        apply Z.ltb_ge. lia.
      - apply Z.eqb_eq in H as ->. reflexivity. }
    rewrite Herr, Hclient. exact Hagain.
Qed.


(** X4.  An answer outside the 4xx and 5xx statuses at the first
    attempt ends the call with one request and no sleep: the raw
    content comes back when [return_json] is false, whatever the body
    is, and the decoded body when it is true and the body decodes. *)
Theorem make_request_first_answer (url : string) (max_retries retry_delay status : Z)
    (body : Decoded) (content : string) (w w1 : World) :
  request url w = (Responds status body content, w1) ->
  status < 400 \/ 600 <= status ->
  1 <= max_retries ->
  make_request request sleep url max_retries retry_delay false w
    = (Ok (Raw_content content), w1, [Requested url])
  /\ (forall value,
         body = Json value ->
         make_request request sleep url max_retries retry_delay true w
         = (Ok (Decoded_json value), w1, [Requested url])).
Proof.
  intros Hreq Hst Hm. unfold make_request. rewrite range_cons by lia.
  cbn [attempts_loop]. rewrite Hreq.
  assert ((400 <=? status) && (status <? 600) = false) as ->.
  { apply andb_false_iff. destruct Hst; [left; apply Z.leb_gt | right; apply Z.ltb_ge]; lia. }
  split; [reflexivity |]. intros value ->. reflexivity.
Qed.

Lemma attempts_loop_undecodable url max_retries retry_delay (n : nat) :
  (forall w, undecodable (fst (request url w)) = true) ->
  forall (a : Z) (w : World) (done : list Effect),
    S n = Z.to_nat (max_retries - a) ->
    exists error w',
      attempts_loop request sleep url max_retries retry_delay true
        (range a max_retries) w done
      = (Raise (RequestError
                  (mkRequestError ("Invalid JSON response: " +:+ error)
                     None (Some url))),
         w', done ++ schedule url retry_delay a (S n)).
Proof.
  intros Hbody. induction n as [|n IH]; intros a w done Hn.
  - rewrite range_cons by lia. cbn [attempts_loop].
    specialize (Hbody w). destruct (request url w) as [outcome w1].
    cbn [fst] in Hbody.
    destruct outcome as [| | |status body content]; try discriminate Hbody.
    destruct body as [value | error]; [discriminate Hbody |].
    cbn [undecodable] in Hbody. apply negb_true_iff in Hbody. rewrite Hbody.
    replace (a =? max_retries - 1) with true by (symmetry; apply Z.eqb_eq; lia).
    exists error, w1. reflexivity.
  - rewrite range_cons by lia. cbn [attempts_loop].
    pose proof (Hbody w) as Hw. destruct (request url w) as [outcome w1].
    cbn [fst] in Hw.
    destruct outcome as [| | |status body content]; try discriminate Hw.
    destruct body as [value | error]; [discriminate Hw |].
    cbn [undecodable] in Hw. apply negb_true_iff in Hw. rewrite Hw.
    replace (a =? max_retries - 1) with false by (symmetry; apply Z.eqb_neq; lia).
    unfold back_off.
    replace (a <? max_retries - 1) with true by (symmetry; apply Z.ltb_lt; lia).
    destruct (IH (a + 1) (sleep (retry_delay * 2 ^ a) w1)
                ((done ++ [Requested url]) ++ [Slept (retry_delay * 2 ^ a)]))
      as [error' [w' Hw']]; [lia |].
    exists error', w'. rewrite Hw'.
    rewrite (schedule_step url retry_delay a n), <- !app_assoc. reflexivity.
Qed.

(** X5.  When every answer is a response without HTTP error whose
    body is not JSON, a call that asks for JSON makes all its
    [max_retries] attempts, with the back-off sleeps in between, and
    raises the error of an invalid JSON response at the last one. *)
Theorem make_request_invalid_json (url : string) (max_retries retry_delay : Z)
    (w : World) :
  1 <= max_retries ->
  (forall w0, undecodable (fst (request url w0)) = true) ->
  exists error w',
    make_request request sleep url max_retries retry_delay true w
    = (Raise (RequestError
                (mkRequestError ("Invalid JSON response: " +:+ error)
                   None (Some url))),
       w', schedule url retry_delay 0 (Z.to_nat max_retries)).
Proof.
  intros Hm Hbody.
  destruct (attempts_loop_undecodable url max_retries retry_delay
              (Nat.pred (Z.to_nat max_retries)) Hbody 0 w [])
    as [error [w' Hw']]; [lia |].
  exists error, w'. unfold make_request. rewrite Hw'. cbn [app].
  replace (S (Nat.pred (Z.to_nat max_retries))) with (Z.to_nat max_retries) by lia.
  reflexivity.
Qed.

Lemma attempts_loop_payload url max_retries retry_delay return_json attempts :
  forall (w : World) (done : list Effect) (payload : Payload),
    fst (fst (attempts_loop request sleep url max_retries retry_delay return_json
                attempts w done)) = Ok payload ->
    if return_json then exists value, payload = Decoded_json value
    else exists content, payload = Raw_content content.
Proof.
  induction attempts as [|attempt rest IH]; intros w done payload.
  - cbn. discriminate.
  - cbn [attempts_loop]. destruct (request url w) as [outcome w1].
    assert (Hagain :
      fst (fst (let '(w2, done2) :=
                  back_off sleep max_retries retry_delay attempt w1
                    (done ++ [Requested url]) in
                attempts_loop request sleep url max_retries retry_delay return_json
                  rest w2 done2)) = Ok payload ->
      if return_json then exists value, payload = Decoded_json value
      else exists content, payload = Raw_content content).
    { destruct (back_off sleep max_retries retry_delay attempt w1
                  (done ++ [Requested url])) as [w2 done2]. apply IH. }
    destruct outcome as [| | |status body content]; try exact Hagain.
    destruct ((400 <=? status) && (status <? 600)).
    + destruct ((400 <=? status) && (status <? 500) && negb (status =? 429));
        [discriminate | exact Hagain].
    + destruct return_json.
      * destruct body as [value | error]; [intros [= <-]; eauto |].
        destruct (attempt =? max_retries - 1); [discriminate | exact Hagain].
      * intros [= <-]. eauto.
Qed.

(** X25.  What [make_request] returns has the kind that was asked
    for: the decoded body with [return_json] set, the raw content
    without it, whichever attempt succeeds. *)
Theorem make_request_payload_kind (url : string) (max_retries retry_delay : Z)
    (return_json : bool) (w w' : World) (payload : Payload) (done : list Effect) :
  make_request request sleep url max_retries retry_delay return_json w
    = (Ok payload, w', done) ->
  if return_json then exists value, payload = Decoded_json value
  else exists content, payload = Raw_content content.
Proof.
  intros H.
  apply (attempts_loop_payload url max_retries retry_delay return_json
           (range 0 max_retries) w []).
  unfold make_request in H. rewrite H. reflexivity.
Qed.

End FetcherInvariants.



Lemma make_request_first_answer_witness :
  make_request html_server no_sleep "https://www.practo.com/delhi/clinic" 3 2 false
    0%nat
  = (Ok (Raw_content "<html></html>"), 1%nat,
     [Requested "https://www.practo.com/delhi/clinic"])
  /\ (forall value,
         NotJson "Expecting value" = Json value ->
         make_request html_server no_sleep "https://www.practo.com/delhi/clinic"
           3 2 true 0%nat
         = (Ok (Decoded_json value), 1%nat,
            [Requested "https://www.practo.com/delhi/clinic"])).
Proof.
  apply (make_request_first_answer html_server no_sleep
           "https://www.practo.com/delhi/clinic" 3 2 200
           (NotJson "Expecting value") "<html></html>" 0%nat 1%nat).
  - reflexivity.
  - lia.
  - lia.
Defined.

Lemma make_request_invalid_json_witness :
  exists error w',
    make_request html_server no_sleep "https://www.practo.com/delhi/clinic" 3 2 true
      0%nat
    = (Raise (RequestError
                (mkRequestError ("Invalid JSON response: " +:+ error)
                   None (Some "https://www.practo.com/delhi/clinic"))),
       w', schedule "https://www.practo.com/delhi/clinic" 2 0 (Z.to_nat 3)).
Proof.
  apply (make_request_invalid_json html_server no_sleep
           "https://www.practo.com/delhi/clinic" 3 2 0%nat).
  - lia.
  - intros w0. reflexivity.
Defined.

Lemma make_request_payload_kind_witness :
  exists content, Raw_content "<html></html>" = Raw_content content.
Proof.
  apply (make_request_payload_kind html_server no_sleep
           "https://www.practo.com/delhi/clinic" 3 2 false 0%nat 1%nat
           (Raw_content "<html></html>")
           [Requested "https://www.practo.com/delhi/clinic"]).
  reflexivity.
Defined.

(** ** The page loop *)

Lemma prefix_split (old s : string) :
  String.prefix old s = true -> exists rest, s = old +:+ rest.
Proof.
  revert s. induction old as [|a old IH]; intros s H.
  - exists s. reflexivity.
  - destruct s as [|b s]; [discriminate H |].
    apply prefix_cons_true in H. destruct H as [-> H].
    destruct (IH s H) as [rest ->]. exists rest. reflexivity.
Qed.

Lemma replace_from_skip (old new p rest : string) :
  replace_from old new (String.length p) (p +:+ rest) = replace_from old new 0 rest.
Proof.
  induction p as [|c p IH]; [reflexivity |].
  change (String c p +:+ rest) with (String c (p +:+ rest)).
  cbn [String.length replace_from]. exact IH.
Qed.

Lemma length_append (a b : string) :
  String.length (a +:+ b) = (String.length a + String.length b)%nat.
Proof.
  induction a as [|c a IH]; [reflexivity |].
  change (String c a +:+ b) with (String c (a +:+ b)).
  cbn [String.length]. rewrite IH. reflexivity.
Qed.

(** Replacing a text by itself changes nothing. *)
Lemma replace_same (a : ascii) (old : string) (n : nat) :
  forall s, (String.length s <= n)%nat ->
    replace_from (String a old) (String a old) 0 s = s.
Proof.
  induction n as [|n IH]; intros s Hlen.
  - destruct s; [reflexivity | cbn in Hlen; lia].
  - destruct s as [|c s]; [reflexivity |].
    cbn [replace_from].
    destruct (String.prefix (String a old) (String c s)) eqn:Hp.
    + destruct (prefix_split _ _ Hp) as [rest Hrest].
      change (String a old +:+ rest) with (String a (old +:+ rest)) in Hrest.
      injection Hrest as -> ->.
      replace (String.length (String a old) - 1)%nat with (String.length old)
        by (cbn [String.length]; lia).
      rewrite replace_from_skip.
      rewrite IH; [reflexivity |].
      cbn [String.length] in Hlen. rewrite length_append in Hlen. lia.
    + rewrite IH; [reflexivity |]. cbn [String.length] in Hlen. lia.
Qed.

Lemma page_url_of_first (link : string) : page_url_of link 1 = link.
Proof. apply (replace_same _ _ (String.length link)). lia. Qed.

Lemma pauses_app (a b : list Step) : pauses (a ++ b) = pauses a ++ pauses b.
Proof. apply omap_app. Qed.

Lemma repeat_snoc {A : Type} (x : A) (n : nat) : repeat x n ++ [x] = repeat x (S n).
Proof. induction n as [|n IH]; [reflexivity |]. cbn. f_equal. exact IH. Qed.

Section PageLoopInvariants.

Context {World : Type}.
Variable request : string -> World -> Attempt * World.
Variable sleep : Z -> World -> World.
Variable page_body : Z -> Payload -> World -> World * Z * Z.

(** The pauses of the pages [a] to [b - 1]: one before each page that
    is a multiple of five. *)
Lemma page_loop_pauses link (n : nat) :
  forall (a b : Z) (w : World) (success_count error_count : Z) (steps : list Step),
    n = Z.to_nat (b - a) -> 1 <= a ->
    pauses (snd (page_loop request sleep page_body link (range a b) w
                   success_count error_count steps))
    = pauses steps ++ repeat 3 (Z.to_nat ((b - 1) / 5 - (a - 1) / 5)).
Proof.
  induction n as [|n IH]; intros a b w sc ec steps Hn Ha.
  - rewrite range_nil by lia. cbn [page_loop snd].
    replace (Z.to_nat ((b - 1) / 5 - (a - 1) / 5)) with 0%nat.
    { cbn. rewrite app_nil_r. reflexivity. }
    assert ((b - 1) / 5 <= (a - 1) / 5) by (apply Z.div_le_mono; lia). lia.
  - rewrite range_cons by lia. cbn [page_loop].
    destruct ((1 <? a) && (a mod 5 =? 0)) eqn:Hpause.
    + apply andb_true_iff in Hpause as [_ Hmod]. apply Z.eqb_eq in Hmod.
      assert (Hcount : Z.to_nat ((b - 1) / 5 - (a - 1) / 5)
                       = S (Z.to_nat ((b - 1) / 5 - (a + 1 - 1) / 5))).
      { assert (a / 5 <= (b - 1) / 5) by (apply Z.div_le_mono; lia).
        replace (a + 1 - 1) with a by lia.
        assert ((a - 1) / 5 = a / 5 - 1)
          by (pose proof (Z.div_mod a 5); pose proof (Z.div_mod (a - 1) 5);
              pose proof (Z.mod_pos_bound (a - 1) 5); lia).
        lia. }
      destruct (make_request request sleep (page_url_of link a) 3 2 true (sleep 3 w))
        as [[[page_response | e] w2] done];
        try destruct (page_body a page_response w2) as [[w3 ds] de];
        rewrite (IH (a + 1) b) by lia;
        rewrite !pauses_app, Hcount; cbn [pauses omap app];
        rewrite app_nil_r, <- app_assoc; reflexivity.
    + assert (Hmod : a mod 5 <> 0).
      { apply andb_false_iff in Hpause as [H | H].
        - apply Z.ltb_ge in H. assert (a = 1) as -> by lia. discriminate.
        - apply Z.eqb_neq in H. exact H. }
      assert (Hcount : (b - 1) / 5 - (a - 1) / 5 = (b - 1) / 5 - (a + 1 - 1) / 5).
      { replace (a + 1 - 1) with a by lia.
        assert ((a - 1) / 5 = a / 5)
          by (pose proof (Z.div_mod a 5); pose proof (Z.div_mod (a - 1) 5);
              pose proof (Z.mod_pos_bound (a - 1) 5);
              pose proof (Z.mod_pos_bound a 5); lia).
        lia. }
      destruct (make_request request sleep (page_url_of link a) 3 2 true w)
        as [[[page_response | e] w2] done];
        try destruct (page_body a page_response w2) as [[w3 ds] de];
        rewrite (IH (a + 1) b) by lia;
        rewrite !pauses_app, Hcount; cbn [pauses omap app];
        rewrite app_nil_r; reflexivity.
Qed.

(** When no fetch succeeds, every page of the range counts one
    error. *)
Lemma page_loop_all_fail link (n : nat) :
  (forall u w, retryable (fst (request u w)) = true) ->
  forall (a b : Z) (w : World) (success_count error_count : Z) (steps : list Step),
    n = Z.to_nat (b - a) ->
    exists w' steps',
      page_loop request sleep page_body link (range a b) w
        success_count error_count steps
      = (w', success_count, error_count + Z.of_nat n, steps').
Proof.
  intros Hdown. induction n as [|n IH]; intros a b w sc ec steps Hn.
  - rewrite range_nil by lia. exists w, steps. cbn. rewrite Z.add_0_r. reflexivity.
  - rewrite range_cons by lia. cbn [page_loop].
    destruct ((1 <? a) && (a mod 5 =? 0)).
    + destruct (attempts_loop_exhausts request sleep (page_url_of link a) 3 2 true
                  (Z.to_nat (3 - 0)) (Hdown (page_url_of link a)) 0 (sleep 3 w) []
                  eq_refl) as [w2 Hw2].
      unfold make_request. rewrite Hw2.
      destruct (IH (a + 1) b w2 sc (ec + 1)
                  ((steps ++ [Paused 3])
                   ++ [PageRequested a (page_url_of link a);
                       ERROR_page_fetch a
                         (RequestError
                            (mkRequestError
                               ("Request failed after " +:+ Z_to_string 3
                                +:+ " attempts") None
                               (Some (page_url_of link a))))]))
        as [w' [steps' Hloop]]; [lia |].
      exists w', steps'. rewrite Hloop. f_equal. f_equal. lia.
    + destruct (attempts_loop_exhausts request sleep (page_url_of link a) 3 2 true
                  (Z.to_nat (3 - 0)) (Hdown (page_url_of link a)) 0 w []
                  eq_refl) as [w2 Hw2].
      unfold make_request. rewrite Hw2.
      destruct (IH (a + 1) b w2 sc (ec + 1)
                  (steps
                   ++ [PageRequested a (page_url_of link a);
                       ERROR_page_fetch a
                         (RequestError
                            (mkRequestError
                               ("Request failed after " +:+ Z_to_string 3
                                +:+ " attempts") None
                               (Some (page_url_of link a))))]))
        as [w' [steps' Hloop]]; [lia |].
      exists w', steps'. rewrite Hloop. f_equal. f_equal. lia.
Qed.

(** X6.  The first page of a traversal is the seed URL itself,
    whatever the URL is: the rewrite of ["page=1"] into ["page=1"]
    changes nothing, so a seed URL with results is requested again
    as the first step of its page loop. *)
Theorem first_page_is_seed (link : string) (count : Z) (w : World) :
  page_url_of link 1 = link
  /\ head (pages_requested
             (snd (traverse request sleep page_body link count w)))
     = (if count <=? 0 then None else Some (1, link)).
Proof.
  split; [apply page_url_of_first |].
  rewrite traverse_requests.
  destruct (count =? 0) eqn:H0.
  { apply Z.eqb_eq in H0. subst count. reflexivity. }
  apply Z.eqb_neq in H0.
  destruct (count <=? 0) eqn:Hneg.
  - apply Z.leb_le in Hneg. rewrite range_nil; [reflexivity |].
    assert (count / 10 < 0) by (apply Z.div_lt_upper_bound; lia). lia.
  - apply Z.leb_gt in Hneg. rewrite range_cons.
    + cbn [map head]. rewrite page_url_of_first. reflexivity.
    + assert (0 <= count / 10) by (apply Z.div_pos; lia). lia.
Qed.

(** X7.  The traversal of a seed URL pauses three seconds before
    each page whose number is a multiple of five and nowhere else:
    with [count] results it pauses [(count // 10 + 1) // 5] times,
    whatever the fetches and the page bodies do. *)
Theorem traverse_pauses (link : string) (count : Z) (w : World) :
  pauses (snd (traverse request sleep page_body link count w))
  = repeat 3 (if count =? 0 then 0%nat else Z.to_nat ((count / 10 + 1) / 5)).
Proof.
  unfold traverse. destruct (count =? 0); [reflexivity |].
  rewrite (page_loop_pauses link (Z.to_nat (count / 10 + 1 + 1 - 1))) by lia.
  cbn [pauses omap app].
  replace (count / 10 + 1 + 1 - 1) with (count / 10 + 1) by lia.
  change ((1 - 1) / 5) with 0. rewrite Z.sub_0_r. reflexivity.
Qed.

(** X8.  While the server answers nothing but errors that the fetch
    layer retries, the traversal of a seed URL with [count > 0]
    results counts no success and exactly one error for each of its
    [count // 10 + 1] pages. *)
Theorem traverse_server_down (link : string) (count : Z) (w : World) :
  (forall u w0, retryable (fst (request u w0)) = true) ->
  0 < count ->
  exists w' steps,
    traverse request sleep page_body link count w
    = (w', 0, count / 10 + 1, steps).
Proof.
  intros Hdown Hcount. unfold traverse.
  replace (count =? 0) with false by (symmetry; apply Z.eqb_neq; lia).
  assert (0 <= count / 10) by (apply Z.div_pos; lia).
  destruct (page_loop_all_fail link (Z.to_nat (count / 10 + 1 + 1 - 1)) Hdown
              1 (count / 10 + 1 + 1) w 0 0 [] eq_refl) as [w' [steps' Hloop]].
  exists w', steps'. rewrite Hloop. f_equal. f_equal. lia.
Qed.

End PageLoopInvariants.

(** The statement at a server that answers 503 to every request, for
    a listing of 25 results. *)
Lemma traverse_server_down_witness :
  exists w' steps,
    traverse down_server no_sleep no_page_body
      "https://www.practo.com/s?city=delhi&page=1" 25 0%nat
    = (w', 0, 25 / 10 + 1, steps).
Proof.
  apply (traverse_server_down down_server no_sleep no_page_body
           "https://www.practo.com/s?city=delhi&page=1" 25 0%nat).
  - intros u w0. reflexivity.
  - lia.
Defined.

(** ** The listing parsers *)

(** The head computation of a bind that returns has returned. *)
Ltac bind_inv H :=
  match type of H with
  | (?m ≫= _) = Ok _ =>
      let v := fresh "v" in
      let E := fresh "E" in
      destruct m as [v | ?] eqn:E; [| discriminate H];
      cbn [mbind res_bind] in H
  end.

Lemma get_inv (obj : PyVal) (key : string) (dflt x : PyVal) :
  get obj key dflt = Ok x -> x = field obj key dflt.
Proof. destruct obj; cbn; intros [= <-]; reflexivity. Qed.

Lemma site_prefix_inv (v x : PyVal) :
  site_prefix v = Ok x -> exists path, x = PStr ("https://www.practo.com" +:+ path).
Proof. destruct v; cbn; intros [= <-]. eauto. Qed.

Section ListingProperties.

Variable repr : PyVal -> string.
Variable json_dumps : PyVal -> string.

Lemma establishment_listing_record_inv (id : string) (details record : PyVal) :
  establishment_listing_record repr id details = Ok record ->
  laid_out ESTABLISHMENT_COLUMNS id record
  /\ exists path,
       field record "profile_url" PNone = PStr ("https://www.practo.com" +:+ path).
Proof.
  unfold establishment_listing_record. intros H.
  do 3 bind_inv H.
  bind_inv H. bind_inv E2. apply site_prefix_inv in E2. destruct E2 as [path ->].
  do 16 bind_inv H.
  injection H as <-. split.
  - eexists. split; [reflexivity |]. split; reflexivity.
  - exists path. reflexivity.
Qed.

Lemma doctor_record_inv (id : string) (details record : PyVal) :
  doctor_record repr json_dumps id details = Ok record ->
  laid_out DOCTOR_COLUMNS id record
  /\ exists path,
       field record "profile_url" PNone = PStr ("https://www.practo.com" +:+ path).
Proof.
  unfold doctor_record. intros H.
  do 6 bind_inv H.
  bind_inv H. bind_inv E5. apply site_prefix_inv in E5. destruct E5 as [path ->].
  do 10 bind_inv H.
  injection H as <-. split.
  - eexists. split; [reflexivity |]. split; reflexivity.
  - exists path. reflexivity.
Qed.

Lemma establishments_loop_inv (entities : list (string * PyVal)) :
  forall data0 profile0 data profile,
    establishments_loop repr entities data0 profile0 = Ok (data, profile) ->
    exists records entries,
      data = data0 ++ records /\ profile = profile0 ++ entries
      /\ map fst records = map fst entities
      /\ Forall (fun item => laid_out ESTABLISHMENT_COLUMNS (fst item) (snd item))
           records
      /\ Forall2 profile_entry records entries.
Proof.
  induction entities as [|[id details] rest IH]; intros data0 profile0 data profile H.
  - injection H as <- <-. exists [], []. rewrite !app_nil_r.
    repeat split; constructor.
  - cbn [establishments_loop] in H.
    bind_inv H. pose proof (establishment_listing_record_inv _ _ _ E) as [Hlay [path Hurl]].
    bind_inv H. bind_inv H.
    apply get_inv in E0, E1. subst.
    destruct (IH _ _ _ _ H) as [records [entries [-> [-> [Hkeys [Hall Hent]]]]]].
    exists ((id, v) :: records), ((id, field v "slug" PNone,
                                   field v "profile_url" PNone) :: entries).
    rewrite <- !app_assoc. cbn [app map fst].
    repeat split.
    + f_equal. exact Hkeys.
    + constructor; [exact Hlay | exact Hall].
    + constructor; [| exact Hent]. cbn. repeat split. exists path. exact Hurl.
Qed.

Lemma doctors_loop_inv (entities : list (string * PyVal)) :
  forall data0 profile0 data profile,
    doctors_loop repr json_dumps entities data0 profile0 = Ok (data, profile) ->
    exists records entries,
      data = data0 ++ records /\ profile = profile0 ++ entries
      /\ map fst records = map fst entities
      /\ Forall (fun item => laid_out DOCTOR_COLUMNS (fst item) (snd item)) records
      /\ Forall2 profile_entry records entries.
Proof.
  induction entities as [|[id details] rest IH]; intros data0 profile0 data profile H.
  - injection H as <- <-. exists [], []. rewrite !app_nil_r.
    repeat split; constructor.
  - cbn [doctors_loop] in H.
    bind_inv H. pose proof (doctor_record_inv _ _ _ E) as [Hlay [path Hurl]].
    bind_inv H. bind_inv H.
    apply get_inv in E0, E1. subst.
    destruct (IH _ _ _ _ H) as [records [entries [-> [-> [Hkeys [Hall Hent]]]]]].
    exists ((id, v) :: records), ((id, field v "slug" PNone,
                                   field v "profile_url" PNone) :: entries).
    rewrite <- !app_assoc. cbn [app map fst].
    repeat split.
    + f_equal. exact Hkeys.
    + constructor; [exact Hlay | exact Hall].
    + constructor; [| exact Hent]. cbn. repeat split. exists path. exact Hurl.
Qed.

(** X9.  Whenever [parse_establishment_data] returns, it returns the
    establishment insert query, one record per entity of the listing
    and in the listing's order, each with its twenty values in the
    order of the query's columns and its key as identifier, and one
    profile entry per record, holding the record's key, slug and
    profile URL, the URL being a string that starts with the site. *)
Theorem parse_establishment_data_layout (response : PyVal)
    (data : list (string * PyVal)) (profile : list (string * PyVal * PyVal))
    (query : Query) :
  parse_establishment_data repr response = Ok (data, profile, query) ->
  query = ESTABLISHMENT_INSERT_QUERY
  /\ (exists entities,
         get2 response "establishments" "entities" (PDict []) = Ok (PDict entities)
         /\ map fst data = map fst entities)
  /\ Forall (fun item =>
               laid_out ESTABLISHMENT_COLUMNS (fst item) (snd item)
               /\ (exists vs, values (snd item) = Ok vs
                              /\ length vs = length (query_columns query)))
       data
  /\ Forall2 profile_entry data profile.
Proof.
  unfold parse_establishment_data. intros H.
  bind_inv H. bind_inv H. bind_inv H. destruct v1 as [data' profile'].
  injection H as <- <- <-.
  destruct v as [| | | | | |entities]; try discriminate E0.
  injection E0 as <-.
  destruct (establishments_loop_inv _ _ _ _ _ E1)
    as [records [entries [-> [-> [Hkeys [Hall Hent]]]]]].
  cbn [app]. repeat split.
  - exists entities. split; [reflexivity | exact Hkeys].
  - eapply Forall_impl; [exact Hall |].
    intros [id record] Hlay. split; [exact Hlay |].
    destruct Hlay as [d [Hrec [Hcols _]]]. cbn [snd] in *. subst record.
    exists (map snd d). split; [reflexivity |].
    rewrite length_map, <- (length_map fst), Hcols. reflexivity.
  - exact Hent.
Qed.

(** X10.  Whenever [parse_doctors_data] returns, it returns the
    doctor insert query, one record per entity of the listing and in
    the listing's order, each with its seventeen values in the order
    of the query's columns and its key as identifier, and one profile
    entry per record, holding the record's key, slug and profile URL,
    the URL being a string that starts with the site. *)
Theorem parse_doctors_data_layout (response : PyVal)
    (data : list (string * PyVal)) (profile : list (string * PyVal * PyVal))
    (query : Query) :
  parse_doctors_data repr json_dumps response = Ok (data, profile, query) ->
  query = DOCTOR_INSERT_QUERY
  /\ (exists entities,
         get2 response "doctors" "entities" (PDict []) = Ok (PDict entities)
         /\ map fst data = map fst entities)
  /\ Forall (fun item =>
               laid_out DOCTOR_COLUMNS (fst item) (snd item)
               /\ (exists vs, values (snd item) = Ok vs
                              /\ length vs = length (query_columns query)))
       data
  /\ Forall2 profile_entry data profile.
Proof.
  unfold parse_doctors_data. intros H.
  bind_inv H. bind_inv H. bind_inv H. destruct v1 as [data' profile'].
  injection H as <- <- <-.
  destruct v as [| | | | | |entities]; try discriminate E0.
  injection E0 as <-.
  destruct (doctors_loop_inv _ _ _ _ _ E1)
    as [records [entries [-> [-> [Hkeys [Hall Hent]]]]]].
  cbn [app]. repeat split.
  - exists entities. split; [reflexivity | exact Hkeys].
  - eapply Forall_impl; [exact Hall |].
    intros [id record] Hlay. split; [exact Hlay |].
    destruct Hlay as [d [Hrec [Hcols _]]]. cbn [snd] in *. subst record.
    exists (map snd d). split; [reflexivity |].
    rewrite length_map, <- (length_map fst), Hcols. reflexivity.
  - exact Hent.
Qed.

End ListingProperties.

(** The statements at listings of two clinics and of two doctors. *)
Lemma parse_establishment_data_layout_witness :
  Forall2 profile_entry
    (returned (parse_establishment_data no_repr listing_two_clinics)
       ([], [], SelectExists)).1.1
    (returned (parse_establishment_data no_repr listing_two_clinics)
       ([], [], SelectExists)).1.2.
Proof.
  assert (H : parse_establishment_data no_repr listing_two_clinics
              = Ok ((returned (parse_establishment_data no_repr listing_two_clinics)
                       ([], [], SelectExists)).1.1,
                    (returned (parse_establishment_data no_repr listing_two_clinics)
                       ([], [], SelectExists)).1.2,
                    ESTABLISHMENT_INSERT_QUERY))
    by (vm_compute; reflexivity).
  apply (parse_establishment_data_layout no_repr listing_two_clinics _ _ _ H).
Defined.

Lemma parse_doctors_data_layout_witness :
  Forall2 profile_entry
    (returned (parse_doctors_data no_repr no_repr listing_two_doctors)
       ([], [], SelectExists)).1.1
    (returned (parse_doctors_data no_repr no_repr listing_two_doctors)
       ([], [], SelectExists)).1.2.
Proof.
  assert (H : parse_doctors_data no_repr no_repr listing_two_doctors
              = Ok ((returned (parse_doctors_data no_repr no_repr listing_two_doctors)
                       ([], [], SelectExists)).1.1,
                    (returned (parse_doctors_data no_repr no_repr listing_two_doctors)
                       ([], [], SelectExists)).1.2,
                    DOCTOR_INSERT_QUERY))
    by (vm_compute; reflexivity).
  apply (parse_doctors_data_layout no_repr no_repr listing_two_doctors _ _ _ H).
Defined.

(** ** The relation extractors *)

Section LoopInversion.

Lemma timing_loop_inv (item : PyVal -> res PyVal) (timings : list PyVal) :
  forall data index data' index',
    timing_loop item timings data index = Ok (data', index') ->
    exists outs,
      data' = data ++ number_from index outs
      /\ index' = index + Z.of_nat (length outs)
      /\ Forall2 (fun timing out => item timing = Ok out) timings outs.
Proof.
  induction timings as [|timing rest IH]; intros data index data' index' H.
  - injection H as <- <-. exists []. cbn. rewrite app_nil_r, Z.add_0_r.
    repeat split. constructor.
  - cbn [timing_loop] in H. bind_inv H.
    destruct (IH _ _ _ _ H) as [outs [-> [-> Hall]]].
    exists (v :: outs). cbn [number_from length]. rewrite <- app_assoc.
    repeat split; [lia |]. constructor; assumption.
Qed.

Lemma relation_loop_inv (P : PyVal -> Prop)
    (body : PyVal -> list (Z * PyVal) -> Z -> res (list (Z * PyVal) * Z)) :
  (forall value data index data' index',
      body value data index = Ok (data', index') ->
      exists outs,
        data' = data ++ number_from index outs
        /\ index' = index + Z.of_nat (length outs) /\ Forall P outs) ->
  forall relations data index data' index',
    relation_loop body relations data index = Ok (data', index') ->
    exists outs,
      data' = data ++ number_from index outs
      /\ index' = index + Z.of_nat (length outs) /\ Forall P outs.
Proof.
  intros Hbody. induction relations as [|value rest IH];
    intros data index data' index' H.
  - injection H as <- <-. exists []. cbn. rewrite app_nil_r, Z.add_0_r.
    repeat split. constructor.
  - cbn [relation_loop] in H. bind_inv H. destruct v as [data1 index1].
    destruct (Hbody _ _ _ _ _ E) as [outs1 [-> [-> Hall1]]].
    destruct (IH _ _ _ _ H) as [outs [-> [-> Hall]]].
    exists (outs1 ++ outs). rewrite number_from_app, length_app, <- app_assoc.
    repeat split; [lia |]. apply Forall_app. split; assumption.
Qed.

Lemma number_from_Forall (P : PyVal -> Prop) (index : Z) (outs : list PyVal) :
  Forall P outs -> Forall (fun item => P (snd item)) (number_from index outs).
Proof.
  intros H. revert index.
  induction H; intros index; cbn [number_from]; constructor; auto.
Qed.

End LoopInversion.

Section EdgeLayout.

Variable repr : PyVal -> string.
Variable h3_text : string -> string -> option string.

Lemma doctor_relation_item_inv (doctor_id value establishment timing item : PyVal) :
  doctor_relation_item repr doctor_id value establishment timing = Ok item ->
  doctor_item_laid_out repr doctor_id item.
Proof.
  unfold doctor_relation_item. intros H.
  do 15 bind_inv H. injection H as <-.
  eexists _, _, _. repeat split; reflexivity.
Qed.

Lemma establishment_relation_item_inv
    (establishment_id value provider : PyVal) (name : list string)
    (timing item : PyVal) :
  establishment_relation_item repr establishment_id value provider name timing
    = Ok item ->
  establishment_item_laid_out repr establishment_id item.
Proof.
  unfold establishment_relation_item. intros H.
  do 10 bind_inv H. injection H as <-.
  eexists _, _, _. repeat split; reflexivity.
Qed.

Lemma doctor_relation_inv (doctor_id value : PyVal) data index data' index' :
  doctor_relation repr doctor_id value data index = Ok (data', index') ->
  exists outs,
    data' = data ++ number_from index outs
    /\ index' = index + Z.of_nat (length outs)
    /\ Forall (doctor_item_laid_out repr doctor_id) outs.
Proof.
  unfold doctor_relation. intros H. do 3 bind_inv H.
  destruct (timing_loop_inv _ _ _ _ _ _ H) as [outs [-> [-> Hall]]].
  exists outs. repeat split.
  clear - Hall. induction Hall as [|timing out ts outs Hitem _ IH]; constructor.
  - eapply doctor_relation_item_inv. exact Hitem.
  - exact IH.
Qed.

Lemma establishment_relation_inv (establishment_id relation : PyVal)
    data index data' index' :
  establishment_relation repr establishment_id relation data index
    = Ok (data', index') ->
  exists outs,
    data' = data ++ number_from index outs
    /\ index' = index + Z.of_nat (length outs)
    /\ Forall (establishment_item_laid_out repr establishment_id) outs.
Proof.
  unfold establishment_relation. intros H. do 5 bind_inv H.
  destruct (timing_loop_inv _ _ _ _ _ _ H) as [outs [-> [-> Hall]]].
  exists outs. repeat split.
  clear - Hall. induction Hall as [|timing out ts outs Hitem _ IH]; constructor.
  - eapply establishment_relation_item_inv. exact Hitem.
  - exact IH.
Qed.

(** X11.  Whenever [parse_doctor_establishment_relation] returns,
    the items are keyed [0], [1], ... without a gap, the bed and
    ambulance counts are [0], and every item holds a relation record
    of six values in the order of the relation insert's placeholders
    and an establishment record of ten values, one for each column of
    the establishment stub insert; the two identifiers of the relation
    record are strings, the doctor's being [str(doctor_id)] and the
    establishment's the identifier of the establishment record. *)
(** X11.  Whenever [parse_doctor_establishment_relation] returns,
    the items are keyed [0], [1], ... without a gap, the bed and
    ambulance counts are [0], and every item holds a relation record
    of six values in the order of the relation insert's placeholders
    and an establishment record of ten values, one for each column of
    the establishment stub insert; the two identifiers of the relation
    record are strings, the doctor's being [str(doctor_id)] and the
    establishment's the identifier of the establishment record. *)
Theorem doctor_relation_items_laid_out (doctor_id response : PyVal)
    (html_content : string) (data : list (Z * PyVal))
    (count bed_count amb_count : PyVal) :
  parse_doctor_establishment_relation repr doctor_id response html_content
    = Ok (data, count, bed_count, amb_count) ->
  bed_count = PInt 0 /\ amb_count = PInt 0
  /\ map fst data = range 0 (Z.of_nat (length data))
  /\ Forall (fun item => doctor_item_laid_out repr doctor_id (snd item)) data.
Proof.
  unfold parse_doctor_establishment_relation. intros H.
  do 4 bind_inv H. destruct v2 as [data' index']. injection H as <- <- <- <-.
  destruct (relation_loop_inv (doctor_item_laid_out repr doctor_id) _
              (doctor_relation_inv doctor_id) _ _ _ _ _ E2)
    as [outs [-> [_ Hall]]].
  cbn [app]. repeat split.
  - rewrite number_from_fst, number_from_length. reflexivity.
  - apply number_from_Forall. exact Hall.
Qed.

(** X12.  Whenever [parse_establishment_doctor_relation] returns,
    the items are keyed [0], [1], ... without a gap, the bed and
    ambulance counts are the texts after the last dash of the two
    marked headings ([None] without the heading), and every item
    holds a relation record of six values in the order of the relation
    insert's placeholders and a doctor record whose seven values
    follow the columns of the doctor stub insert; the two identifiers
    of the relation record are strings, the establishment's being
    [str(establishment_id)] and the doctor's the identifier of the
    doctor record. *)
Theorem establishment_relation_items_laid_out (establishment_id response : PyVal)
    (html_content : string) (data : list (Z * PyVal))
    (doctor_count bed_count amb_count : PyVal) :
  parse_establishment_doctor_relation repr h3_text establishment_id response
    html_content
    = Ok (data, doctor_count, bed_count, amb_count) ->
  bed_count = count_suffix (h3_text html_content "bed_count")
  /\ amb_count = count_suffix (h3_text html_content "ambulance_count")
  /\ map fst data = range 0 (Z.of_nat (length data))
  /\ Forall (fun item => establishment_item_laid_out repr establishment_id (snd item))
       data.
Proof.
  unfold parse_establishment_doctor_relation. intros H.
  do 4 bind_inv H. destruct v2 as [data' index']. injection H as <- <- <- <-.
  destruct (relation_loop_inv (establishment_item_laid_out repr establishment_id) _
              (establishment_relation_inv establishment_id) _ _ _ _ _ E2)
    as [outs [-> [_ Hall]]].
  cbn [app]. repeat split.
  - rewrite number_from_fst, number_from_length. reflexivity.
  - apply number_from_Forall. exact Hall.
Qed.

End EdgeLayout.

(** The statements at profiles with relations of three and of two
    timing windows. *)
Lemma doctor_relation_items_laid_out_witness :
  PInt 0 = PInt 0 /\ PInt 0 = PInt 0
  /\ map fst
       (returned (parse_doctor_establishment_relation no_repr (PStr "doc-7")
                    (doctor_profile [relation_three_timings; relation_blank_id]) "")
          ([], PNone, PNone, PNone)).1.1.1
     = range 0
         (Z.of_nat
            (length
               (returned (parse_doctor_establishment_relation no_repr (PStr "doc-7")
                            (doctor_profile [relation_three_timings; relation_blank_id])
                            "")
                  ([], PNone, PNone, PNone)).1.1.1))
  /\ Forall (fun item => doctor_item_laid_out no_repr (PStr "doc-7") (snd item))
       (returned (parse_doctor_establishment_relation no_repr (PStr "doc-7")
                    (doctor_profile [relation_three_timings; relation_blank_id]) "")
          ([], PNone, PNone, PNone)).1.1.1.
Proof.
  apply (doctor_relation_items_laid_out no_repr (PStr "doc-7")
           (doctor_profile [relation_three_timings; relation_blank_id]) ""
           _ (PInt 2) (PInt 0) (PInt 0)).
  vm_compute. reflexivity.
Defined.

Lemma establishment_relation_items_laid_out_witness :
  PNone = count_suffix (no_h3 "" "bed_count")
  /\ PNone = count_suffix (no_h3 "" "ambulance_count")
  /\ map fst
       (returned (parse_establishment_doctor_relation no_repr no_h3 (PStr "est-42")
                    (establishment_profile [result_blank_id; result_three_timings]) "")
          ([], PNone, PNone, PNone)).1.1.1
     = range 0
         (Z.of_nat
            (length
               (returned (parse_establishment_doctor_relation no_repr no_h3
                            (PStr "est-42")
                            (establishment_profile
                               [result_blank_id; result_three_timings]) "")
                  ([], PNone, PNone, PNone)).1.1.1))
  /\ Forall (fun item => establishment_item_laid_out no_repr (PStr "est-42") (snd item))
       (returned (parse_establishment_doctor_relation no_repr no_h3 (PStr "est-42")
                    (establishment_profile [result_blank_id; result_three_timings]) "")
          ([], PNone, PNone, PNone)).1.1.1.
Proof.
  apply (establishment_relation_items_laid_out no_repr no_h3 (PStr "est-42")
           (establishment_profile [result_blank_id; result_three_timings]) ""
           _ (PInt 2) PNone PNone).
  vm_compute. reflexivity.
Defined.

(** ** Names and counts in text *)

Lemma append_assoc_string (a b c : string) : (a +:+ b) +:+ c = a +:+ (b +:+ c).
Proof.
  induction a as [|x a IH]; [reflexivity |].
  change (String x a +:+ b) with (String x (a +:+ b)).
  change (String x (a +:+ b) +:+ c) with (String x ((a +:+ b) +:+ c)).
  rewrite IH. reflexivity.
Qed.

Lemma append_empty_r (a : string) : a +:+ "" = a.
Proof.
  induction a as [|x a IH]; [reflexivity |].
  change (String x a +:+ "") with (String x (a +:+ "")). rewrite IH. reflexivity.
Qed.

Lemma split_cons (sep : ascii) (s : string) :
  exists tok toks, split sep s = tok :: toks.
Proof.
  induction s as [|c s [tok [toks IH]]]; cbn [split]; [eauto |].
  destruct (Ascii.eqb c sep); [eauto |]. rewrite IH. eauto.
Qed.

(** Joining the tokens of a split gives the text back. *)
Lemma join_split (sep : ascii) (s : string) :
  join (String sep "") (split sep s) = s.
Proof.
  induction s as [|c s IH]; [reflexivity |].
  cbn [split]. destruct (Ascii.eqb c sep) eqn:Hc.
  - apply Ascii.eqb_eq in Hc as ->.
    destruct (split_cons sep s) as [tok [toks Hs]]. rewrite Hs in *.
    change (join (String sep "") ("" :: tok :: toks))
      with ("" +:+ String sep "" +:+ join (String sep "") (tok :: toks)).
    rewrite IH. reflexivity.
  - destruct (split_cons sep s) as [tok [toks Hs]]. rewrite Hs in *.
    destruct toks as [|tok2 toks].
    + cbn [join] in *. rewrite IH. reflexivity.
    + change (join (String sep "") (String c tok :: tok2 :: toks))
        with (String c (tok +:+ String sep "" +:+ join (String sep "") (tok2 :: toks))).
      change (join (String sep "") (tok :: tok2 :: toks))
        with (tok +:+ String sep "" +:+ join (String sep "") (tok2 :: toks)) in IH.
      rewrite IH. reflexivity.
Qed.

Lemma join_app (sep : string) (a b : list string) :
  a <> [] -> b <> [] -> join sep (a ++ b) = join sep a +:+ sep +:+ join sep b.
Proof.
  intros Ha Hb. induction a as [|x a IH]; [congruence |].
  destruct a as [|y a].
  - cbn [app]. destruct b as [|z b]; [congruence |]. reflexivity.
  - change (join sep ((x :: y :: a) ++ b))
      with (x +:+ sep +:+ join sep ((y :: a) ++ b)).
    rewrite IH by congruence.
    change (join sep (x :: y :: a)) with (x +:+ sep +:+ join sep (y :: a)).
    rewrite !append_assoc_string. reflexivity.
Qed.

Lemma join_padding (n : nat) : join " " (repeat "" (S n)) = spaces n.
Proof.
  induction n as [|n IH]; [reflexivity |].
  change (repeat "" (S (S n))) with ("" :: repeat "" (S n)).
  change (join " " ("" :: repeat "" (S n)))
    with ("" +:+ " " +:+ join " " (repeat "" (S n))).
  rewrite IH. reflexivity.
Qed.

Lemma join_pad3 (toks : list string) :
  toks <> [] ->
  join " " (pad3 toks) = join " " toks +:+ spaces (3 - length toks).
Proof.
  intros Hne. unfold pad3.
  destruct (3 - length toks)%nat as [|n] eqn:Hn.
  - cbn [repeat spaces]. rewrite app_nil_r, append_empty_r. reflexivity.
  - rewrite join_app by (cbn; congruence). rewrite join_padding. reflexivity.
Qed.

Lemma join_take_drop (l : list string) :
  (3 <= length l)%nat ->
  join " " (take 2 l) +:+ " " +:+ join " " (drop 2 l) = join " " l.
Proof.
  intros Hl. destruct l as [|a [|b [|c rest]]]; cbn in Hl; try lia.
  change (take 2 (a :: b :: c :: rest)) with [a; b].
  change (drop 2 (a :: b :: c :: rest)) with (c :: rest).
  rewrite <- (join_app " " [a; b] (c :: rest)) by congruence. reflexivity.
Qed.

Lemma length_pad3 (toks : list string) : (3 <= length (pad3 toks))%nat.
Proof. unfold pad3. rewrite length_app, repeat_length. lia. Qed.

(** X13.  The relation extractor of an establishment's profile loses
    nothing of a provider's name: the first name, a space and the last
    name give the full name back, followed by one space for each token
    that a name of fewer than three tokens is short of. *)
Theorem provider_name_round_trip (full_name : string) :
  exists first_name last_name,
    provider_names full_name = Some (PStr first_name, PStr last_name)
    /\ first_name +:+ " " +:+ last_name
       = full_name +:+ spaces (3 - length (split " " full_name)).
Proof.
  rewrite provider_names_split. cbv zeta.
  eexists _, _. split; [reflexivity |].
  rewrite join_take_drop by apply length_pad3.
  rewrite join_pad3.
  - rewrite (join_split " " full_name). reflexivity.
  - destruct (split_cons " " full_name) as [tok [toks ->]]. congruence.
Qed.

Lemma last_cons (x y : string) (l : list string) :
  List.last (x :: y :: l) "" = List.last (y :: l) "".
Proof. reflexivity. Qed.

Lemma last_split_free (sep : ascii) (s : string) :
  occurs (String sep "") (List.last (split sep s) "") = false.
Proof.
  induction s as [|c s IH]; [reflexivity |].
  cbn [split]. destruct (split_cons sep s) as [tok [toks Hs]]. rewrite Hs in *.
  destruct (Ascii.eqb c sep) eqn:Hc.
  - rewrite last_cons. exact IH.
  - destruct toks as [|tok2 toks].
    + cbn [List.last] in *. cbn [occurs String.prefix].
      destruct (ascii_dec sep c) as [-> | _].
      * rewrite Ascii.eqb_refl in Hc. discriminate.
      * cbn [orb]. exact IH.
    + rewrite last_cons. rewrite last_cons in IH. exact IH.
Qed.

Lemma join_last (sep : string) (l : list string) :
  l <> [] ->
  join sep l = List.last l ""
  \/ exists pre, join sep l = pre +:+ sep +:+ List.last l "".
Proof.
  intros Hne. induction l as [|x l IH]; [congruence |].
  destruct l as [|y l]; [left; reflexivity |]. right.
  rewrite last_cons.
  change (join sep (x :: y :: l)) with (x +:+ sep +:+ join sep (y :: l)).
  destruct IH as [-> | [pre ->]]; [congruence | |].
  - exists x. reflexivity.
  - exists (x +:+ sep +:+ pre). rewrite !append_assoc_string. reflexivity.
Qed.

(** X14.  The bed and ambulance counts read off a heading are the
    text after its last dash, or the whole text when it has no dash:
    the count is a string without a dash that ends the heading, and it
    is [None] only when the heading is missing. *)
Theorem count_suffix_after_last_dash (text : string) :
  count_suffix None = PNone
  /\ exists count,
       count_suffix (Some text) = PStr count
       /\ occurs "-" count = false
       /\ (text = count \/ exists before, text = before +:+ "-" +:+ count).
Proof.
  split; [reflexivity |].
  exists (List.last (split "-" text) ""). split; [reflexivity |].
  split; [apply last_split_free |].
  assert (Hne : split "-" text <> [])
    by (destruct (split_cons "-" text) as [tok [toks ->]]; congruence).
  pose proof (join_last "-" (split "-" text) Hne) as H.
  rewrite (join_split "-" text) in H. exact H.
Qed.

Lemma lstrip_start (s : string) : starts_with_space (lstrip s) = false.
Proof.
  induction s as [|c s IH]; [reflexivity |].
  cbn [lstrip]. destruct (is_space c) eqn:Hc; [exact IH |].
  cbn [starts_with_space]. exact Hc.
Qed.

Lemma rstrip_start (s : string) :
  starts_with_space s = false -> starts_with_space (rstrip s) = false.
Proof.
  destruct s as [|c s]; [reflexivity |].
  cbn [starts_with_space rstrip]. intros Hc.
  destruct (rstrip s); [rewrite Hc |]; cbn [starts_with_space]; exact Hc.
Qed.

Lemma rstrip_end (s : string) : ends_with_space (rstrip s) = false.
Proof.
  induction s as [|c s IH]; [reflexivity |].
  cbn [rstrip]. destruct (rstrip s) as [|d r].
  - destruct (is_space c) eqn:Hc; [reflexivity |].
    cbn [ends_with_space]. exact Hc.
  - exact IH.
Qed.

Lemma strip_trimmed (s : string) : trimmed (strip s).
Proof.
  split; [apply rstrip_start, lstrip_start | apply rstrip_end].
Qed.

(** X26.  The names the listing parser stores are trimmed: whatever
    the display name of a doctor is, its first and last name have no
    whitespace at either end. *)
Theorem doctor_names_trimmed (doctor_name : string) :
  exists first_name last_name,
    doctor_names doctor_name = Some (PStr first_name, PStr last_name)
    /\ trimmed first_name /\ trimmed last_name.
Proof.
  rewrite doctor_names_split. cbv zeta.
  eexists _, _. split; [reflexivity |]. split; apply strip_trimmed.
Qed.

(** X27.  The seed URLs [main] reads from the lines of [urls.txt]
    are the lines that hold something else than whitespace, in their
    order, each without whitespace at either end and none empty. *)
Theorem urls_of_lines_trimmed (lines : list string) :
  Forall (fun link => link <> "" /\ trimmed link) (urls_of_lines lines)
  /\ (length (urls_of_lines lines) <= length lines)%nat
  /\ (Forall (fun line => strip line <> "") lines ->
      urls_of_lines lines = map strip lines).
Proof.
  unfold urls_of_lines. repeat split.
  - induction lines as [|line rest IH]; [constructor |].
    cbn [List.filter]. destruct (String.eqb (strip line) "") eqn:He; [exact IH |].
    cbn [negb map]. constructor; [| exact IH].
    split; [apply String.eqb_neq, He | apply strip_trimmed].
  - rewrite length_map. apply filter_length_le.
  - intros Hall. f_equal. induction Hall as [|line rest Hline _ IH]; [reflexivity |].
    cbn [List.filter]. apply String.eqb_neq in Hline. rewrite Hline.
    cbn [negb]. f_equal. exact IH.
Qed.

(** ** The relation pass and the store *)

Section RelationPassFailure.

Context {Db : Type}.
Variable run : Query -> list PyVal -> Db -> Db * res (option (bool * bool)).




End RelationPassFailure.



(** *** What the statements of the relation loop do to the store *)

Lemma grows_refl (db : Db) : grows db db.
Proof. repeat split; reflexivity. Qed.

Lemma grows_trans (a b c : Db) : grows a b -> grows b c -> grows a c.
Proof.
  intros [H1 [H2 H3]] [H1' [H2' H3']].
  repeat split; etransitivity; eassumption.
Qed.

Lemma insert_if_absent_prefix (u : string) (new : Row) (t : list Row) :
  t `prefix_of` insert_if_absent u new t.
Proof.
  unfold insert_if_absent, insert_row.
  destruct (existsb (uuid_is u) t); [reflexivity | apply prefix_app_r; reflexivity].
Qed.

Lemma set_rows_grows (table : Table) (rs : list Row) (db : Db) :
  rows table db `prefix_of` rs -> grows db (set_rows table rs db).
Proof. intros H. destruct table; repeat split; cbn; (exact H || reflexivity). Qed.

Lemma appends_lift {A : Type} (r : res A) : appends (lift r).
Proof. intros cur. apply grows_refl. Qed.

Lemma appends_ret {A : Type} (a : A) : appends (txn_ret A a).
Proof. intros cur. apply grows_refl. Qed.

Lemma appends_bind {A B : Type} (m : Db -> Db * res A) (k : A -> Db -> Db * res B) :
  appends m -> (forall a, appends (k a)) -> appends (txn_bind A B k m).
Proof.
  intros Hm Hk cur. unfold txn_bind.
  specialize (Hm cur). destruct (m cur) as [cur' [a | e]]; cbn [fst] in *.
  - eapply grows_trans; [exact Hm | apply Hk].
  - exact Hm.
Qed.

Lemma appends_exists (params : list PyVal) :
  appends (execute pg_run CHECK_EXISTENCE_QUERY params).
Proof.
  intros cur. unfold execute, CHECK_EXISTENCE_QUERY, pg_run.
  destruct (bind_params _ params); apply grows_refl.
Qed.

Lemma appends_stub (table : Table) (columns : list string) (params : list PyVal) :
  appends (execute pg_run (InsertOnConflictNothing table columns) params).
Proof.
  intros cur. unfold execute, pg_run.
  destruct (bind_params columns params) as [new | e]; [| apply grows_refl].
  destruct (new !! "practo_uuid") as [[| | | |u| |]|]; try apply grows_refl.
  cbn [fst]. apply set_rows_grows, insert_if_absent_prefix.
Qed.

Lemma appends_edge (params : list PyVal) :
  appends (execute pg_run RELATIONS_INSERT_QUERY params).
Proof.
  intros cur. unfold execute, RELATIONS_INSERT_QUERY, pg_run.
  destruct (bind_params _ params) as [new | e]; [| apply grows_refl].
  repeat split; cbn; try reflexivity. apply prefix_app_r. reflexivity.
Qed.

Lemma appends_fetchone (row : option (bool * bool)) : appends (fetchone row).
Proof. destruct row; intros cur; apply grows_refl. Qed.

Lemma appends_relation_item (value : PyVal) : appends (relation_item pg_run value).
Proof.
  unfold relation_item.
  repeat first
    [ apply appends_bind; [| intros ?]
    | apply appends_lift
    | apply appends_ret
    | apply appends_exists
    | apply appends_stub
    | apply appends_edge
    | apply appends_fetchone
    | match goal with
      | |- appends (let '(_, _) := ?p in _) => destruct p
      | |- appends (if ?c then _ else _) => destruct c
      end ].
Qed.

Lemma relation_items_grows (relation : list (Z * PyVal)) :
  forall cur log, grows cur (fst (relation_items pg_run relation cur log)).
Proof.
  induction relation as [|[item_id value] rest IH]; intros cur log.
  - apply grows_refl.
  - cbn [relation_items].
    pose proof (appends_relation_item value cur) as Hitem.
    destruct (relation_item pg_run value cur) as [cur' [[] | item_error]];
      cbn [fst] in Hitem; (eapply grows_trans; [exact Hitem | apply IH]).
Qed.


Lemma update_rows_uuids (columns : list string) (vals : Row) (v : PyVal)
    (t : list Row) :
  "practo_uuid" ∉ columns -> uuids (update_rows columns vals v t) = uuids t.
Proof.
  intros Hnot. unfold update_rows. destruct v; try reflexivity.
  unfold uuids. rewrite map_map. apply map_ext. intros row.
  destruct (uuid_is s row); [| reflexivity].
  rewrite set_excluded_lookup, bool_decide_eq_false_2 by assumption. reflexivity.
Qed.

Lemma update_counts_frame (key : string) (count bed_count amb_count practo_id : PyVal)
    (db : Db) :
  let cur := fst (update_counts pg_run key count bed_count amb_count practo_id db) in
  uuids (doctors cur) = uuids (doctors db)
  /\ uuids (establishments cur) = uuids (establishments db)
  /\ doctor_establishment cur = doctor_establishment db.
Proof.
  unfold update_counts, mapping, mbind, txn_bind, lift, execute.
  destruct (String.eqb key "hospital" || String.eqb key "clinic") eqn:Hk.
  - assert (String.eqb key "doctor" = false) as ->.
    { apply orb_true_iff in Hk as [H | H]; apply String.eqb_eq in H; subst;
        reflexivity. }
    unfold pg_run. destruct (bind_params _ _) as [new | e]; [| repeat split].
    cbn. repeat split. apply update_rows_uuids.
    intros Hin. repeat (apply elem_of_cons in Hin as [Hin | Hin]; [discriminate |]).
    inversion Hin.
  - destruct (String.eqb key "doctor"); [| repeat split].
    unfold pg_run. destruct (bind_params _ _) as [new | e]; [| repeat split].
    cbn. repeat split. apply update_rows_uuids.
    intros Hin. repeat (apply elem_of_cons in Hin as [Hin | Hin]; [discriminate |]).
    inversion Hin.
Qed.

Lemma prefix_map {A B : Type} (f : A -> B) (l1 l2 : list A) :
  l1 `prefix_of` l2 -> map f l1 `prefix_of` map f l2.
Proof. intros [k ->]. rewrite map_app. apply prefix_app_r. reflexivity. Qed.

(** X17.  The relation pass never removes or rewrites what it finds:
    the statements of its loop only append rows to the three tables,
    and over the whole of [insert_relation_data], count update
    included, every entity keeps its place and its UUID and every
    edge stays as it was, new rows coming after the old ones. *)
Theorem relation_pass_appends (relation : list (Z * PyVal))
    (count bed_count amb_count practo_id : PyVal) (key : string) (db : Db) :
  (forall cur log, grows cur (fst (relation_items pg_run relation cur log)))
  /\ uuids (doctors db)
       `prefix_of`
     uuids (doctors
              (fst (fst (insert_relation_data pg_run relation count bed_count
                           amb_count practo_id key db))))
  /\ uuids (establishments db)
       `prefix_of`
     uuids (establishments
              (fst (fst (insert_relation_data pg_run relation count bed_count
                           amb_count practo_id key db))))
  /\ doctor_establishment db
       `prefix_of`
     doctor_establishment
       (fst (fst (insert_relation_data pg_run relation count bed_count
                    amb_count practo_id key db))).
Proof.
  split; [apply relation_items_grows |].
  unfold insert_relation_data.
  pose proof (update_counts_frame key count bed_count amb_count practo_id db)
    as Hframe. cbv zeta in Hframe.
  destruct (update_counts pg_run key count bed_count amb_count practo_id db)
    as [cur [[] | error]]; cbn [fst] in *.
  - pose proof (relation_items_grows relation cur
                  [INFO_inserting_relation key practo_id]) as [Hd [He Hr]].
    destruct (relation_items pg_run relation cur _) as [cur' log'].
    cbn [fst] in *. destruct Hframe as [Fd [Fe Fr]].
    rewrite <- Fd, <- Fe, <- Fr.
    repeat split; [apply prefix_map, Hd | apply prefix_map, He | exact Hr].
  - repeat split; reflexivity.
Qed.

(** *** What the entity pass does to the store *)

Lemma entity_frame_refl (table : Table) (db : Db) : entity_frame table db db.
Proof. repeat split; reflexivity. Qed.

Lemma entity_frame_trans (table : Table) (a b c : Db) :
  entity_frame table a b -> entity_frame table b c -> entity_frame table a c.
Proof.
  intros [H1 [H2 H3]] [H1' [H2' H3']]. repeat split.
  - congruence.
  - congruence.
  - etransitivity; eassumption.
Qed.

Lemma upsert_rows_uuids (set_columns : list string) (u : string) (new : Row)
    (t : list Row) :
  "practo_uuid" ∉ set_columns ->
  uuids t `prefix_of` uuids (upsert_rows set_columns u new t).
Proof.
  intros Hnot. unfold upsert_rows. destruct (existsb (uuid_is u) t).
  - replace (uuids (map _ t)) with (uuids t); [reflexivity |].
    unfold uuids. rewrite map_map. apply map_ext. intros row.
    destruct (uuid_is u row); [| reflexivity].
    rewrite set_excluded_lookup, bool_decide_eq_false_2 by assumption. reflexivity.
  - unfold insert_row, uuids. rewrite map_app. apply prefix_app_r. reflexivity.
Qed.

Lemma main_item_frame (table : Table) (columns : list string) (value : PyVal)
    (cur : Db) :
  entity_frame table cur
    (fst (main_item pg_run
            (InsertOnConflictUpdate table columns (generate_do_update_clause columns))
            value cur)).
Proof.
  unfold main_item, mbind, txn_bind, lift, execute.
  destruct (values value) as [params | e]; [| apply entity_frame_refl].
  unfold pg_run.
  destruct (bind_params columns params) as [new | e]; [| apply entity_frame_refl].
  destruct (new !! "practo_uuid") as [[| | | |u| |]|]; try apply entity_frame_refl.
  cbn [fst]. destruct table; repeat split; cbn [rows set_rows other_table
    doctors establishments doctor_establishment];
    apply upsert_rows_uuids, uuid_not_set.
Qed.

Lemma main_loop_frame (table : Table) (columns : list string)
    (data : list (string * PyVal)) :
  forall cur success_count failure_count log,
    entity_frame table cur
      (fst (fst (fst (main_loop pg_run
                        (InsertOnConflictUpdate table columns
                           (generate_do_update_clause columns))
                        data cur success_count failure_count log)))).
Proof.
  induction data as [|[item_id value] rest IH]; intros cur sc fc log.
  - apply entity_frame_refl.
  - cbn [main_loop].
    pose proof (main_item_frame table columns value cur) as Hitem.
    destruct (main_item pg_run _ value cur) as [cur' [[] | item_error]];
      cbn [fst] in Hitem; (eapply entity_frame_trans; [exact Hitem | apply IH]).
Qed.

(** X18.  The entity pass writes to the table of its query and to
    nothing else: [insert_main_data] with an upsert whose update
    clause comes from [generate_do_update_clause] leaves the other
    entity table and the edges as they were, and in its own table
    every row that was there keeps its place and its UUID. *)
Theorem entity_pass_frame (table : Table) (columns : list string)
    (data : list (string * PyVal)) (db : Db) :
  entity_frame table db
    (fst (insert_main_data pg_run data
            (InsertOnConflictUpdate table columns (generate_do_update_clause columns))
            db)).
Proof.
  unfold insert_main_data.
  pose proof (main_loop_frame table columns data db 0%nat 0%nat
                [INFO_inserting_main (length data)]) as H.
  destruct (main_loop pg_run _ data db 0%nat 0%nat _) as [[[cur sc] fc] log].
  exact H.
Qed.

(** ** The page of a listing *)

Section PipelineProperties.

Context {World Db : Type}.
Variable request : string -> World -> Attempt * World.
Variable sleep : Z -> World -> World.
Variable run : Query -> list PyVal -> Db -> Db * res (option (bool * bool)).
Variable repr : PyVal -> string.
Variable json_dumps : PyVal -> string.
Variable h3_text : string -> string -> option string.

Lemma profile_loop_counts (result_type : PyVal)
    (profile : list (string * PyVal * PyVal)) :
  forall (w : World) (db : Db) (success_count error_count : Z),
    let '(_, _, success_count', error_count') :=
      profile_loop request sleep run repr h3_text result_type profile w db
        success_count error_count in
    success_count' + error_count'
    = success_count + error_count + Z.of_nat (length profile)
    /\ success_count <= success_count' /\ error_count <= error_count'.
Proof.
  induction profile as [|[[practo_id slug] url] rest IH]; intros w db sc ec.
  - cbn. lia.
  - cbn [profile_loop length].
    assert (Hrest : forall w' db' sc' ec',
               sc' + ec' = sc + ec + 1 -> sc <= sc' -> ec <= ec' ->
               let '(_, _, success_count', error_count') :=
                 profile_loop request sleep run repr h3_text result_type rest
                   w' db' sc' ec' in
               success_count' + error_count'
               = sc + ec + Z.of_nat (S (length rest))
               /\ sc <= success_count' /\ ec <= error_count').
    { intros w' db' sc' ec' Hsum Hs He. specialize (IH w' db' sc' ec').
      destruct (profile_loop request sleep run repr h3_text result_type rest
                  w' db' sc' ec') as [[[? ?] ?] ?]. lia. }
    destruct (entity_type result_type) as [k | e0]; [| apply Hrest; lia].
    destruct (make_request request sleep _ 3 2 true w)
      as [[[profile_response | e1] w1] done1]; [| apply Hrest; lia].
    destruct (make_request request sleep _ 3 2 false w1)
      as [[[html | e2] w2] done2]; [| apply Hrest; lia].
    destruct (parse_and_store_relation run repr h3_text _ _ _ result_type db)
      as [db' [|]]; apply Hrest; lia.
Qed.

(** X19.  Every entry of the profile list of a page is counted
    exactly once, as a success or as an error, whatever the fetches,
    the extractors and the store do: the two counters never go down,
    and together they go up by the length of the list. *)
Theorem profile_loop_accounts (result_type : PyVal)
    (profile : list (string * PyVal * PyVal)) (w : World) (db : Db)
    (success_count error_count : Z) :
  snd (fst (profile_loop request sleep run repr h3_text result_type profile w db
              success_count error_count))
  + snd (profile_loop request sleep run repr h3_text result_type profile w db
           success_count error_count)
  = success_count + error_count + Z.of_nat (length profile)
  /\ success_count
     <= snd (fst (profile_loop request sleep run repr h3_text result_type profile
                    w db success_count error_count))
  /\ error_count
     <= snd (profile_loop request sleep run repr h3_text result_type profile w db
               success_count error_count).
Proof.
  pose proof (profile_loop_counts result_type profile w db success_count error_count)
    as H.
  destruct (profile_loop request sleep run repr h3_text result_type profile w db
              success_count error_count) as [[[w' db'] sc'] ec'].
  exact H.
Qed.

(** X20.  A page that names no entity type is passed over: with the
    result type missing, null or empty the committed rows, the world
    and the two counters stay as they are, although the page may list
    entities.  A page that names a type other than [hospital],
    [clinic] and [doctor] counts one error, and nothing is requested
    or stored for it either. *)
Theorem page_body_without_type (page : Z) (page_response : Payload)
    (result_type : PyVal) (w : World) (db : Db) :
  get2 (payload_value page_response) "form" "results_type" PNone = Ok result_type ->
  (forall k, entity_type result_type <> Ok k) ->
  page_body_of request sleep run repr json_dumps h3_text page page_response (w, db)
  = (w, db, 0, if truthy result_type then 1 else 0).
Proof.
  intros Hget Hnone. unfold page_body_of. rewrite Hget.
  destruct (truthy result_type); [| reflexivity]. cbn [negb].
  unfold parse_and_store_main.
  destruct (entity_type result_type) as [k | e] eqn:Hk.
  - exfalso. exact (Hnone k eq_refl).
  - cbn [mbind res_bind].
    destruct result_type as [| | | |s| |]; cbn in Hk;
      try (injection Hk as <-; reflexivity).
    destruct (String.eqb s "hospital" || String.eqb s "clinic"
              || String.eqb s "doctor"); [discriminate |].
    injection Hk as <-. reflexivity.
Qed.

(** X21.  [parse_and_store_main] turns every [KeyError] and
    [TypeError] into [ValueError], and when it raises, whatever the
    exception, nothing has been written: the committed rows are the
    ones it was called with. *)
Theorem parse_and_store_main_raises (response result_type : PyVal) (db db' : Db)
    (e : exn) :
  parse_and_store_main run repr json_dumps response result_type db = (db', Raise e) ->
  db' = db /\ e <> KeyError /\ e <> TypeError.
Proof.
  unfold parse_and_store_main. intros H.
  destruct (entity_type result_type ≫= _) as [[[data profile] query] | e0].
  - destruct data; discriminate H.
  - destruct e0; injection H as <- <-; repeat split; discriminate.
Qed.

(** X22.  A relation pass that reports failure has written nothing:
    when [parse_and_store_relation] returns [False], the committed
    rows are the ones it was called with. *)
Theorem parse_and_store_relation_false (practo_id json_response : PyVal)
    (html_content : string) (result_type : PyVal) (db db' : Db) :
  parse_and_store_relation run repr h3_text practo_id json_response html_content
    result_type db = (db', false) ->
  db' = db.
Proof.
  unfold parse_and_store_relation. intros H.
  destruct (entity_type result_type) as [k | e]; [| injection H as <-; reflexivity].
  destruct (if String.eqb k "doctor" then _ else _)
    as [[[[data doctor_count] bed_count] amb_count] | e];
    [| injection H as <-; reflexivity].
  unfold insert_relation_data in H.
  destruct (update_counts run k doctor_count bed_count amb_count practo_id db)
    as [cur [[] | error]].
  - destruct (relation_items run data cur _) as [cur' log']. discriminate H.
  - injection H as <-. reflexivity.
Qed.

Lemma attempts_loop_beside (u : string) (max_retries retry_delay : Z)
    (return_json : bool) (attempts : list Z) :
  forall (w : World) (db : Db) (done : list Effect),
    attempts_loop (request_beside request) (sleep_beside sleep) u max_retries
      retry_delay return_json attempts (w, db) done
    = let '(r, w', done') :=
        attempts_loop request sleep u max_retries retry_delay return_json
          attempts w done in
      (r, (w', db), done').
Proof.
  induction attempts as [|attempt rest IH]; intros w db done; [reflexivity |].
  cbn [attempts_loop]. unfold request_beside at 1. cbn [fst snd].
  destruct (request u w) as [outcome w1].
  assert (Hagain :
    (let '(w2, done2) :=
       back_off (sleep_beside sleep) max_retries retry_delay attempt (w1, db)
         (done ++ [Requested u]) in
     attempts_loop (request_beside request) (sleep_beside sleep) u max_retries
       retry_delay return_json rest w2 done2)
    = (let '(r, w', done') :=
         (let '(w2, done2) :=
            back_off sleep max_retries retry_delay attempt w1
              (done ++ [Requested u]) in
          attempts_loop request sleep u max_retries retry_delay return_json
            rest w2 done2) in
       (r, (w', db), done'))).
  { unfold back_off, sleep_beside. cbn [fst snd].
    destruct (attempt <? max_retries - 1); apply IH. }
  destruct outcome as [| | |status body content]; try exact Hagain.
  destruct ((400 <=? status) && (status <? 600)).
  - destruct ((400 <=? status) && (status <? 500) && negb (status =? 429));
      [reflexivity | exact Hagain].
  - destruct return_json; [| reflexivity].
    destruct body as [value | error]; [reflexivity |].
    destruct (attempt =? max_retries - 1); [reflexivity | exact Hagain].
Qed.

(** X23.  A seed URL that gives nothing to traverse leaves the store
    alone: when its fetch fails, when its result count cannot be read
    or when the count is zero or less, [main] goes on to the next URL
    with the committed rows as they were, both counters at zero and
    no page requested, the world being the one the seed fetch left. *)
Theorem main_link_nothing_to_traverse (link : string) (w w1 : World) (db : Db)
    (r : res Payload) (done : list Effect) :
  make_request request sleep link 3 2 true w = (r, w1, done) ->
  (forall response count result_type,
      r = Ok response ->
      result_count link (payload_value response) = Ok (count, result_type) ->
      count <= 0) ->
  exists steps,
    main_link request sleep run repr json_dumps h3_text link (w, db)
    = (w1, db, 0, 0, steps)
    /\ pages_requested steps = [].
Proof.
  intros Hfetch Hcount. unfold main_link, process_link, make_request.
  rewrite attempts_loop_beside. unfold make_request in Hfetch. rewrite Hfetch.
  destruct r as [response | e]; [| eexists; split; reflexivity].
  destruct (result_count link (payload_value response)) as [[count result_type] | e]
    eqn:Hc; [| eexists; split; reflexivity].
  specialize (Hcount response count result_type eq_refl Hc).
  unfold traverse. destruct (count =? 0) eqn:H0; [eexists; split; reflexivity |].
  apply Z.eqb_neq in H0.
  assert (count / 10 < 0) by (apply Z.div_lt_upper_bound; lia).
  rewrite range_nil by lia. eexists. split; reflexivity.
Qed.

End PipelineProperties.

(** The statements at a page filed under the type [lab], at a profile
    whose second relation has an empty fee list, and at a listing
    that reports no result. *)
Lemma page_body_without_type_witness :
  page_body_of down_server no_sleep pg_run no_repr no_repr no_h3 2
    (Decoded_json page_of_labs) (0%nat, empty_store)
  = (0%nat, empty_store, 0, if truthy (PStr "lab") then 1 else 0).
Proof.
  apply (page_body_without_type down_server no_sleep pg_run no_repr no_repr no_h3 2
           (Decoded_json page_of_labs) (PStr "lab") 0%nat empty_store).
  - reflexivity.
  - intros k H. vm_compute in H. discriminate H.
Defined.

Lemma parse_and_store_main_raises_witness :
  empty_store = empty_store /\ ValueError <> KeyError /\ ValueError <> TypeError.
Proof.
  apply (parse_and_store_main_raises pg_run no_repr no_repr page_of_labs (PStr "lab")
           empty_store empty_store ValueError).
  reflexivity.
Defined.

Lemma parse_and_store_relation_false_witness :
  store_doctor_and_establishment = store_doctor_and_establishment.
Proof.
  apply (parse_and_store_relation_false pg_run no_repr no_h3 (PStr "doc-7")
           (doctor_profile [relation_three_timings; relation_empty_fees]) ""
           (PStr "doctor") store_doctor_and_establishment
           store_doctor_and_establishment).
  vm_compute. reflexivity.
Defined.

Lemma main_link_nothing_to_traverse_witness :
  exists steps,
    main_link listing_server no_sleep pg_run no_repr no_repr no_h3
      "https://www.practo.com/none?page=1" (0%nat, empty_store)
    = (1%nat, empty_store, 0, 0, steps)
    /\ pages_requested steps = [].
Proof.
  apply (main_link_nothing_to_traverse listing_server no_sleep pg_run no_repr no_repr
           no_h3 "https://www.practo.com/none?page=1" 0%nat 1%nat empty_store
           (Ok (Decoded_json
                  (PDict [("form",
                           PDict [("total_results", PStr "0");
                                  ("results_type", PStr "clinic")])])))
           [Requested "https://www.practo.com/none?page=1"]).
  - reflexivity.
  - intros response count result_type [= <-] H.
    vm_compute in H. injection H as <- _. lia.
Defined.

(** ** Initialisation *)

Section InitialisationProperties.

Context {Store : Type}.
Variable public_tables : Store -> list string.
Variable mapping_sql : Store -> res Store.

(** X24.  [init_db] looks for tables named [doctors],
    [establishments] and [doctor_establishment], not for the ones the
    queries of the pipeline use: on a database all of whose tables
    have names that start with [practo_] it counts none and executes
    [mapping.sql], on the first run and on every later one, and an
    exception of the script is its own. *)
Theorem init_db_overlooks_prefixed_tables (s : Store) :
  Forall (fun table_name => String.prefix "practo_" table_name = true)
    (public_tables s) ->
  table_count public_tables s = 0
  /\ init_db public_tables mapping_sql s
     = match mapping_sql s with
       | Ok s' => (s', Ok ())
       | Raise e => (s, Raise e)
       end.
Proof.
  intros Hall.
  assert (Hcount : table_count public_tables s = 0).
  { unfold table_count. induction Hall as [|t ts Ht _ IH]; [reflexivity |].
    cbn [List.filter existsb].
    destruct (String.eqb t "doctors") eqn:H1;
      [apply String.eqb_eq in H1; subst t; discriminate Ht |].
    destruct (String.eqb t "establishments") eqn:H2;
      [apply String.eqb_eq in H2; subst t; discriminate Ht |].
    destruct (String.eqb t "doctor_establishment") eqn:H3;
      [apply String.eqb_eq in H3; subst t; discriminate Ht |].
    exact IH. }
  split; [exact Hcount |].
  unfold init_db. rewrite Hcount. reflexivity.
Qed.

End InitialisationProperties.

(** The statement at a database that holds the three tables of the
    pipeline. *)
Lemma init_db_overlooks_prefixed_tables_witness :
  table_count (fun s : list string => s) tables_of_the_pipeline = 0
  /\ init_db (fun s : list string => s) script_of_one_table tables_of_the_pipeline
     = match script_of_one_table tables_of_the_pipeline with
       | Ok s' => (s', Ok ())
       | Raise e => (tables_of_the_pipeline, Raise e)
       end.
Proof.
  apply (init_db_overlooks_prefixed_tables (fun s : list string => s)
           script_of_one_table tables_of_the_pipeline).
  repeat constructor.
Defined.
